(** * history-analyzer: a shallow embedding of [history-analyzer.py]

    The development follows the Python source top to bottom: the [Command]
    usage record and its methods, the history parser, the colour mapper, the
    bucket reporters and the calendar renderer.

    Modelling conventions.
    - A Python [str] is a [string]; its characters are read as the code points
      0..255, so the model covers Latin-1 text.
    - A naive [datetime] is the number of microseconds since
      0001-01-01T00:00:00; a [date] is its proleptic Gregorian ordinal
      ([date.toordinal()]), so 0001-01-01 is day 1.
    - A [Counter] is a finite map to [Z] together with the identity of the
      container object; missing keys read as 0.
    - Every list or Counter built by the program draws a fresh identity from an
      allocation counter that is threaded through the code, so that two
      references to one object can be told from two equal objects.
    - An exception is a value of [exn]; a call that can raise returns [res]. *)

From Stdlib Require Import ZArith List Ascii String Lia Bool Sorted.
From Stdlib Require Import Floats.SpecFloat.
From stdpp Require Import base option list gmap strings fin_maps.

Local Open Scope string_scope.
Local Open Scope Z_scope.

(** ** Exceptions and results *)

Inductive exn : Type :=
| IndexError
| KeyError
| ValueError
| ZeroDivisionError
| OverflowError
| TimestampError.

Inductive res (A : Type) : Type :=
| Ok (a : A)
| Raise (e : exn).
Arguments Ok {A} a.
Arguments Raise {A} e.

Definition res_bind {A B} (r : res A) (k : A -> res B) : res B :=
  match r with
  | Ok a => k a
  | Raise e => Raise e
  end.

Declare Scope res_scope.
Delimit Scope res_scope with res.
Notation "'try' x <- e 'in' k" := (res_bind e (fun x => k))
  (at level 10, x name, e at level 100, k at level 200) : res_scope.

Definition is_ok {A} (r : res A) : bool :=
  match r with Ok _ => true | Raise _ => false end.

(** ** Object identities *)

Definition loc := N.

(** A Python list object: its identity and its items. *)
Record pylist (A : Type) : Type := PyList {
  list_id : loc;
  list_items : list A
}.
Arguments PyList {A} _ _.
Arguments list_id {A} _.
Arguments list_items {A} _.

(** A [collections.Counter] object. *)
Record Counter (K : Type) `{Countable K} : Type := MkCounter {
  counter_id : loc;
  counts : gmap K Z
}.
Arguments MkCounter {K _ _} _ _.
Arguments counter_id {K _ _} _.
Arguments counts {K _ _} _.

(** ** Dates and times *)

Record datetime : Type := MkDatetime { micros : Z }.

Definition US_PER_SECOND : Z := 1000000.
Definition US_PER_HOUR : Z := 3600 * US_PER_SECOND.
Definition US_PER_DAY : Z := 86400 * US_PER_SECOND.

(** [date.max.toordinal()], the ordinal of 9999-12-31. *)
Definition MAXORDINAL : Z := 3652059.

(** [time.date()], as an ordinal. *)
Definition dt_date (t : datetime) : Z := 1 + micros t / US_PER_DAY.

(** [time.weekday()]: [(toordinal() + 6) % 7], Monday is 0 and Sunday is 6. *)
Definition date_weekday (ordinal : Z) : Z := (ordinal + 6) mod 7.
Definition dt_weekday (t : datetime) : Z := date_weekday (dt_date t).

(** [time.hour]. *)
Definition dt_hour (t : datetime) : Z := (micros t / US_PER_HOUR) mod 24.

Definition dt_ltb (a b : datetime) : bool := micros a <? micros b.
Definition dt_leb (a b : datetime) : bool := micros a <=? micros b.

(** ** Counters *)

Section counters.
Context {K : Type} `{Countable K}.

(** [c[k]]: a missing key reads as 0 and is not inserted. *)
Definition counter_get (m : gmap K Z) (k : K) : Z := default 0 (m !! k).

(** [c[k] += 1]. *)
Definition counter_incr (k : K) (m : gmap K Z) : gmap K Z :=
  <[k := counter_get m k + 1]> m.

(** [sum(c.values())]. *)
Definition counter_total (m : gmap K Z) : Z :=
  map_fold (fun _ v acc => v + acc) 0 m.

(** [c += other]: add the counts of [other], then keep the positive ones. *)
Definition counter_iadd (m other : gmap K Z) : gmap K Z :=
  filter (fun kv => 0 < kv.2) (union_with (fun a b => Some (a + b)) m other).
End counters.

(** ** The usage record: class [Command] *)

(** One element of [uses]: the two-element list [[time, arguments]]. *)
Record use : Type := MkUse {
  use_id : loc;
  use_time : datetime;
  use_args : pylist string
}.

Record Command : Type := MkCommand {
  name : string;
  count : Z;
  uses_id : loc;
  uses : list use;
  most_recent_use : option datetime;
  calendar_usage : Counter Z;
  weekly_usage : Counter Z;
  hourly_usage : Counter Z;
  flags : Counter string
}.

(** [Command(name)]: five fresh containers. *)
Definition Command_init (nm : string) (next : loc) : Command * loc :=
  ({| name := nm;
      count := 0;
      uses_id := next;
      uses := [];
      most_recent_use := None;
      calendar_usage := MkCounter (next + 1)%N ∅;
      weekly_usage := MkCounter (next + 2)%N ∅;
      hourly_usage := MkCounter (next + 3)%N ∅;
      flags := MkCounter (next + 4)%N ∅ |},
   (next + 5)%N).

(** The loop of [_get_flags]; [argument[0]] raises on the empty string. *)
Fixpoint get_flags_loop (argument_list : list string) (flags : gmap string Z)
  : res (gmap string Z) :=
  match argument_list with
  | [] => Ok flags
  | argument :: rest =>
      match argument with
      | EmptyString => Raise IndexError
      | String c _ =>
          if Ascii.eqb c "-"%char && (1 <? Z.of_nat (String.length argument))
          then get_flags_loop rest (counter_incr argument flags)
          else get_flags_loop rest flags
      end
  end.

(** [_get_flags]: the result is a fresh Counter. *)
Definition _get_flags (argument_list : pylist string) (next : loc)
  : res (Counter string) * loc :=
  (match get_flags_loop (list_items argument_list) ∅ with
   | Ok m => Ok (MkCounter next m)
   | Raise e => Raise e
   end, (next + 1)%N).

(** [add_use]: the record is updated in place, so the updates made before an
    exception stay visible; the result pairs the record after the call with
    the outcome. *)
Definition add_use (time : datetime) (arguments : pylist string)
    (self : Command) (next : loc) : Command * res unit * loc :=
  let entry := MkUse next time arguments in
  let self1 :=
    {| name := name self;
       count := count self + 1;
       uses_id := uses_id self;
       uses := uses self ++ [entry];
       most_recent_use := most_recent_use self;
       calendar_usage :=
         MkCounter (counter_id (calendar_usage self))
           (counter_incr (dt_date time) (counts (calendar_usage self)));
       weekly_usage :=
         MkCounter (counter_id (weekly_usage self))
           (counter_incr (dt_weekday time) (counts (weekly_usage self)));
       hourly_usage :=
         MkCounter (counter_id (hourly_usage self))
           (counter_incr (dt_hour time) (counts (hourly_usage self)));
       flags := flags self |} in
  match _get_flags arguments (next + 1)%N with
  | (Raise e, next') => (self1, Raise e, next')
  | (Ok found, next') =>
      let recent :=
        match most_recent_use self1 with
        | None => Some time
        | Some m => if dt_ltb m time then Some time else Some m
        end in
      ({| name := name self1;
          count := count self1;
          uses_id := uses_id self1;
          uses := uses self1;
          most_recent_use := recent;
          calendar_usage := calendar_usage self1;
          weekly_usage := weekly_usage self1;
          hourly_usage := hourly_usage self1;
          flags :=
            MkCounter (counter_id (flags self1))
              (counter_iadd (counts (flags self1)) (counts found)) |},
       Ok tt, next')
  end.


(** The [for] loops of [get_uses_from_date] and [get_last_n_uses]: every use
    that passes the test is replayed into [new_cmd] with the source's time and
    the source's argument list object.  An exception leaves the loop. *)
Fixpoint replay_uses (keep : use -> bool) (us : list use) (new_cmd : Command)
    (next : loc) : res Command * loc :=
  match us with
  | [] => (Ok new_cmd, next)
  | u :: rest =>
      if keep u then
        match add_use (use_time u) (use_args u) new_cmd next with
        | (new_cmd', Ok _, next') => replay_uses keep rest new_cmd' next'
        | (_, Raise e, next') => (Raise e, next')
        end
      else replay_uses keep rest new_cmd next
  end.

(** [new_cmd.most_recent_use = self.most_recent_use]. *)
Definition set_most_recent_use (m : option datetime) (c : Command) : Command :=
  {| name := name c;
     count := count c;
     uses_id := uses_id c;
     uses := uses c;
     most_recent_use := m;
     calendar_usage := calendar_usage c;
     weekly_usage := weekly_usage c;
     hourly_usage := hourly_usage c;
     flags := flags c |}.

(** The test of the loop of [get_uses_from_date]. *)
Definition in_range (date stop_date : datetime) (u : use) : bool :=
  dt_leb date (use_time u) && dt_leb (use_time u) stop_date.

(** [get_uses_from_date]; [now] is what [datetime.now()] returns.  The result
    is the source record after the call, the outcome and the allocator. *)
Definition get_uses_from_date (now : datetime) (date : datetime)
    (stop_date : option datetime) (self : Command) (next : loc)
  : Command * res Command * loc :=
  let stop_date := match stop_date with None => now | Some d => d end in
  let '(new_cmd, next1) := Command_init (name self) next in
  match replay_uses (in_range date stop_date) (uses self) new_cmd next1 with
  | (Ok new_cmd', next2) =>
      (self, Ok (set_most_recent_use (most_recent_use self) new_cmd'), next2)
  | (Raise e, next2) => (self, Raise e, next2)
  end.

(** [list.sort(key=lambda x: x[0])] is stable: an element goes in front of the
    first element whose key is not smaller. *)
Fixpoint sort_insert (u : use) (sorted : list use) : list use :=
  match sorted with
  | [] => [u]
  | v :: rest =>
      if dt_ltb (use_time v) (use_time u) then v :: sort_insert u rest
      else u :: v :: rest
  end.

Definition sort_by_time (us : list use) : list use :=
  foldr sort_insert [] us.

(** [_sort_uses]: sorts the list object in place. *)
Definition _sort_uses (self : Command) : Command :=
  {| name := name self;
     count := count self;
     uses_id := uses_id self;
     uses := sort_by_time (uses self);
     most_recent_use := most_recent_use self;
     calendar_usage := calendar_usage self;
     weekly_usage := weekly_usage self;
     hourly_usage := hourly_usage self;
     flags := flags self |}.

(** The slice [l[start:]]: a negative [start] counts from the end. *)
Definition slice_from {A} (start : Z) (l : list A) : list A :=
  let len := Z.of_nat (length l) in
  let start' := if start <? 0 then Z.max (len + start) 0 else start in
  drop (Z.to_nat start') l.

(** [get_last_n_uses]: the slice is a new list object. *)
Definition get_last_n_uses (n_uses : Z) (self : Command) (next : loc)
  : Command * res Command * loc :=
  let self' := _sort_uses self in
  let '(new_cmd, next1) := Command_init (name self') next in
  let us := PyList next1 (slice_from (- n_uses) (uses self')) in
  match replay_uses (fun _ => true) (list_items us) new_cmd (next1 + 1)%N with
  | (Ok new_cmd', next2) =>
      (self', Ok (set_most_recent_use (most_recent_use self') new_cmd'), next2)
  | (Raise e, next2) => (self', Raise e, next2)
  end.

(** ** Strings *)

Definition code (c : ascii) : Z := Z.of_N (N_of_ascii c).

(** [str.isspace] on the code points below 256. *)
Definition is_space (c : ascii) : bool :=
  let n := code c in
  ((9 <=? n) && (n <=? 13)) || ((28 <=? n) && (n <=? 32))
  || (n =? 133) || (n =? 160).

(** [s[n:]] for a non-negative [n]. *)
Fixpoint str_drop (n : nat) (s : string) : string :=
  match n, s with
  | O, _ => s
  | S _, EmptyString => EmptyString
  | S n', String _ s' => str_drop n' s'
  end.

(** [s.startswith(p)]. *)
Definition startswith (s p : string) : bool := String.prefix p s.

(** [s.split()]: the maximal runs of non-space characters; [cur] is the run
    being read, in reverse. *)
Fixpoint split_loop (s : string) (cur : list ascii) : list string :=
  let flush (k : list string) :=
    match cur with
    | [] => k
    | _ => string_of_list_ascii (rev cur) :: k
    end in
  match s with
  | EmptyString => flush []
  | String c s' =>
      if is_space c then flush (split_loop s' [])
      else split_loop s' (c :: cur)
  end.

Definition split (s : string) : list string := split_loop s [].

(** *** [int(s)] *)

(** The blanks [int] accepts around the number: the ASCII blanks, and the
    spaces above 127, which it first rewrites to a blank. *)
Definition is_int_space (c : ascii) : bool :=
  let n := code c in
  ((9 <=? n) && (n <=? 13)) || (n =? 32) || (n =? 133) || (n =? 160).

Definition digit_value (c : ascii) : option Z :=
  let n := code c in
  if (48 <=? n) && (n <=? 57) then Some (n - 48) else None.

(** [sys.get_int_max_str_digits()], the default. *)
Definition MAX_STR_DIGITS : Z := 4300.

Fixpoint skip_int_space (s : list ascii) : list ascii :=
  match s with
  | c :: s' => if is_int_space c then skip_int_space s' else s
  | [] => []
  end.

(** The digits after the first one; an underscore must stand between two
    digits.  Returns the value, the number of digits and what follows. *)
Fixpoint int_digits (s : list ascii) (acc ndigits : Z)
  : option (Z * Z * list ascii) :=
  match s with
  | c :: s' =>
      match digit_value c with
      | Some d => int_digits s' (acc * 10 + d) (ndigits + 1)
      | None =>
          if Ascii.eqb c "_"%char then
            match s' with
            | c' :: s'' =>
                match digit_value c' with
                | Some d => int_digits s'' (acc * 10 + d) (ndigits + 1)
                | None => None
                end
            | [] => None
            end
          else Some (acc, ndigits, s)
      end
  | [] => Some (acc, ndigits, [])
  end.

Definition py_int (s : string) : res Z :=
  let s1 := skip_int_space (list_ascii_of_string s) in
  let '(negative, s2) :=
    match s1 with
    | c :: s' =>
        if Ascii.eqb c "-"%char then (true, s')
        else if Ascii.eqb c "+"%char then (false, s')
        else (false, s1)
    | [] => (false, s1)
    end in
  match s2 with
  | c :: s3 =>
      match digit_value c with
      | Some d =>
          match int_digits s3 d 1 with
          | Some (v, ndigits, rest) =>
              match skip_int_space rest with
              | [] =>
                  if MAX_STR_DIGITS <? ndigits then Raise ValueError
                  else Ok (if negative then - v else v)
              | _ :: _ => Raise ValueError
              end
          | None => Raise ValueError
          end
      | None => Raise ValueError
      end
  | [] => Raise ValueError
  end.

(** ** [datetime.fromtimestamp] *)

(** The ordinal of 1970-01-01 is 719163.  [tz u] is the offset of local time
    from UTC, in seconds, at the instant [u], on a platform whose [time_t]
    has 64 bits and counts no leap seconds.  [local_seconds] is the local
    time of the instant [u] in seconds since 0001-01-01T00:00:00, as
    [utc_to_seconds] computes it from the fields that [localtime] returns.
    CPython raises [ValueError], [OverflowError] or [OSError] when the local
    year is outside 1..9999, depending on how far outside; the model has one
    exception, [TimestampError], for the three. *)
Definition max_fold_seconds : Z := 24 * 3600.

Definition local_seconds (tz : Z -> Z) (u : Z) : res Z :=
  let s := 719162 * 86400 + u + tz u in
  if (0 <=? s) && (s <? MAXORDINAL * 86400) then Ok s
  else Raise TimestampError.

(** [datetime.fromtimestamp(t)] with an integer [t] and no time zone.  After
    the conversion of [t] itself it converts the instant [max_fold_seconds]
    earlier, to find out whether the local time is one that is repeated, and,
    when the offset has gone down in between, the instant [t + transition]
    as well; each of the conversions can raise, so that the first day of the
    year 1 is refused.  The [fold] that is computed plays no part in the
    comparison of naive datetimes and is not kept. *)
Definition fromtimestamp (tz : Z -> Z) (t : Z) : res datetime :=
  (try result_seconds <- local_seconds tz t in
   try probe_seconds <- local_seconds tz (t - max_fold_seconds) in
   let transition := result_seconds - probe_seconds - max_fold_seconds in
   try _ <- (if transition <? 0 then local_seconds tz (t + transition)
             else Ok probe_seconds) in
   Ok (MkDatetime (result_seconds * US_PER_SECOND)))%res.

(** ** The history parser *)

(** A [dict] from names to records, in insertion order. *)
Definition dict := list (string * Command).

Fixpoint dict_get (d : dict) (k : string) : option Command :=
  match d with
  | [] => None
  | (k', v) :: d' => if String.eqb k' k then Some v else dict_get d' k
  end.

(** [d[k] = v]: an existing key keeps its place. *)
Fixpoint dict_set (d : dict) (k : string) (v : Command) : dict :=
  match d with
  | [] => [(k, v)]
  | (k', v') :: d' =>
      if String.eqb k' k then (k, v) :: d' else (k', v') :: dict_set d' k v
  end.

(** [d.setdefault(k, v)], for its effect on [d]. *)
Definition dict_setdefault (d : dict) (k : string) (v : Command) : dict :=
  match dict_get d k with
  | Some _ => d
  | None => dict_set d k v
  end.

(** The body of the loop of [parse_commands] for a line that starts with the
    marker; [lines] is the whole input and [line_num] the index of [line]. *)
Definition parse_entry (tz : Z -> Z) (lines : list string) (line_num : nat)
    (line : string) (commands : dict) (next : loc) : res dict * loc :=
  match lines !! (line_num + 1)%nat with
  | None => (Raise IndexError, next)
  | Some following =>
      match py_int (str_drop 6 following) with
      | Raise e => (Raise e, next)
      | Ok t =>
          match fromtimestamp tz t with
          | Raise e => (Raise e, next)
          | Ok when =>
              let full_cmd := PyList next (split (str_drop 7 line)) in
              match list_items full_cmd with
              | [] => (Raise IndexError, (next + 1)%N)
              | cmd :: rest =>
                  let arguments := PyList (next + 1)%N rest in
                  let '(fresh, next1) := Command_init cmd (next + 2)%N in
                  let commands1 := dict_setdefault commands cmd fresh in
                  match dict_get commands1 cmd with
                  | None => (Raise KeyError, next1)
                  | Some c =>
                      match add_use when arguments c next1 with
                      | (c', Ok _, next2) =>
                          (Ok (dict_set commands1 cmd c'), next2)
                      | (_, Raise e, next2) => (Raise e, next2)
                      end
                  end
              end
          end
      end
  end.

Fixpoint parse_loop (tz : Z -> Z) (lines : list string) (line_num : nat)
    (rest : list string) (commands : dict) (next : loc) : res dict * loc :=
  match rest with
  | [] => (Ok commands, next)
  | line :: rest' =>
      if startswith line "- cmd: " then
        match parse_entry tz lines line_num line commands next with
        | (Ok commands', next') =>
            parse_loop tz lines (S line_num) rest' commands' next'
        | (Raise e, next') => (Raise e, next')
        end
      else parse_loop tz lines (S line_num) rest' commands next
  end.

(** [parse_commands] returns the mapping and nothing else. *)
Definition parse_commands (tz : Z -> Z) (lines : list string) (next : loc)
  : res dict * loc :=
  parse_loop tz lines 0 lines [] next.

(** ** Floating point

    A Python [float] is an IEEE 754 binary64 number; the operations are those
    of the reference implementation [SpecFloat], rounding to nearest, ties to
    even. *)

Definition float := spec_float.
Definition prec : Z := 53.
Definition emax : Z := 1024.

(** An integer as an unrounded binary number. *)
Definition exact_of_Z (z : Z) : spec_float :=
  match z with
  | Z0 => S754_zero false
  | Zpos p => S754_finite false p 0
  | Zneg p => S754_finite true p 0
  end.

(** [float(z)]: the nearest double; too large an integer raises. *)
Definition float_of_int (z : Z) : res float :=
  match binary_normalize prec emax z 0 false with
  | S754_infinity _ => Raise OverflowError
  | f => Ok f
  end.

(** [a / b] on integers: the correctly rounded quotient. *)
Definition int_truediv (a b : Z) : res float :=
  if b =? 0 then Raise ZeroDivisionError
  else
    match SFdiv prec emax (exact_of_Z a) (exact_of_Z b) with
    | S754_infinity _ => Raise OverflowError
    | f => Ok f
    end.

Definition float_mul (x y : float) : float := SFmul prec emax x y.
Definition float_sub (x y : float) : float := SFsub prec emax x y.
Definition float_ltb (x y : float) : bool := SFltb x y.

(** The literals [0.7], [3], [9], [1] and [0] as doubles. *)
Definition f0_7 : float := SFdiv prec emax (exact_of_Z 7) (exact_of_Z 10).
Definition float_lit (z : Z) : float := binary_normalize prec emax z 0 false.

(** The integer part of a finite double [m * 2^e], by a rounding of the
    quotient of [m] by [2^-e]. *)
Definition float_to_int (rnd : Z -> Z -> Z) (f : float) : res Z :=
  match f with
  | S754_zero _ => Ok 0
  | S754_nan => Raise ValueError
  | S754_infinity _ => Raise OverflowError
  | S754_finite s m e =>
      let v := if s then Zneg m else Zpos m in
      Ok (if 0 <=? e then v * 2 ^ e else rnd v (2 ^ (- e)))
  end.

Definition div_floor (v d : Z) : Z := v / d.
Definition div_ceil (v d : Z) : Z := - ((- v) / d).
Definition div_half_even (v d : Z) : Z :=
  let q := v / d in
  let r := v mod d in
  match 2 * r ?= d with
  | Lt => q
  | Gt => q + 1
  | Eq => if Z.even q then q else q + 1
  end.

(** [math.floor], [math.ceil] and [round] with one argument. *)
Definition py_floor : float -> res Z := float_to_int div_floor.
Definition py_ceil : float -> res Z := float_to_int div_ceil.
Definition py_round : float -> res Z := float_to_int div_half_even.

(** ** The colour mapper *)

Definition ESC : string := String (ascii_of_nat 27) EmptyString.

Definition colors : list string :=
  [ ESC ++ "[38;2;38;38;38m";
    ESC ++ "[38;2;45;59;45m";
    ESC ++ "[38;2;51;81;52m";
    ESC ++ "[38;2;55;104;58m";
    ESC ++ "[38;2;57;127;69m";
    ESC ++ "[38;2;55;152;69m";
    ESC ++ "[38;2;55;176;73m";
    ESC ++ "[38;2;49;202;76m";
    ESC ++ "[38;2;36;228;79m";
    ESC ++ "[38;2;0;255;81m" ].

(** A list index as Python reads it: negative indices count from the end. *)
Definition py_index {A} (l : list A) (i : Z) : res A :=
  let len := Z.of_nat (length l) in
  let i' := if i <? 0 then i + len else i in
  if (0 <=? i') && (i' <? len) then
    match l !! Z.to_nat i' with
    | Some x => Ok x
    | None => Raise IndexError
    end
  else Raise IndexError.

(** The value of [max(min(1, strength), 0)] is the integer 1, the integer 0
    or the float itself. *)
Inductive number : Type :=
| NInt (z : Z)
| NFloat (f : float).

Definition clamp_strength (strength : float) : number :=
  let low := if float_ltb strength (float_lit 1) then NFloat strength
             else NInt 1 in
  match low with
  | NInt z => if 0 >? z then NInt 0 else NInt z
  | NFloat f => if float_ltb f (float_lit 0) then NInt 0 else NFloat f
  end.

(** [color_strength]: the palette index and the style [colors[index]] that
    is put in front of the text (the text and the reset code follow it). *)
Definition color_index (strength : float) : res Z :=
  match clamp_strength strength with
  | NInt z => Ok (z * (Z.of_nat (length colors) - 1))
  | NFloat f =>
      py_floor (float_mul f (float_lit (Z.of_nat (length colors) - 1)))
  end.

Definition color_strength (strength : float) : res string :=
  (try index <- color_index strength in py_index colors index)%res.

(** ** The bucket reporters *)

(** [c.most_common(1)[0][1]]: the largest count; an empty Counter has no
    first element. *)
Definition counter_peak {K} `{Countable K} (m : gmap K Z) : res Z :=
  match map_fold (fun _ v acc =>
                    Some (match acc with None => v | Some a => Z.max v a end))
                 None m with
  | Some p => Ok p
  | None => Raise IndexError
  end.

(** One printed line: the label, the number of squares in the bar, the width
    of the bar field and the count after it. *)
Record bar_line : Type := MkBarLine {
  bl_label : string;
  bl_bar : Z;
  bl_cols : Z;
  bl_commands : Z
}.

(** [round((width * 0.7) - 3)]. *)
Definition bar_cols (width : Z) : res Z :=
  (try w <- float_of_int width in
   py_round (float_sub (float_mul w f0_7) (float_lit 3)))%res.

(** The body of the loops of [print_week_usage] and [print_time_usage].  A
    string times a negative number is empty; a negative field width is
    refused by the format ([ValueError]). *)
Definition bar_row (width : Z) (label : string) (commands most_frequent : Z)
  : res bar_line :=
  (try freq <- int_truediv commands most_frequent in
   try cols <- bar_cols width in
   try c <- float_of_int cols in
   try n <- py_floor (float_mul c freq) in
   let bar := Z.max 0 n in
   if cols <? 0 then Raise ValueError
   else Ok (MkBarLine label bar cols commands))%res.

Fixpoint bar_rows (width : Z) (labels : list string) (bucket : Z)
    (usage : gmap Z Z) (most_frequent : Z) : res (list bar_line) :=
  match labels with
  | [] => Ok []
  | label :: labels' =>
      (try line <- bar_row width label (counter_get usage bucket)
                     most_frequent in
       try lines <- bar_rows width labels' (bucket + 1) usage most_frequent in
       Ok (line :: lines))%res
  end.

Definition weekdays : list string := ["S"; "M"; "T"; "W"; "T"; "F"; "S"].

Definition hours : list string :=
  ["12AM"; "1AM"; "2AM"; "3AM"; "4AM"; "5AM"; "6AM"; "7AM"; "8AM"; "9AM";
   "10AM"; "11AM"; "12PM"; "1PM"; "2PM"; "3PM"; "4PM"; "5PM"; "6PM"; "7PM";
   "8PM"; "9PM"; "10PM"; "11PM"].

(** [width] is the first component of [get_terminal_dimensions()]. *)
Definition print_week_usage (width : Z) (weekly_usage : Counter Z)
  : res (list bar_line) :=
  (try most_frequent <- counter_peak (counts weekly_usage) in
   bar_rows width weekdays 0 (counts weekly_usage) most_frequent)%res.

Definition print_time_usage (width : Z) (hourly_usage : Counter Z)
  : res (list bar_line) :=
  (try most_frequent <- counter_peak (counts hourly_usage) in
   bar_rows width hours 0 (counts hourly_usage) most_frequent)%res.

(** ** Calendar arithmetic of the [datetime] module *)

Definition is_leap (year : Z) : bool :=
  (year mod 4 =? 0) && (negb (year mod 100 =? 0) || (year mod 400 =? 0)).

Definition days_before_year (year : Z) : Z :=
  let y := year - 1 in
  y * 365 + y / 4 - y / 100 + y / 400.

Definition DAYS_IN_MONTH : list Z :=
  [-1; 31; 28; 31; 30; 31; 30; 31; 31; 30; 31; 30; 31].

Definition DAYS_BEFORE_MONTH : list Z :=
  [-1; 0; 31; 59; 90; 120; 151; 181; 212; 243; 273; 304; 334].

Definition days_in_month (year month : Z) : Z :=
  if (month =? 2) && is_leap year then 29
  else nth (Z.to_nat month) DAYS_IN_MONTH 0.

Definition days_before_month (year month : Z) : Z :=
  nth (Z.to_nat month) DAYS_BEFORE_MONTH 0
  + (if (2 <? month) && is_leap year then 1 else 0).

Definition ymd2ord (year month day : Z) : Z :=
  days_before_year year + days_before_month year month + day.

(** [_ord2ymd]: the year, month and day of an ordinal. *)
Definition ord2ymd (ordinal : Z) : Z * Z * Z :=
  let n := ordinal - 1 in
  let n400 := n / 146097 in
  let n := n mod 146097 in
  let year := n400 * 400 + 1 in
  let n100 := n / 36524 in
  let n := n mod 36524 in
  let n4 := n / 1461 in
  let n := n mod 1461 in
  let n1 := n / 365 in
  let n := n mod 365 in
  let year := year + n100 * 100 + n4 * 4 + n1 in
  if (n1 =? 4) || (n100 =? 4) then (year - 1, 12, 31)
  else
    let leapyear := (n1 =? 3) && (negb (n4 =? 24) || (n100 =? 3)) in
    let month := Z.shiftr (n + 50) 5 in
    let preceding :=
      nth (Z.to_nat month) DAYS_BEFORE_MONTH 0
      + (if (2 <? month) && leapyear then 1 else 0) in
    let '(month, preceding) :=
      if n <? preceding then
        (month - 1,
         preceding
         - (nth (Z.to_nat (month - 1)) DAYS_IN_MONTH 0
            + (if (month - 1 =? 2) && leapyear then 1 else 0)))
      else (month, preceding) in
    (year, month, n - preceding + 1).

Definition dt_year (t : datetime) : Z := (ord2ymd (dt_date t)).1.1.
Definition dt_month (t : datetime) : Z := (ord2ymd (dt_date t)).1.2.

(** [datetime(year, month, day)], at midnight. *)
Definition datetime_ymd (year month day : Z) : res datetime :=
  if (1 <=? year) && (year <=? 9999) && (1 <=? month) && (month <=? 12)
     && (1 <=? day) && (day <=? days_in_month year month)
  then Ok (MkDatetime ((ymd2ord year month day - 1) * US_PER_DAY))
  else Raise ValueError.

(** [t + timedelta(days=k)]: a date outside [date.min, date.max] raises. *)
Definition add_days (t : datetime) (k : Z) : res datetime :=
  let us := micros t + k * US_PER_DAY in
  if (0 <=? us) && (us <? MAXORDINAL * US_PER_DAY) then Ok (MkDatetime us)
  else Raise OverflowError.

(** ** The calendar renderer *)

Definition months : list string :=
  ["J"; "F"; "M"; "A"; "M"; "J"; "J"; "A"; "S"; "O"; "N"; "D"].

(** [range(n)] as a list of integers. *)
Definition py_range (n : Z) : list Z := map Z.of_nat (seq 0 (Z.to_nat n)).

(** A printed cell: a blank, or a square in the style chosen by
    [color_strength]; [cell_day] records which date the square stands for. *)
Inductive cell : Type :=
| Blank
| Shaded (cell_day : Z) (style : string).

(** [366 if year % 4 == 0 else 365]. *)
Definition year_days (year : Z) : Z := if year mod 4 =? 0 then 366 else 365.

(** [math.ceil((days + offset) / 7)]. *)
Definition week_columns (days offset : Z) : res Z :=
  (try q <- int_truediv (days + offset) 7 in py_ceil q)%res.

(** The month strip: one letter or blank per week column. *)
Fixpoint header_loop (year_start : datetime) (offset : Z) (weeks : list Z)
    (first_row : string) (month_index : Z) : res string :=
  match weeks with
  | [] => Ok first_row
  | week :: weeks' =>
      (try last_row <- add_days year_start (7 + 7 * week - offset) in
       if month_index <? dt_month last_row then
         try letter <- py_index months month_index in
         header_loop year_start offset weeks' (first_row ++ letter)
           (month_index + 1)
       else header_loop year_start offset weeks' (first_row ++ " ")
              month_index)%res
  end.

(** The date of the cell in row [weekday] and column [week], or nothing
    when it is outside the year: lines 187 to 190. *)
Definition cell_date (year_start year_end : datetime) (offset weekday week : Z)
  : res (option datetime) :=
  (try day <- add_days year_start (weekday + 7 * week - offset) in
   Ok (if dt_ltb day year_start || dt_ltb year_end day then None
       else Some day))%res.

Definition grid_cell (calendar_usage : gmap Z Z) (most_busy : Z)
    (year_start year_end : datetime) (offset weekday week : Z) : res cell :=
  (try d <- cell_date year_start year_end offset weekday week in
   match d with
   | None => Ok Blank
   | Some day =>
       try strength <-
         int_truediv (counter_get calendar_usage (dt_date day)) most_busy in
       try style <- color_strength strength in
       Ok (Shaded (dt_date day) style)
   end)%res.

Fixpoint map_res {A B} (f : A -> res B) (l : list A) : res (list B) :=
  match l with
  | [] => Ok []
  | x :: l' =>
      (try y <- f x in try ys <- map_res f l' in Ok (y :: ys))%res
  end.

Record year_block : Type := MkYearBlock {
  yb_year : Z;
  yb_first_row : string;
  yb_rows : list (string * list cell);
  yb_footer : Z
}.

(** The body of the loop over the years. *)
Definition calendar_year (calendar_usage : gmap Z Z) (most_busy : Z)
    (year : Z) : res year_block :=
  (let days := year_days year in
   try year_start <- datetime_ymd year 1 1 in
   try year_end <- datetime_ymd year 12 31 in
   let offset := dt_weekday year_start in
   try columns <- week_columns days offset in
   try first_row <-
     header_loop year_start offset (py_range columns) "  " 0 in
   try rows <-
     map_res (fun weekday =>
                try label <- py_index weekdays weekday in
                try cells <-
                  map_res (grid_cell calendar_usage most_busy year_start
                             year_end offset weekday)
                    (py_range columns) in
                Ok (label ++ " ", cells))
       (py_range 7) in
   Ok (MkYearBlock year first_row rows
         (Z.of_nat (size calendar_usage))))%res.

Definition print_calendar (calendar_usage : Counter Z)
    (start_datetime end_datetime : datetime) : res (list year_block) :=
  (try most_busy <- counter_peak (counts calendar_usage) in
   let years := dt_year end_datetime - dt_year start_datetime + 1 in
   map_res (fun y =>
              calendar_year (counts calendar_usage) most_busy
                (dt_year start_datetime + y))
     (py_range years))%res.

(** ** [analyze_commands] and [main] *)

(** The first loop of [analyze_commands]: the records with a use in range. *)
Fixpoint keep_in_range (now start_datetime end_datetime : datetime)
    (commands : dict) (kept_commands : dict) (next : loc) : res dict * loc :=
  match commands with
  | [] => (Ok kept_commands, next)
  | (_, cmd) :: commands' =>
      match get_uses_from_date now start_datetime (Some end_datetime) cmd
              next with
      | (_, Ok cmd_in_range, next') =>
          let kept_commands' :=
            if 0 <? Z.of_nat (length (uses cmd_in_range))
            then dict_set kept_commands (name cmd_in_range) cmd_in_range
            else kept_commands in
          keep_in_range now start_datetime end_datetime commands'
            kept_commands' next'
      | (_, Raise e, next') => (Raise e, next')
      end
  end.

(** The second loop: the three sums over the kept records. *)
Fixpoint sum_buckets (kept_commands : dict)
    (calendar weekly hourly : Counter Z)
  : Counter Z * Counter Z * Counter Z :=
  match kept_commands with
  | [] => (calendar, weekly, hourly)
  | (_, cmd) :: kept' =>
      sum_buckets kept'
        (MkCounter (counter_id calendar)
           (counter_iadd (counts calendar) (counts (calendar_usage cmd))))
        (MkCounter (counter_id weekly)
           (counter_iadd (counts weekly) (counts (weekly_usage cmd))))
        (MkCounter (counter_id hourly)
           (counter_iadd (counts hourly) (counts (hourly_usage cmd))))
  end.

Record report : Type := MkReport {
  rp_calendar : list year_block;
  rp_week : list bar_line;
  rp_time : list bar_line
}.

Definition analyze_commands (now : datetime) (width : Z) (commands : dict)
    (start_datetime : datetime) (end_datetime : option datetime) (next : loc)
  : res (dict * report) * loc :=
  let end_datetime := match end_datetime with None => now | Some d => d end in
  match keep_in_range now start_datetime end_datetime commands [] next with
  | (Raise e, next1) => (Raise e, next1)
  | (Ok kept_commands, next1) =>
      let '(calendar, weekly, hourly) :=
        sum_buckets kept_commands (MkCounter next1 ∅)
          (MkCounter (next1 + 1)%N ∅) (MkCounter (next1 + 2)%N ∅) in
      ((try cal <- print_calendar calendar start_datetime end_datetime in
        try week <- print_week_usage width weekly in
        try time <- print_time_usage width hourly in
        Ok (kept_commands, MkReport cal week time))%res,
       (next1 + 3)%N)
  end.

(** [used_commands.sort(reverse=True, key=...)]: stable, largest count
    first. *)
Fixpoint sort_insert_desc (c : Command) (sorted : list Command)
  : list Command :=
  match sorted with
  | [] => [c]
  | d :: rest =>
      if count c <? count d then d :: sort_insert_desc c rest
      else c :: d :: rest
  end.

Definition sort_by_count_desc (cs : list Command) : list Command :=
  foldr sort_insert_desc [] cs.

(** [main], from the lines that [read_history_file] returned.  The result
    is the report of [analyze_commands] and, for the five most used
    commands, the name, the count and the hourly chart. *)
Definition main (tz : Z -> Z) (now : datetime) (width : Z)
    (lines : list string) (next : loc)
  : res (report * list (string * Z * list bar_line)) :=
  match parse_commands tz lines next with
  | (Raise e, _) => Raise e
  | (Ok commands, next1) =>
      (try start <- datetime_ymd 2024 7 15 in
       match analyze_commands now width commands start None next1 with
       | (Raise e, _) => Raise e
       | (Ok (recent_commands, rep), _) =>
           let used_commands := sort_by_count_desc (map snd recent_commands) in
           try tops <-
             map_res (fun cmd =>
                        try chart <- print_time_usage width (hourly_usage cmd)
                        in Ok (name cmd, count cmd, chart))
               (take 5 used_commands) in
           Ok (rep, tops)
       end)%res
  end.

(** ** Specification vocabulary *)

(** The records that creation followed by [add_use] calls can produce; a call
    that raised counts, since its updates stay in the record. *)
Inductive built_by_add_use : Command -> Prop :=
| built_new (nm : string) (next : loc) :
    built_by_add_use (Command_init nm next).1
| built_add (time : datetime) (arguments : pylist string) (c : Command)
    (next : loc) :
    built_by_add_use c ->
    built_by_add_use (add_use time arguments c next).1.1.

(** The sums that must agree with [count]. *)
Definition usage_invariant (c : Command) : Prop :=
  count c = Z.of_nat (length (uses c))
  /\ count c = counter_total (counts (calendar_usage c))
  /\ count c = counter_total (counts (weekly_usage c))
  /\ count c = counter_total (counts (hourly_usage c)).

(** The records built by [add_use] calls that all returned normally. *)
Inductive built_normally : Command -> Prop :=
| normally_new (nm : string) (next : loc) :
    built_normally (Command_init nm next).1
| normally_add (time : datetime) (arguments : pylist string) (c : Command)
    (next : loc) :
    built_normally c ->
    (add_use time arguments c next).1.2 = Ok tt ->
    built_normally (add_use time arguments c next).1.1.

(** [m] is [max(time for (time, _) in us)], and absent when [us] is empty. *)
Definition latest_of (us : list use) (m : option datetime) : Prop :=
  match m with
  | None => us = []
  | Some t =>
      (exists u, In u us /\ use_time u = t)
      /\ forall u, In u us -> micros (use_time u) <= micros t
  end.

(** The containers a record owns: the [uses] list, the four Counters and the
    two-element lists in [uses]. *)
Definition own_containers (c : Command) : list loc :=
  [uses_id c; counter_id (calendar_usage c); counter_id (weekly_usage c);
   counter_id (hourly_usage c); counter_id (flags c)]
  ++ map use_id (uses c).

(** The argument lists its uses refer to. *)
Definition argument_lists (c : Command) : list loc :=
  map (fun u => list_id (use_args u)) (uses c).

(** Every container reachable from a record. *)
Definition containers (c : Command) : list loc :=
  own_containers c ++ argument_lists c.

(** The square of the day [date] is printed in [style] in row [weekday] and
    column [week] of a year block. *)
Definition square_at (block : year_block) (weekday week : nat) (date : Z)
    (style : string) : Prop :=
  exists label cells,
    yb_rows block !! weekday = Some (label, cells)
    /\ cells !! week = Some (Shaded date style).

(** ** Sample records *)

(** 2023-11-14T22:13:20 and 22:13:30. *)
Definition t_first : datetime := MkDatetime 63835596800000000.
Definition t_second : datetime := MkDatetime 63835596810000000.

(** A record with two uses, built by [Command("git")] and two [add_use]
    calls; the argument lists are the objects 5 and 6. *)
Definition two_uses : Command :=
  (add_use t_second (PyList 6%N ["log"])
     (add_use t_first (PyList 5%N ["status"; "-v"])
        (Command_init "git" 0%N).1 7%N).1.1 9%N).1.1.

(** The available width in the words of the specification:
    [round(terminal_columns * 0.7) - 3], clamped to a minimum of zero. *)
Definition spec_available_width (terminal_columns : Z) : res Z :=
  (try w <- float_of_int terminal_columns in
   try r <- py_round (float_mul w f0_7) in
   Ok (Z.max 0 (r - 3)))%res.

(** What a printed chart shows, for a bar field of [cols] cells: one line
    per label, in order; with [p] the largest count of the Counter, the line
    of the bucket with count [c] has [floor(cols * (c / p))] squares, the
    product and the quotient being those of doubles, and none when that is
    negative; an empty bucket has no square and a bucket that reaches the
    peak fills the field. *)
Definition bars_scaled_to_peak (cols : Z) (usage : Counter Z)
    (labels : list string) (lines : list bar_line) : Prop :=
  exists p,
    counter_peak (counts usage) = Ok p
    /\ (exists k, counts usage !! k = Some p)
    /\ (forall k v, counts usage !! k = Some v -> v <= p)
    /\ p <> 0
    /\ length lines = length labels
    /\ forall bucket label,
         labels !! bucket = Some label ->
         exists line freq c n,
           lines !! bucket = Some line
           /\ bl_label line = label
           /\ bl_commands line = counter_get (counts usage) (Z.of_nat bucket)
           /\ bl_cols line = cols
           /\ int_truediv (bl_commands line) p = Ok freq
           /\ float_of_int cols = Ok c
           /\ py_floor (float_mul c freq) = Ok n
           /\ bl_bar line = Z.max 0 n
           /\ (bl_commands line = 0 -> bl_bar line = 0)
           /\ (bl_commands line = p -> bl_bar line = cols).

(** The check of [bar_cols] at one width: the result is an integer nearest
    to [(7 * width - 30) / 10], the one that [div_half_even] gives when the
    width is below 175, and as a double it is unchanged by a product with
    [1.0] followed by [math.floor]. *)
Definition bar_cols_ok (width : Z) : bool :=
  match bar_cols width with
  | Ok cols =>
      (-5 <=? 10 * cols - (7 * width - 30))
      && (10 * cols - (7 * width - 30) <=? 5)
      && ((175 <=? width) || (cols =? div_half_even (7 * width - 30) 10))
      && match float_of_int cols with
         | Ok c =>
             match py_floor (float_mul c (float_lit 1)) with
             | Ok n => n =? cols
             | Raise _ => false
             end
         | Raise _ => false
         end
  | Raise _ => false
  end.

(** The check of [fuel] consecutive widths, from [width] upwards. *)
Fixpoint bar_cols_ok_from (fuel : nat) (width : Z) : bool :=
  match fuel with
  | O => true
  | S fuel' => bar_cols_ok width && bar_cols_ok_from fuel' (width + 1)
  end.

(** ** Further specification vocabulary *)

(** The tokens [_get_flags] counts: a dash followed by at least one more
    character. *)
Definition is_flag (s : string) : bool :=
  match s with
  | EmptyString => false
  | String c _ => Ascii.eqb c "-"%char && (1 <? Z.of_nat (String.length s))
  end.

(** How often [k] occurs in a list of tokens. *)
Definition occurrences (l : list string) (k : string) : Z :=
  Z.of_nat (count_occ string_dec l k).

(** How often [k] occurs in the argument lists of a list of uses. *)
Definition flag_uses (us : list use) (k : string) : Z :=
  fold_right (fun u acc => occurrences (list_items (use_args u)) k + acc) 0 us.

(** No use of the record has an empty token among its arguments. *)
Definition tokens_nonempty (us : list use) : Prop :=
  forall u, In u us -> ~ In "" (list_items (use_args u)).

(** What [add_use] is given for a use: its time and its argument list. *)
Definition use_entry (u : use) : datetime * pylist string :=
  (use_time u, use_args u).

(** The order of [_sort_uses]: not later than. *)
Definition time_le (u v : use) : Prop :=
  micros (use_time u) <= micros (use_time v).

(** The sum of the counts of the records of a mapping. *)
Definition total_count (d : dict) : Z :=
  fold_right (fun kc acc => count kc.2 + acc) 0 d.

(** The lines that start with the marker. *)
Definition marker_lines (lines : list string) : list string :=
  List.filter (fun l => startswith l "- cmd: ") lines.

(** What the parser keeps true of its mapping: a key names its record, and
    every record has been built by at least one [add_use]. *)
Definition parsed_mapping (d : dict) : Prop :=
  List.NoDup (map fst d)
  /\ forall k c,
       dict_get d k = Some c ->
       name c = k /\ built_normally c /\ 1 <= count c.
(** * Theorems *)

(** ** Counters *)

Section counter_facts.
Context {K : Type} `{Countable K}.

Lemma counter_total_empty : counter_total (∅ : gmap K Z) = 0.
Proof. unfold counter_total. apply map_fold_empty. Qed.

Lemma counter_total_insert_fresh (m : gmap K Z) k v :
  m !! k = None -> counter_total (<[k := v]> m) = v + counter_total m.
Proof.
  intros Hk. unfold counter_total.
  apply (map_fold_insert_L (fun _ v acc => v + acc)); [|exact Hk].
  intros; lia.
Qed.

Lemma counter_total_delete (m : gmap K Z) k v :
  m !! k = Some v -> counter_total m = v + counter_total (delete k m).
Proof.
  intros Hk.
  rewrite <- (insert_delete_id m k v Hk) at 1.
  apply counter_total_insert_fresh, lookup_delete_eq.
Qed.

Lemma counter_total_incr (m : gmap K Z) k :
  counter_total (counter_incr k m) = counter_total m + 1.
Proof.
  unfold counter_incr, counter_get.
  destruct (m !! k) as [v|] eqn:Hk; simpl.
  - rewrite (counter_total_delete m k v Hk).
    rewrite <- insert_delete_eq.
    rewrite counter_total_insert_fresh by apply lookup_delete_eq. lia.
  - rewrite counter_total_insert_fresh by exact Hk. lia.
Qed.
End counter_facts.

(** ** [add_use] *)

Lemma get_flags_loop_empty_token (l : list string) (m : gmap string Z) :
  In "" l -> get_flags_loop l m = Raise IndexError.
Proof.
  revert m. induction l as [|a l IH]; intros m Hin; [contradiction|].
  simpl. destruct a as [|c a']; [reflexivity|].
  destruct Hin as [Heq|Hin]; [discriminate|].
  destruct (_ && _); apply IH, Hin.
Qed.

Lemma get_flags_loop_total (l : list string) (m : gmap string Z) :
  ~ In "" l -> exists m', get_flags_loop l m = Ok m'.
Proof.
  revert m. induction l as [|a l IH]; intros m Hnin; [by eexists|].
  simpl. destruct a as [|c a']; [exfalso; apply Hnin; by left|].
  assert (~ In "" l) as Hl by (intros ?; apply Hnin; by right).
  destruct (_ && _); apply IH, Hl.
Qed.

Lemma add_use_outcome_raise time arguments self next :
  In "" (list_items arguments) ->
  (add_use time arguments self next).1.2 = Raise IndexError.
Proof.
  intros Hin. unfold add_use, _get_flags.
  by rewrite (get_flags_loop_empty_token _ _ Hin).
Qed.

Lemma add_use_outcome_ok time arguments self next :
  ~ In "" (list_items arguments) ->
  (add_use time arguments self next).1.2 = Ok tt.
Proof.
  intros Hnin. unfold add_use, _get_flags.
  destruct (get_flags_loop_total _ ∅ Hnin) as [m' ->]. reflexivity.
Qed.

Lemma add_use_count time arguments self next :
  count (add_use time arguments self next).1.1 = count self + 1.
Proof. unfold add_use. by destruct (_get_flags _ _) as [[?|?] ?]. Qed.

Lemma add_use_uses time arguments self next :
  uses (add_use time arguments self next).1.1
  = (uses self ++ [MkUse next time arguments])%list.
Proof. unfold add_use. by destruct (_get_flags _ _) as [[?|?] ?]. Qed.

Lemma add_use_calendar time arguments self next :
  counts (calendar_usage (add_use time arguments self next).1.1)
  = counter_incr (dt_date time) (counts (calendar_usage self)).
Proof. unfold add_use. by destruct (_get_flags _ _) as [[?|?] ?]. Qed.

Lemma add_use_weekly time arguments self next :
  counts (weekly_usage (add_use time arguments self next).1.1)
  = counter_incr (dt_weekday time) (counts (weekly_usage self)).
Proof. unfold add_use. by destruct (_get_flags _ _) as [[?|?] ?]. Qed.

Lemma add_use_hourly time arguments self next :
  counts (hourly_usage (add_use time arguments self next).1.1)
  = counter_incr (dt_hour time) (counts (hourly_usage self)).
Proof. unfold add_use. by destruct (_get_flags _ _) as [[?|?] ?]. Qed.

Lemma usage_invariant_init nm next : usage_invariant (Command_init nm next).1.
Proof.
  repeat split; symmetry; apply (counter_total_empty (K:=Z)).
Qed.

Lemma usage_invariant_add_use time arguments self next :
  usage_invariant self ->
  usage_invariant (add_use time arguments self next).1.1.
Proof.
  intros (Hu & Hc & Hw & Hh). unfold usage_invariant.
  rewrite add_use_count, add_use_uses, add_use_calendar, add_use_weekly,
    add_use_hourly, !counter_total_incr, length_app. simpl. lia.
Qed.

(** C1: a record built from a new record by any sequence of [add_use] calls
    has [count] equal to the length of [uses] and to the sum of the values of
    each of [calendar_usage], [weekly_usage] and [hourly_usage]. *)
Theorem add_use_keeps_counts (c : Command) :
  built_by_add_use c -> usage_invariant c.
Proof.
  induction 1 as [nm next|time arguments c next _ IH].
  - apply usage_invariant_init.
  - by apply usage_invariant_add_use.
Qed.

Lemma add_use_keeps_counts_witness :
  usage_invariant
    (add_use (MkDatetime 63835596800000000) (PyList 9%N ["status"; "-v"])
       (add_use (MkDatetime 63835596700000000) (PyList 8%N [""])
          (Command_init "git" 0%N).1 5%N).1.1 10%N).1.1.
Proof.
  apply add_use_keeps_counts. apply built_add, built_add, built_new.
Defined.

(** C10: [add_use] raises exactly when the argument list holds the empty
    string, whose first character [_get_flags] reads; with non-empty tokens
    only it returns normally. *)
Theorem add_use_total_iff_tokens_nonempty time arguments self next :
  ((add_use time arguments self next).1.2 = Raise IndexError
   <-> In "" (list_items arguments))
  /\ ((add_use time arguments self next).1.2 = Ok tt
      <-> ~ In "" (list_items arguments)).
Proof.
  destruct (in_dec string_dec "" (list_items arguments)) as [Hin|Hnin].
  - rewrite (add_use_outcome_raise _ _ _ _ Hin). split; split; try done.
  - rewrite (add_use_outcome_ok _ _ _ _ Hnin). split; split; try done.
Qed.

Lemma add_use_next time arguments self next :
  (add_use time arguments self next).2 = (next + 2)%N.
Proof.
  unfold add_use, _get_flags.
  destruct (get_flags_loop _ _); simpl; lia.
Qed.

Lemma add_use_own_containers time arguments self next :
  own_containers (add_use time arguments self next).1.1
  = (own_containers self ++ [next])%list.
Proof.
  unfold own_containers. rewrite add_use_uses, map_app.
  unfold add_use. by destruct (_get_flags _ _) as [[?|?] ?].
Qed.

Lemma add_use_most_recent_ok time arguments self next :
  (add_use time arguments self next).1.2 = Ok tt ->
  most_recent_use (add_use time arguments self next).1.1
  = match most_recent_use self with
    | None => Some time
    | Some m => if dt_ltb m time then Some time else Some m
    end.
Proof.
  unfold add_use. destruct (_get_flags _ _) as [[?|?] ?]; simpl; [done|].
  discriminate.
Qed.

Lemma add_use_name time arguments self next :
  name (add_use time arguments self next).1.1 = name self.
Proof. unfold add_use. by destruct (_get_flags _ _) as [[?|?] ?]. Qed.

(** ** The replay loop of the derivation operations *)

Lemma replay_uses_spec keep us :
  forall c next c' next',
    replay_uses keep us c next = (Ok c', next') ->
    (next <= next')%N
    /\ map use_time (uses c')
       = (map use_time (uses c) ++ map use_time (List.filter keep us))%list
    /\ map use_args (uses c')
       = (map use_args (uses c) ++ map use_args (List.filter keep us))%list
    /\ count c' = count c + Z.of_nat (length (List.filter keep us))
    /\ name c' = name c
    /\ (forall l, In l (own_containers c') ->
          In l (own_containers c) \/ (next <= l < next')%N).
Proof.
  induction us as [|u us IH]; intros c next c' next' Hrun; simpl in Hrun.
  - injection Hrun as <- <-. simpl.
    rewrite !app_nil_r. repeat split; auto with lia.
  - destruct (keep u) eqn:Hk; simpl; rewrite Hk.
    + destruct (add_use _ _ c next) as [[c1 [[]|e]] n1] eqn:Hadd;
        [|discriminate].
      pose proof (add_use_uses (use_time u) (use_args u) c next) as Hu.
      pose proof (add_use_count (use_time u) (use_args u) c next) as Hc.
      pose proof (add_use_next (use_time u) (use_args u) c next) as Hn.
      pose proof (add_use_name (use_time u) (use_args u) c next) as Hnm.
      pose proof (add_use_own_containers (use_time u) (use_args u) c next)
        as Ho.
      rewrite Hadd in Hu, Hc, Hn, Hnm, Ho. cbn [fst snd] in Hu, Hc, Hn, Hnm, Ho.
      destruct (IH _ _ _ _ Hrun) as (Hle & Ht & Ha & Hcnt & Hname & Hown).
      rewrite Hu in Ht, Ha.
      rewrite !map_app in Ht, Ha. simpl in Ht, Ha.
      rewrite <- !app_assoc in Ht, Ha. simpl in Ht, Ha.
      split; [lia|].
      repeat split; [exact Ht|exact Ha|simpl; lia|congruence|].
      intros l Hl. destruct (Hown l Hl) as [Hin|Hin]; [|right; lia].
      rewrite Ho in Hin. apply in_app_or in Hin as [Hin|[<-|[]]]; [by left|].
      right; lia.
    + apply IH, Hrun.
Qed.

(** ** [most_recent_use] *)

Lemma built_normally_latest (c : Command) :
  built_normally c -> latest_of (uses c) (most_recent_use c).
Proof.
  induction 1 as [nm next|time arguments c next _ IH Hok]; [reflexivity|].
  rewrite (add_use_most_recent_ok _ _ _ _ Hok), add_use_uses.
  set (entry := MkUse next time arguments).
  destruct (most_recent_use c) as [m|]; simpl in IH.
  - destruct IH as [[u [Hin Hu]] Hmax].
    unfold dt_ltb. destruct (Z.ltb_spec (micros m) (micros time)); simpl.
    + split; [exists entry; split; [apply in_or_app; right; by left|done]|].
      intros v Hv. apply in_app_or in Hv as [Hv|[<-|[]]]; simpl; [|lia].
      specialize (Hmax v Hv). lia.
    + split; [exists u; split; [apply in_or_app; by left|done]|].
      intros v Hv. apply in_app_or in Hv as [Hv|[<-|[]]]; simpl; [|lia].
      by apply Hmax.
  - rewrite IH. simpl. split; [exists entry; split; [by left|done]|].
    intros v [<-|[]]. simpl. lia.
Qed.

Lemma get_uses_from_date_most_recent now date stop_date self next c' :
  (get_uses_from_date now date stop_date self next).1.2 = Ok c' ->
  most_recent_use c' = most_recent_use self.
Proof.
  unfold get_uses_from_date. simpl.
  destruct (replay_uses _ _ _ _) as [[c1|e] n1]; simpl; [|discriminate].
  by intros [= <-].
Qed.

Lemma get_last_n_uses_most_recent n_uses self next c' :
  (get_last_n_uses n_uses self next).1.2 = Ok c' ->
  most_recent_use c' = most_recent_use self.
Proof.
  unfold get_last_n_uses. simpl.
  destruct (replay_uses _ _ _ _) as [[c1|e] n1]; simpl; [|discriminate].
  by intros [= <-].
Qed.

(** C5, as the code has it: a record built by [add_use] calls that returned
    normally has the largest time of its uses as [most_recent_use], and none
    when it has no use; the record returned by [get_uses_from_date] or by
    [get_last_n_uses] has the [most_recent_use] of the source record. *)
Theorem most_recent_use_tracking :
  (forall c, built_normally c -> latest_of (uses c) (most_recent_use c))
  /\ (forall now date stop_date self next c',
        (get_uses_from_date now date stop_date self next).1.2 = Ok c' ->
        most_recent_use c' = most_recent_use self)
  /\ (forall n_uses self next c',
        (get_last_n_uses n_uses self next).1.2 = Ok c' ->
        most_recent_use c' = most_recent_use self).
Proof.
  split; [exact built_normally_latest|].
  split; [exact get_uses_from_date_most_recent|exact get_last_n_uses_most_recent].
Qed.

Lemma two_uses_built_normally : built_normally two_uses.
Proof.
  unfold two_uses.
  apply normally_add; [apply normally_add; [apply normally_new|]|];
    reflexivity.
Qed.

Lemma most_recent_use_tracking_witness :
  latest_of (uses two_uses) (most_recent_use two_uses)
  /\ (exists c',
        (get_uses_from_date t_second t_first (Some t_first) two_uses 11%N).1.2
        = Ok c'
        /\ most_recent_use c' = most_recent_use two_uses)
  /\ (exists c',
        (get_last_n_uses 1 two_uses 11%N).1.2 = Ok c'
        /\ most_recent_use c' = most_recent_use two_uses).
Proof.
  destruct most_recent_use_tracking as (H1 & H2 & H3).
  split; [apply H1, two_uses_built_normally|].
  split.
  - eexists. split; [vm_compute; reflexivity|].
    apply (H2 t_second t_first (Some t_first) two_uses 11%N).
    vm_compute; reflexivity.
  - eexists. split; [vm_compute; reflexivity|].
    apply (H3 1 two_uses 11%N). vm_compute; reflexivity.
Defined.

(** C5 as stated fails: the range filter that keeps only the first of the
    two uses returns a record whose [most_recent_use] is the time of the
    second use, which is not among its own uses. *)
Lemma filtered_most_recent_use_not_own_latest :
  exists c',
    (get_uses_from_date t_second t_first (Some t_first) two_uses 11%N).1.2
    = Ok c'
    /\ uses c' <> []
    /\ ~ latest_of (uses c') (most_recent_use c').
Proof.
  eexists. split; [vm_compute; reflexivity|]. split; [discriminate|].
  simpl. intros [[u [[<-|[]] Hu]] _]. discriminate.
Qed.

(** ** [get_uses_from_date] and the source record *)

Lemma get_uses_from_date_self now date stop_date self next :
  (get_uses_from_date now date stop_date self next).1.1 = self.
Proof.
  unfold get_uses_from_date. simpl.
  by destruct (replay_uses _ _ _ _) as [[c1|e] n1].
Qed.

Lemma get_uses_from_date_result now date stop_date self next c' :
  (get_uses_from_date now date stop_date self next).1.2 = Ok c' ->
  map use_time (uses c')
  = map use_time
      (List.filter (in_range date (default now stop_date)) (uses self))
  /\ map use_args (uses c')
     = map use_args
         (List.filter (in_range date (default now stop_date)) (uses self))
  /\ count c'
     = Z.of_nat
         (length
            (List.filter (in_range date (default now stop_date)) (uses self)))
  /\ name c' = name self
  /\ (forall l, In l (own_containers c') -> (next <= l)%N).
Proof.
  unfold get_uses_from_date. simpl.
  replace (match stop_date with Some d => d | None => now end)
    with (default now stop_date) by (by destruct stop_date).
  destruct (replay_uses _ _ _ _) as [[c1|e] n1] eqn:Hrun; simpl;
    [|discriminate].
  intros [= <-].
  destruct (replay_uses_spec _ _ _ _ _ _ Hrun)
    as (Hle & Ht & Ha & Hcnt & Hname & Hown).
  simpl in Ht, Ha, Hcnt, Hname.
  repeat split; try done.
  intros l Hl. destruct (Hown l Hl) as [Hin|Hin]; [|lia].
  simpl in Hin. lia.
Qed.

(** C6, as the code has it: [get_uses_from_date] leaves the source record as
    it was, and the [uses] list, the use entries and the Counters of the
    record it returns are new objects; the argument list of each use it
    returns is the argument list object of the source's use.  The hypothesis
    says that the allocator has not yet handed out what it will hand out:
    every container of the source was allocated before the call. *)
Theorem get_uses_from_date_frame now date stop_date self next :
  (forall l, In l (containers self) -> (l < next)%N) ->
  (get_uses_from_date now date stop_date self next).1.1 = self
  /\ forall c',
       (get_uses_from_date now date stop_date self next).1.2 = Ok c' ->
       (forall l, In l (own_containers c') -> ~ In l (containers self))
       /\ map use_args (uses c')
          = map use_args
              (List.filter (in_range date (default now stop_date))
                 (uses self)).
Proof.
  intros Hold. split; [apply get_uses_from_date_self|].
  intros c' Hc'.
  destruct (get_uses_from_date_result _ _ _ _ _ _ Hc')
    as (_ & Ha & _ & _ & Hown).
  split; [|exact Ha].
  intros l Hl Hin. specialize (Hown l Hl). specialize (Hold l Hin). lia.
Qed.

Lemma get_uses_from_date_frame_witness :
  (get_uses_from_date t_second t_first (Some t_first) two_uses 11%N).1.1
  = two_uses
  /\ forall c',
       (get_uses_from_date t_second t_first (Some t_first) two_uses 11%N).1.2
       = Ok c' ->
       (forall l, In l (own_containers c') -> ~ In l (containers two_uses))
       /\ map use_args (uses c')
          = map use_args
              (List.filter (in_range t_first (default t_second (Some t_first)))
                 (uses two_uses)).
Proof.
  apply (get_uses_from_date_frame t_second t_first (Some t_first) two_uses
           11%N).
  intros l Hl. vm_compute in Hl.
  repeat (destruct Hl as [<-|Hl]; [reflexivity|]). destruct Hl.
Defined.

(** C6 as stated fails: the record returned for the range that keeps the
    first use refers to the argument list object 5 of the source. *)
Lemma filtered_record_shares_argument_list :
  exists c',
    (get_uses_from_date t_second t_first (Some t_first) two_uses 11%N).1.2
    = Ok c'
    /\ In 5%N (containers c') /\ In 5%N (containers two_uses).
Proof.
  eexists. split; [vm_compute; reflexivity|].
  split; vm_compute; tauto.
Qed.

(** ** [get_last_n_uses] *)

Lemma sort_insert_length u sorted :
  length (sort_insert u sorted) = S (length sorted).
Proof.
  induction sorted as [|v rest IH]; [reflexivity|]. simpl.
  destruct (dt_ltb _ _); simpl; by rewrite ?IH.
Qed.

Lemma sort_by_time_length us : length (sort_by_time us) = length us.
Proof.
  induction us as [|u us IH]; [reflexivity|].
  simpl. by rewrite sort_insert_length, IH.
Qed.

Lemma filter_true_id {A} (l : list A) : List.filter (fun _ => true) l = l.
Proof. induction l as [|x l IH]; [reflexivity|]. simpl. by rewrite IH. Qed.

Lemma slice_from_last_length {A} (n : Z) (l : list A) :
  0 <= n ->
  Z.of_nat (length (slice_from (- n) l))
  = if n =? 0 then Z.of_nat (length l) else Z.min n (Z.of_nat (length l)).
Proof.
  intros Hn. unfold slice_from. rewrite length_drop.
  destruct (Z.eqb_spec n 0) as [->|Hne]; simpl; [lia|].
  destruct (Z.ltb_spec (- n) 0); lia.
Qed.

(** What [get_last_n_uses] returns for a non-negative [n_uses]: the last
    [n_uses] entries of the sorted list when [n_uses] is positive, and every
    entry when it is 0, because [-0] is 0 and [uses[0:]] is the whole list. *)
Lemma get_last_n_uses_result n_uses self next c' :
  (get_last_n_uses n_uses self next).1.2 = Ok c' ->
  map use_time (uses c')
  = map use_time (slice_from (- n_uses) (sort_by_time (uses self)))
  /\ (0 <= n_uses ->
      count c'
      = if n_uses =? 0 then Z.of_nat (length (uses self))
        else Z.min n_uses (Z.of_nat (length (uses self)))).
Proof.
  unfold get_last_n_uses. simpl.
  destruct (replay_uses _ _ _ _) as [[c1|e] n1] eqn:Hrun; simpl;
    [|discriminate].
  intros [= <-].
  destruct (replay_uses_spec _ _ _ _ _ _ Hrun)
    as (_ & Ht & _ & Hcnt & _ & _).
  rewrite filter_true_id in Ht, Hcnt. simpl in Ht, Hcnt.
  split; [exact Ht|]. intros Hn. simpl.
  rewrite Hcnt, slice_from_last_length by exact Hn.
  by rewrite sort_by_time_length.
Qed.

(** C7 at [n_uses = 0]: the record with two uses gives a record with two
    uses, where the claim has [min(0, 2) = 0]. *)
Theorem get_last_n_uses_zero_keeps_all :
  exists c',
    (get_last_n_uses 0 two_uses 11%N).1.2 = Ok c'
    /\ count two_uses = 2
    /\ count c' = 2
    /\ length (uses c') = 2%nat
    /\ Z.min 0 (count two_uses) = 0.
Proof.
  eexists. split; [vm_compute; reflexivity|]. by vm_compute.
Qed.

(** ** The weekday convention *)

(** C4 on a Monday and on a Sunday: 2024-01-01, a Monday, has index 0 and is
    counted in bucket 0, the row labelled [S]; 2023-01-01, a Sunday, has
    index 6, is counted in bucket 6 and gives the year 2023 the offset 6. *)
Theorem weekday_index_starts_on_monday :
  exists monday sunday,
    datetime_ymd 2024 1 1 = Ok monday
    /\ datetime_ymd 2023 1 1 = Ok sunday
    /\ dt_weekday monday = 0
    /\ dt_weekday sunday = 6
    /\ counter_get
         (counts (weekly_usage
                    (add_use monday (PyList 5%N [])
                       (Command_init "ls" 0%N).1 6%N).1.1)) 0 = 1
    /\ counter_get
         (counts (weekly_usage
                    (add_use sunday (PyList 5%N [])
                       (Command_init "ls" 0%N).1 6%N).1.1)) 0 = 0
    /\ counter_get
         (counts (weekly_usage
                    (add_use sunday (PyList 5%N [])
                       (Command_init "ls" 0%N).1 6%N).1.1)) 6 = 1
    /\ py_index weekdays 0 = Ok "S"
    /\ py_index weekdays 1 = Ok "M".
Proof.
  eexists. eexists.
  split; [vm_compute; reflexivity|]. split; [vm_compute; reflexivity|].
  by vm_compute.
Qed.

(** ** The calendar grid *)

Lemma week_columns_exact days offset :
  days = 365 \/ days = 366 -> 0 <= offset < 7 ->
  week_columns days offset = Ok ((days + offset + 6) / 7).
Proof.
  intros Hd Ho.
  assert (offset = 0 \/ offset = 1 \/ offset = 2 \/ offset = 3 \/ offset = 4
          \/ offset = 5 \/ offset = 6) as Hcases by lia.
  destruct Hd as [-> | ->];
    destruct Hcases as [-> | [-> | [-> | [-> | [-> | [-> | ->]]]]]];
    vm_compute; reflexivity.
Qed.

Lemma year_days_cases year : year_days year = 365 \/ year_days year = 366.
Proof. unfold year_days. destruct (_ =? _); auto. Qed.

Lemma is_leap_year_days year : is_leap year = true -> year_days year = 366.
Proof.
  unfold is_leap, year_days. intros H.
  apply andb_prop in H as [H _]. by rewrite H.
Qed.

Lemma days_before_year_bounds year :
  1 <= year <= 9998 ->
  0 <= days_before_year year <= 3651329
  /\ (2 <= year -> 365 <= days_before_year year).
Proof.
  intros Hy. unfold days_before_year. Z.div_mod_to_equations. lia.
Qed.

Lemma dt_date_midnight ordinal :
  dt_date (MkDatetime ((ordinal - 1) * US_PER_DAY)) = ordinal.
Proof.
  unfold dt_date. simpl. rewrite Z.div_mul; [lia|]. unfold US_PER_DAY,
    US_PER_SECOND. lia.
Qed.

Lemma datetime_ymd_jan1 year :
  1 <= year <= 9999 ->
  datetime_ymd year 1 1
  = Ok (MkDatetime ((days_before_year year + 1 - 1) * US_PER_DAY)).
Proof.
  intros Hy. unfold datetime_ymd, ymd2ord, days_before_month, days_in_month.
  simpl.
  destruct (Z.leb_spec 1 year); [|lia].
  destruct (Z.leb_spec year 9999); [|lia]. simpl.
  repeat f_equal. lia.
Qed.

Lemma datetime_ymd_dec31 year :
  1 <= year <= 9999 ->
  datetime_ymd year 12 31
  = Ok (MkDatetime
          ((days_before_year year + 365 + (if is_leap year then 1 else 0) - 1)
           * US_PER_DAY)).
Proof.
  intros Hy. unfold datetime_ymd, ymd2ord, days_before_month, days_in_month.
  simpl.
  destruct (Z.leb_spec 1 year); [|lia].
  destruct (Z.leb_spec year 9999); [|lia]. simpl.
  destruct (is_leap year); simpl; do 3 f_equal; lia.
Qed.

Lemma date_weekday_range ordinal : 0 <= date_weekday ordinal < 7.
Proof. unfold date_weekday. apply Z.mod_pos_bound. lia. Qed.

Lemma scaled_ltb a b : (a * US_PER_DAY <? b * US_PER_DAY) = (a <? b).
Proof.
  unfold US_PER_DAY, US_PER_SECOND.
  destruct (Z.ltb_spec a b), (Z.ltb_spec (a * (86400 * 1000000))
                                (b * (86400 * 1000000))); lia.
Qed.

Lemma scaled_leb a b : (a * US_PER_DAY <=? b * US_PER_DAY) = (a <=? b).
Proof.
  unfold US_PER_DAY, US_PER_SECOND.
  destruct (Z.leb_spec a b), (Z.leb_spec (a * (86400 * 1000000))
                                (b * (86400 * 1000000))); lia.
Qed.

Lemma add_days_midnight o k :
  1 <= o + k <= MAXORDINAL ->
  add_days (MkDatetime ((o - 1) * US_PER_DAY)) k
  = Ok (MkDatetime ((o + k - 1) * US_PER_DAY)).
Proof.
  intros Hk. unfold add_days. cbn [micros].
  rewrite <- Z.mul_add_distr_r.
  change 0 with (0 * US_PER_DAY) at 1.
  rewrite scaled_leb, scaled_ltb.
  replace (o - 1 + k) with (o + k - 1) by lia.
  destruct (Z.leb_spec 0 (o + k - 1)); [|lia].
  destruct (Z.ltb_spec (o + k - 1) MAXORDINAL); [|lia].
  reflexivity.
Qed.

Lemma cell_date_midnight o1 len offset weekday week :
  1 <= o1 + (weekday + 7 * week - offset) <= MAXORDINAL ->
  cell_date (MkDatetime ((o1 - 1) * US_PER_DAY))
    (MkDatetime ((o1 + len - 1 - 1) * US_PER_DAY)) offset weekday week
  = Ok (if (weekday + 7 * week - offset <? 0)
           || (len - 1 <? weekday + 7 * week - offset)
        then None
        else Some (MkDatetime
                     ((o1 + (weekday + 7 * week - offset) - 1) * US_PER_DAY))).
Proof.
  intros Hk. unfold cell_date.
  set (k := weekday + 7 * week - offset) in *.
  rewrite (add_days_midnight _ _ Hk).
  unfold dt_ltb. cbn [res_bind micros]. rewrite !scaled_ltb.
  destruct (Z.ltb_spec k 0), (Z.ltb_spec (len - 1) k),
    (Z.ltb_spec (o1 + k - 1) (o1 - 1)),
    (Z.ltb_spec (o1 + len - 1 - 1) (o1 + k - 1)); simpl; try reflexivity; lia.
Qed.

(** The dates of a year and the cells of its grid: for a year from 1 to 9998
    the number of week columns is the ceiling of [(days + offset) / 7], every
    cell of the grid has a date or a blank, and every date from January 1 to
    December 31 is the date of exactly one cell, in a row 0..6 and a column
    below the number of columns. *)
Lemma cell_date_covers_year (year : Z) :
  1 <= year <= 9998 ->
  exists year_start year_end columns,
    datetime_ymd year 1 1 = Ok year_start
    /\ datetime_ymd year 12 31 = Ok year_end
    /\ week_columns (year_days year) (dt_weekday year_start) = Ok columns
    /\ 7 * (columns - 1) < year_days year + dt_weekday year_start
       <= 7 * columns
    /\ (forall weekday week,
          0 <= weekday < 7 -> 0 <= week < columns ->
          exists d,
            cell_date year_start year_end (dt_weekday year_start) weekday week
            = Ok d)
    /\ forall date,
         dt_date year_start <= date <= dt_date year_end ->
         exists weekday week,
           0 <= weekday < 7 /\ 0 <= week < columns
           /\ date = dt_date year_start
                     + (weekday + 7 * week - dt_weekday year_start)
           /\ (exists day,
                 cell_date year_start year_end (dt_weekday year_start)
                   weekday week = Ok (Some day)
                 /\ dt_date day = date)
           /\ forall weekday' week' day',
                0 <= weekday' < 7 -> 0 <= week' < columns ->
                cell_date year_start year_end (dt_weekday year_start)
                  weekday' week' = Ok (Some day') ->
                dt_date day' = date ->
                weekday' = weekday /\ week' = week.
Proof.
  intros Hy.
  set (o1 := days_before_year year + 1).
  set (len := 365 + (if is_leap year then 1 else 0)).
  exists (MkDatetime ((o1 - 1) * US_PER_DAY)),
    (MkDatetime ((o1 + len - 1 - 1) * US_PER_DAY)),
    ((year_days year + date_weekday o1 + 6) / 7).
  assert (Hoff : dt_weekday (MkDatetime ((o1 - 1) * US_PER_DAY))
                 = date_weekday o1).
  { unfold dt_weekday. by rewrite dt_date_midnight. }
  rewrite Hoff.
  set (offset := date_weekday o1).
  pose proof (date_weekday_range o1) as Ho. fold offset in Ho.
  pose proof (year_days_cases year) as Hd.
  assert (Hlen : len <= year_days year).
  { unfold len. destruct (is_leap year) eqn:Hl.
    - rewrite (is_leap_year_days _ Hl). lia.
    - destruct Hd as [-> | ->]; lia. }
  assert (Hlen0 : 365 <= len) by (unfold len; destruct (is_leap year); lia).
  destruct (days_before_year_bounds year Hy) as [Hb Hb2].
  assert (Hone : year = 1 -> offset = 0).
  { intros ->. reflexivity. }
  set (columns := (year_days year + offset + 6) / 7).
  assert (Hcols : 7 * (columns - 1) < year_days year + offset <= 7 * columns).
  { unfold columns. Z.div_mod_to_equations. lia. }
  assert (Hrange : forall weekday week,
             0 <= weekday < 7 -> 0 <= week < columns ->
             1 <= o1 + (weekday + 7 * week - offset) <= MAXORDINAL).
  { intros weekday week Hw Hc. unfold MAXORDINAL.
    assert (columns <= 54) by (unfold columns; Z.div_mod_to_equations; lia).
    destruct (Z.eq_dec year 1) as [H1|H1].
    - rewrite (Hone H1). unfold o1. lia.
    - assert (365 <= days_before_year year) by (apply Hb2; lia).
      unfold o1. lia. }
  split; [rewrite datetime_ymd_jan1 by lia; unfold o1; reflexivity|].
  split.
  { rewrite datetime_ymd_dec31 by lia. unfold o1, len.
    do 3 f_equal. lia. }
  split; [by apply week_columns_exact|].
  split; [exact Hcols|].
  split.
  { intros weekday week Hw Hc. eexists.
    apply cell_date_midnight. by apply Hrange. }
  intros date Hdate. rewrite !dt_date_midnight in Hdate.
  set (k := date - o1 + offset).
  exists (k mod 7), (k / 7).
  assert (Hk7 : 0 <= k mod 7 < 7) by (apply Z.mod_pos_bound; lia).
  assert (Hkd : k = 7 * (k / 7) + k mod 7) by (apply Z.div_mod; lia).
  assert (Hkq : 0 <= k / 7 < columns).
  { unfold k in *. Z.div_mod_to_equations. lia. }
  split; [exact Hk7|]. split; [exact Hkq|].
  split; [rewrite dt_date_midnight; lia|]. split.
  - eexists. split.
    + rewrite cell_date_midnight by (by apply Hrange).
      replace (k mod 7 + 7 * (k / 7) - offset) with (date - o1) by lia.
      destruct (Z.ltb_spec (date - o1) 0); [lia|].
      destruct (Z.ltb_spec (len - 1) (date - o1)); [lia|]. reflexivity.
    + rewrite <- (dt_date_midnight date) at 2. do 3 f_equal. lia.
  - intros weekday' week' day' Hw Hc Hcell Hday.
    rewrite cell_date_midnight in Hcell by (by apply Hrange).
    destruct (_ || _); [discriminate|].
    injection Hcell as <-. rewrite dt_date_midnight in Hday. lia.
Qed.

(** ** Reports on empty buckets *)

Lemma counter_peak_empty {K} `{Countable K} :
  counter_peak (∅ : gmap K Z) = Raise IndexError.
Proof. unfold counter_peak. by rewrite map_fold_empty. Qed.

Lemma replay_uses_none keep us c next :
  (forall u, In u us -> keep u = false) ->
  replay_uses keep us c next = (Ok c, next).
Proof.
  induction us as [|u us IH]; intros Hnone; [reflexivity|].
  simpl. rewrite (Hnone u) by (by left).
  apply IH. intros v Hv. apply Hnone. by right.
Qed.

Lemma keep_in_range_none now start_datetime end_datetime commands kept next :
  (forall nm cmd u,
      In (nm, cmd) commands -> In u (uses cmd) ->
      in_range start_datetime end_datetime u = false) ->
  exists next',
    keep_in_range now start_datetime end_datetime commands kept next
    = (Ok kept, next').
Proof.
  revert next. induction commands as [|[nm cmd] commands IH];
    intros next Hnone; [by eexists|].
  simpl. unfold get_uses_from_date. simpl.
  rewrite replay_uses_none
    by (intros u Hu; apply (Hnone nm cmd u); [by left|exact Hu]).
  simpl. apply IH. intros nm' cmd' u Hin Hu.
  apply (Hnone nm' cmd' u); [by right|exact Hu].
Qed.

(** C8, as the code has it: each reporting function raises [IndexError] on an
    empty bucket mapping, at the lookup of the peak and so before any
    division; [analyze_commands] does not catch it: when no use lies in the
    window it raises [IndexError] itself and returns no report. *)
Theorem empty_buckets_raise_index_error :
  (forall width id, print_week_usage width (MkCounter id ∅) = Raise IndexError)
  /\ (forall width id,
        print_time_usage width (MkCounter id ∅) = Raise IndexError)
  /\ (forall id start_datetime end_datetime,
        print_calendar (MkCounter id ∅) start_datetime end_datetime
        = Raise IndexError)
  /\ (forall now width commands start_datetime end_datetime next,
        (forall nm cmd u,
            In (nm, cmd) commands -> In u (uses cmd) ->
            in_range start_datetime (default now end_datetime) u = false) ->
        (analyze_commands now width commands start_datetime end_datetime
           next).1
        = Raise IndexError).
Proof.
  split; [|split; [|split]].
  - intros width id. unfold print_week_usage. simpl.
    by rewrite counter_peak_empty.
  - intros width id. unfold print_time_usage. simpl.
    by rewrite counter_peak_empty.
  - intros id s e. unfold print_calendar. simpl.
    by rewrite counter_peak_empty.
  - intros now width commands s e next Hnone.
    unfold analyze_commands.
    replace (match e with Some d => d | None => now end)
      with (default now e) by (by destruct e).
    destruct (keep_in_range_none now s (default now e) commands [] next Hnone)
      as [next' ->].
    simpl. unfold print_calendar. simpl. by rewrite counter_peak_empty.
Qed.

Lemma empty_buckets_raise_index_error_witness :
  print_week_usage 80 (MkCounter 0%N ∅) = Raise IndexError
  /\ print_time_usage 80 (MkCounter 0%N ∅) = Raise IndexError
  /\ print_calendar (MkCounter 0%N ∅) t_first t_second = Raise IndexError
  /\ (analyze_commands (MkDatetime 63900000000000000) 80 [("git", two_uses)]
        (MkDatetime 63850000000000000) None 11%N).1
     = Raise IndexError.
Proof.
  destruct empty_buckets_raise_index_error as (H1 & H2 & H3 & H4).
  split; [apply H1|]. split; [apply H2|]. split; [apply H3|].
  apply H4. intros nm cmd u [[= <- <-]|[]] Hu.
  vm_compute in Hu. destruct Hu as [<-|[<-|[]]]; reflexivity.
Defined.

(** C8 as stated fails: with an empty history the run ends in [IndexError];
    no report is skipped and nothing handles the condition. *)
Lemma run_on_empty_history_raises :
  main (fun _ => 0) t_second 80 [] 0%N = Raise IndexError.
Proof. reflexivity. Qed.

(** ** The history parser *)

(** The bounds of [fromtimestamp] in UTC: the first day of the year 1 is
    refused, because the instant one day earlier has no year. *)
Lemma fromtimestamp_bounds :
  fromtimestamp (fun _ => 0) (-62135596800) = Raise TimestampError
  /\ fromtimestamp (fun _ => 0) (-62135510401) = Raise TimestampError
  /\ fromtimestamp (fun _ => 0) (-62135510400) = Ok (MkDatetime 86400000000)
  /\ fromtimestamp (fun _ => 0) 253402300799
     = Ok (MkDatetime 315537897599000000)
  /\ fromtimestamp (fun _ => 0) 253402300800 = Raise TimestampError.
Proof. by vm_compute. Qed.

(** With a fixed offset from UTC the timestamps that are accepted are those
    whose local time lies between 0001-01-02T00:00:00 and
    9999-12-31T23:59:59. *)
Lemma fromtimestamp_fixed_offset (offset t : Z) :
  fromtimestamp (fun _ => offset) t
  = if (86400 <=? 719162 * 86400 + t + offset)
       && (719162 * 86400 + t + offset <? MAXORDINAL * 86400)
    then Ok (MkDatetime ((719162 * 86400 + t + offset) * US_PER_SECOND))
    else Raise TimestampError.
Proof.
  unfold fromtimestamp, local_seconds, max_fold_seconds, MAXORDINAL.
  replace (719162 * 86400 + (t - 24 * 3600) + offset)
    with (719162 * 86400 + t + offset - 86400) by lia.
  set (s := 719162 * 86400 + t + offset).
  destruct (Z.leb_spec 0 s), (Z.ltb_spec s (3652059 * 86400)),
    (Z.leb_spec 86400 s), (Z.leb_spec 0 (s - 86400)),
    (Z.ltb_spec (s - 86400) (3652059 * 86400));
    cbn [andb res_bind]; try lia; try reflexivity.
  destruct (Z.ltb_spec (s - (s - 86400) - 24 * 3600) 0); [lia|reflexivity].
Qed.








(** ** The lines of the bucket reporters *)

Lemma bar_row_inv width label commands most_frequent line :
  bar_row width label commands most_frequent = Ok line ->
  exists freq cols c n,
    int_truediv commands most_frequent = Ok freq
    /\ bar_cols width = Ok cols
    /\ float_of_int cols = Ok c
    /\ py_floor (float_mul c freq) = Ok n
    /\ 0 <= cols
    /\ line = MkBarLine label (Z.max 0 n) cols commands.
Proof.
  unfold bar_row. intros Hrow.
  destruct (int_truediv _ _) as [freq|] eqn:Hf;
    cbn [res_bind] in Hrow; [|discriminate].
  destruct (bar_cols width) as [cols|] eqn:Hcols;
    cbn [res_bind] in Hrow; [|discriminate].
  destruct (float_of_int cols) as [c|] eqn:Hc;
    cbn [res_bind] in Hrow; [|discriminate].
  destruct (py_floor _) as [n|] eqn:Hn;
    cbn [res_bind] in Hrow; [|discriminate].
  destruct (Z.ltb_spec cols 0); [discriminate|].
  injection Hrow as <-. exists freq, cols, c, n. repeat split; auto.
Qed.

(** * Further properties of the code *)

(** ** Lines without the marker *)




(** ** Flag extraction *)

Lemma occurrences_nonneg l k : 0 <= occurrences l k.
Proof. unfold occurrences. lia. Qed.

Lemma occurrences_cons a l k :
  occurrences (a :: l) k = (if string_dec a k then 1 else 0) + occurrences l k.
Proof.
  unfold occurrences. simpl. destruct (string_dec a k); lia.
Qed.

Lemma occurrences_pos_in l k : 0 < occurrences l k <-> In k l.
Proof.
  unfold occurrences. split.
  - intros Hpos. apply (count_occ_In string_dec). lia.
  - intros Hin. apply (count_occ_In string_dec) in Hin. lia.
Qed.

Lemma counter_get_incr_same (m : gmap string Z) k :
  counter_get (counter_incr k m) k = counter_get m k + 1.
Proof. unfold counter_incr, counter_get at 1. by rewrite lookup_insert_eq. Qed.

Lemma counter_get_incr_other (m : gmap string Z) k k' :
  k <> k' -> counter_get (counter_incr k m) k' = counter_get m k'.
Proof.
  intros Hne. unfold counter_incr, counter_get at 1.
  by rewrite lookup_insert_ne.
Qed.

Lemma counter_incr_lookup_other (m : gmap string Z) k k' :
  k <> k' -> counter_incr k m !! k' = m !! k'.
Proof. intros Hne. unfold counter_incr. by rewrite lookup_insert_ne. Qed.

(** The loop adds to each flag token its number of occurrences and leaves
    the other keys as they are. *)
Lemma get_flags_loop_spec l :
  forall m, ~ In "" l ->
    exists m',
      get_flags_loop l m = Ok m'
      /\ forall k,
           if is_flag k && (0 <? occurrences l k)
           then m' !! k = Some (counter_get m k + occurrences l k)
           else m' !! k = m !! k.
Proof.
  induction l as [|a l IH]; intros m Hne.
  - exists m. split; [reflexivity|]. intros k.
    by rewrite andb_false_r.
  - assert (Hl : ~ In "" l) by (intros ?; apply Hne; by right).
    assert (Ha : a <> "") by (intros ->; apply Hne; by left).
    destruct a as [|c a']; [done|].
    change (get_flags_loop (String c a' :: l) m)
      with (if is_flag (String c a')
            then get_flags_loop l (counter_incr (String c a') m)
            else get_flags_loop l m).
    destruct (is_flag (String c a')) eqn:Hflag.
    + destruct (IH (counter_incr (String c a') m) Hl) as (m' & Hrun & Hm').
      exists m'. split; [exact Hrun|]. intros k. specialize (Hm' k).
      rewrite occurrences_cons.
      pose proof (occurrences_nonneg l k) as Hnn.
      destruct (string_dec (String c a') k) as [<-|Hk].
      * rewrite Hflag in *. simpl in *.
        destruct (Z.ltb_spec 0 (1 + occurrences l (String c a'))); [|lia].
        destruct (Z.ltb_spec 0 (occurrences l (String c a'))).
        -- rewrite Hm', counter_get_incr_same. f_equal. lia.
        -- rewrite Hm'. unfold counter_incr. rewrite lookup_insert_eq.
           f_equal. lia.
      * replace (0 + occurrences l k) with (occurrences l k) by lia.
        destruct (is_flag k && (0 <? occurrences l k)).
        -- by rewrite Hm', counter_get_incr_other.
        -- by rewrite Hm', counter_incr_lookup_other.
    + destruct (IH m Hl) as (m' & Hrun & Hm').
      exists m'. split; [exact Hrun|]. intros k. specialize (Hm' k).
      rewrite occurrences_cons.
      destruct (string_dec (String c a') k) as [<-|Hk].
      * rewrite Hflag in *. simpl in *. exact Hm'.
      * replace (0 + occurrences l k) with (occurrences l k) by lia.
        exact Hm'.
Qed.

(** X2: for an argument list without the empty string, [_get_flags] returns
    a new Counter that holds exactly the tokens of the list that start with
    a dash and are longer than one character, each with the number of times
    it occurs; a lone dash and the other tokens are not keys. *)
Theorem get_flags_counts_dash_tokens (argument_list : pylist string)
    (next : loc) :
  ~ In "" (list_items argument_list) ->
  exists found,
    _get_flags argument_list next = (Ok (MkCounter next found), (next + 1)%N)
    /\ forall k,
         found !! k
         = if is_flag k && (0 <? occurrences (list_items argument_list) k)
           then Some (occurrences (list_items argument_list) k)
           else None.
Proof.
  intros Hne. destruct (get_flags_loop_spec _ ∅ Hne) as (m' & Hrun & Hm').
  exists m'. unfold _get_flags. rewrite Hrun. split; [reflexivity|].
  intros k. specialize (Hm' k).
  destruct (is_flag k && _); rewrite Hm'.
  - unfold counter_get. rewrite lookup_empty. simpl. f_equal; lia.
  - apply lookup_empty.
Qed.

Lemma get_flags_counts_dash_tokens_witness :
  exists found,
    _get_flags (PyList 0%N ["-v"; "--verbose"; "x"; "-"; "-v"]) 1%N
    = (Ok (MkCounter 1%N found), (1 + 1)%N)
    /\ forall k,
         found !! k
         = if is_flag k
              && (0 <? occurrences ["-v"; "--verbose"; "x"; "-"; "-v"] k)
           then Some (occurrences ["-v"; "--verbose"; "x"; "-"; "-v"] k)
           else None.
Proof.
  apply (get_flags_counts_dash_tokens
           (PyList 0%N ["-v"; "--verbose"; "x"; "-"; "-v"]) 1%N).
  simpl. intros [H|[H|[H|[H|[H|[]]]]]]; discriminate.
Defined.

(** ** The range filter *)

Lemma replay_uses_total keep us :
  forall c next,
    (forall u, In u us -> keep u = true -> ~ In "" (list_items (use_args u))) ->
    exists c' next', replay_uses keep us c next = (Ok c', next').
Proof.
  induction us as [|u us IH]; intros c next Hne; [by eexists; eexists|].
  simpl. destruct (keep u) eqn:Hk.
  - pose proof (add_use_outcome_ok (use_time u) (use_args u) c next
                  (Hne u (or_introl eq_refl) Hk)) as Hok.
    destruct (add_use _ _ c next) as [[c1 r] n1]. simpl in Hok. subst r.
    apply IH. intros v Hv. apply Hne. by right.
  - apply IH. intros v Hv. apply Hne. by right.
Qed.

Lemma replay_uses_invariant keep us :
  forall c next c' next',
    usage_invariant c ->
    replay_uses keep us c next = (Ok c', next') ->
    usage_invariant c'.
Proof.
  induction us as [|u us IH]; intros c next c' next' Hinv Hrun;
    simpl in Hrun.
  - by injection Hrun as <- <-.
  - destruct (keep u); [|by eapply IH].
    pose proof (usage_invariant_add_use (use_time u) (use_args u) c next Hinv)
      as Hinv1.
    destruct (add_use _ _ c next) as [[c1 [[]|e]] n1]; [|discriminate].
    by eapply IH.
Qed.

Lemma replay_uses_entries keep us :
  forall c next c' next',
    replay_uses keep us c next = (Ok c', next') ->
    map use_entry (uses c')
    = (map use_entry (uses c) ++ map use_entry (List.filter keep us))%list.
Proof.
  induction us as [|u us IH]; intros c next c' next' Hrun; simpl in Hrun.
  - injection Hrun as <- <-. simpl. by rewrite app_nil_r.
  - simpl. destruct (keep u); [|by eapply IH].
    pose proof (add_use_uses (use_time u) (use_args u) c next) as Hu.
    destruct (add_use _ _ c next) as [[c1 [[]|e]] n1]; [|discriminate].
    simpl in Hu. rewrite (IH _ _ _ _ Hrun), Hu, map_app. simpl.
    by rewrite <- app_assoc.
Qed.

Lemma built_normally_tokens_nonempty c :
  built_normally c -> tokens_nonempty (uses c).
Proof.
  induction 1 as [nm next|time arguments c next _ IH Hok]; [intros u []|].
  rewrite add_use_uses. intros u Hu.
  apply in_app_or in Hu as [Hu|[<-|[]]]; [by apply IH|]. simpl.
  intros Hin. rewrite (add_use_outcome_raise _ _ _ _ Hin) in Hok.
  discriminate.
Qed.

(** X3: on a record whose argument lists hold no empty string, as every
    record built by [add_use] calls that returned normally is,
    [get_uses_from_date] does not raise; the record it returns has the
    source's name, holds the source's uses with [date <= time <= stop_date]
    in the source's order, and its count and buckets agree with them. *)
Theorem get_uses_from_date_returns_range now date stop_date self next :
  tokens_nonempty (uses self) ->
  exists c' next',
    get_uses_from_date now date stop_date self next = (self, Ok c', next')
    /\ name c' = name self
    /\ map use_entry (uses c')
       = map use_entry
           (List.filter (in_range date (default now stop_date)) (uses self))
    /\ usage_invariant c'.
Proof.
  intros Hne. unfold get_uses_from_date. simpl.
  replace (match stop_date with Some d => d | None => now end)
    with (default now stop_date) by (by destruct stop_date).
  set (new_cmd := (Command_init (name self) next).1).
  destruct (replay_uses_total (in_range date (default now stop_date))
              (uses self) new_cmd (next + 5)%N) as (c1 & n1 & Hrun).
  { intros u Hu _. by apply Hne. }
  unfold new_cmd in Hrun. simpl in Hrun. rewrite Hrun.
  exists (set_most_recent_use (most_recent_use self) c1), n1.
  split; [reflexivity|].
  destruct (replay_uses_spec _ _ _ _ _ _ Hrun) as (_ & _ & _ & _ & Hnm & _).
  split; [exact Hnm|]. split.
  - apply (replay_uses_entries _ _ _ _ _ _ Hrun).
  - apply (replay_uses_invariant _ _ _ _ _ _
             (usage_invariant_init (name self) next) Hrun).
Qed.

Lemma get_uses_from_date_returns_range_witness :
  exists c' next',
    get_uses_from_date t_second t_first (Some t_first) two_uses 11%N
    = (two_uses, Ok c', next')
    /\ name c' = name two_uses
    /\ map use_entry (uses c')
       = map use_entry
           (List.filter (in_range t_first (default t_second (Some t_first)))
              (uses two_uses))
    /\ usage_invariant c'.
Proof.
  apply (get_uses_from_date_returns_range t_second t_first (Some t_first)
           two_uses 11%N).
  apply built_normally_tokens_nonempty, two_uses_built_normally.
Defined.

Lemma filter_sublist_map {A B} (f : A -> B) (p q : A -> bool) (l : list A) :
  (forall x, In x l -> p x = true -> q x = true) ->
  sublist (map f (List.filter p l)) (map f (List.filter q l)).
Proof.
  induction l as [|x l IH]; intros Himp; [constructor|].
  assert (Hl : forall y, In y l -> p y = true -> q y = true)
    by (intros y Hy; apply Himp; by right).
  simpl. destruct (p x) eqn:Hp.
  - rewrite (Himp x (or_introl eq_refl) Hp). simpl.
    apply sublist_skip, IH, Hl.
  - destruct (q x); simpl; [apply sublist_cons|]; apply IH, Hl.
Qed.

(** X4: the range filter is monotone in the range: when one range lies
    within another, the uses returned for the first are a subsequence of the
    uses returned for the second, and their number is not larger. *)
Theorem get_uses_from_date_monotone now date1 stop1 date2 stop2 self
    next1 next2 c1 c2 :
  micros date2 <= micros date1 ->
  micros stop1 <= micros stop2 ->
  (get_uses_from_date now date1 (Some stop1) self next1).1.2 = Ok c1 ->
  (get_uses_from_date now date2 (Some stop2) self next2).1.2 = Ok c2 ->
  sublist (map use_entry (uses c1)) (map use_entry (uses c2))
  /\ count c1 <= count c2.
Proof.
  intros Hd Hs H1 H2.
  assert (Hsub : sublist
                   (map use_entry
                      (List.filter (in_range date1 stop1) (uses self)))
                   (map use_entry
                      (List.filter (in_range date2 stop2) (uses self)))).
  { apply filter_sublist_map. intros u _. unfold in_range, dt_leb.
    intros Hin. apply andb_prop in Hin as [Ha Hb].
    apply Z.leb_le in Ha, Hb. apply andb_true_intro.
    split; apply Z.leb_le; lia. }
  destruct (get_uses_from_date_result _ _ _ _ _ _ H1)
    as (_ & _ & Hc1 & _ & _).
  destruct (get_uses_from_date_result _ _ _ _ _ _ H2)
    as (_ & _ & Hc2 & _ & _).
  unfold get_uses_from_date in H1, H2. simpl in H1, H2.
  destruct (replay_uses _ _ _ (next1 + 5)%N) as [[d1|e1] m1] eqn:Hr1;
    [|discriminate].
  destruct (replay_uses _ _ _ (next2 + 5)%N) as [[d2|e2] m2] eqn:Hr2;
    [|discriminate].
  injection H1 as <-. injection H2 as <-.
  pose proof (replay_uses_entries _ _ _ _ _ _ Hr1) as He1.
  pose proof (replay_uses_entries _ _ _ _ _ _ Hr2) as He2.
  simpl in He1, He2 |- *. rewrite He1, He2.
  split; [exact Hsub|].
  simpl in Hc1, Hc2. rewrite Hc1, Hc2.
  apply sublist_length in Hsub. rewrite !length_map in Hsub. lia.
Qed.

Lemma get_uses_from_date_monotone_witness :
  exists c1 c2,
    (get_uses_from_date t_second t_first (Some t_first) two_uses 11%N).1.2
    = Ok c1
    /\ (get_uses_from_date t_second t_first (Some t_second) two_uses 11%N).1.2
       = Ok c2
    /\ sublist (map use_entry (uses c1)) (map use_entry (uses c2))
    /\ count c1 <= count c2.
Proof.
  eexists. eexists.
  split; [vm_compute; reflexivity|]. split; [vm_compute; reflexivity|].
  apply (get_uses_from_date_monotone t_second t_first t_first t_first
           t_second two_uses 11%N 11%N);
    vm_compute; (discriminate || reflexivity).
Defined.

(** ** Sorting and the last uses *)

Lemma sort_insert_perm u sorted : Permutation (sort_insert u sorted) (u :: sorted).
Proof.
  induction sorted as [|v rest IH]; [reflexivity|]. simpl.
  destruct (dt_ltb _ _); [|reflexivity].
  rewrite IH. apply perm_swap.
Qed.

Lemma sort_by_time_perm us : Permutation (sort_by_time us) us.
Proof.
  induction us as [|u us IH]; [reflexivity|].
  simpl. rewrite sort_insert_perm. by constructor.
Qed.

Lemma sort_insert_sorted u sorted :
  StronglySorted time_le sorted -> StronglySorted time_le (sort_insert u sorted).
Proof.
  induction 1 as [|v rest Hs IH Hall]; simpl.
  - repeat constructor.
  - unfold dt_ltb. destruct (Z.ltb_spec (micros (use_time v))
                               (micros (use_time u))).
    + constructor; [exact IH|].
      rewrite (List.Forall_forall (time_le v)). intros x Hx.
      apply (Permutation_in _ (sort_insert_perm u rest)) in Hx.
      destruct Hx as [<-|Hx]; [unfold time_le; lia|].
      by apply (proj1 (List.Forall_forall _ _) Hall).
    + constructor; [by constructor|].
      constructor; [exact H|].
      rewrite List.Forall_forall. intros x Hx.
      pose proof (proj1 (List.Forall_forall _ _) Hall x Hx) as Hvx.
      unfold time_le in *. lia.
Qed.

Lemma sort_by_time_sorted us : StronglySorted time_le (sort_by_time us).
Proof.
  induction us as [|u us IH]; [constructor|].
  simpl. by apply sort_insert_sorted.
Qed.

Lemma sort_insert_stable t u sorted :
  List.filter (fun v => micros (use_time v) =? t) (sort_insert u sorted)
  = List.filter (fun v => micros (use_time v) =? t) (u :: sorted).
Proof.
  induction sorted as [|v rest IH]; [reflexivity|].
  simpl. unfold dt_ltb.
  destruct (Z.ltb_spec (micros (use_time v)) (micros (use_time u)));
    [|reflexivity].
  simpl. simpl in IH. rewrite IH.
  destruct (Z.eqb_spec (micros (use_time u)) t),
    (Z.eqb_spec (micros (use_time v)) t); try reflexivity; lia.
Qed.

Lemma sort_by_time_stable t us :
  List.filter (fun v => micros (use_time v) =? t) (sort_by_time us)
  = List.filter (fun v => micros (use_time v) =? t) us.
Proof.
  induction us as [|u us IH]; [reflexivity|].
  simpl sort_by_time. rewrite sort_insert_stable. simpl. by rewrite IH.
Qed.

Lemma get_last_n_uses_self n_uses self next :
  (get_last_n_uses n_uses self next).1.1 = _sort_uses self.
Proof.
  unfold get_last_n_uses. simpl.
  by destruct (replay_uses _ _ _ _) as [[c1|e] n1].
Qed.

(** X5: [get_last_n_uses] changes the source record, whether it returns or
    raises: afterwards the source's uses are in ascending order of time,
    they are the uses it had before, uses with equal times keep their
    order, and nothing else in the record has changed. *)
Theorem get_last_n_uses_sorts_source n_uses self next :
  StronglySorted time_le (uses (get_last_n_uses n_uses self next).1.1)
  /\ Permutation (uses (get_last_n_uses n_uses self next).1.1) (uses self)
  /\ (forall t,
        List.filter (fun v => micros (use_time v) =? t)
          (uses (get_last_n_uses n_uses self next).1.1)
        = List.filter (fun v => micros (use_time v) =? t) (uses self))
  /\ name (get_last_n_uses n_uses self next).1.1 = name self
  /\ count (get_last_n_uses n_uses self next).1.1 = count self
  /\ uses_id (get_last_n_uses n_uses self next).1.1 = uses_id self
  /\ most_recent_use (get_last_n_uses n_uses self next).1.1
     = most_recent_use self
  /\ calendar_usage (get_last_n_uses n_uses self next).1.1
     = calendar_usage self
  /\ weekly_usage (get_last_n_uses n_uses self next).1.1 = weekly_usage self
  /\ hourly_usage (get_last_n_uses n_uses self next).1.1 = hourly_usage self
  /\ flags (get_last_n_uses n_uses self next).1.1 = flags self.
Proof.
  rewrite get_last_n_uses_self. simpl.
  split; [apply sort_by_time_sorted|].
  split; [apply sort_by_time_perm|].
  split; [intros t; apply sort_by_time_stable|]. by repeat split.
Qed.

Lemma strongly_sorted_app_le (l1 l2 : list use) u v :
  StronglySorted time_le (l1 ++ l2) -> In u l1 -> In v l2 -> time_le u v.
Proof.
  induction l1 as [|x l1 IH]; intros Hs Hu Hv; [destruct Hu|].
  simpl in Hs. apply StronglySorted_inv in Hs as [Hs Hall].
  destruct Hu as [<-|Hu]; [|by apply IH].
  apply (proj1 (List.Forall_forall _ _) Hall). apply in_or_app. by right.
Qed.

Lemma slice_from_last {A} (n : Z) (l : list A) :
  1 <= n -> slice_from (- n) l = drop (length l - Z.to_nat n) l.
Proof.
  intros Hn. unfold slice_from.
  destruct (Z.ltb_spec (- n) 0); [|lia]. f_equal. lia.
Qed.

(** X6: for [n_uses >= 1], on a record whose argument lists hold no empty
    string, [get_last_n_uses] does not raise; the record it returns holds
    the last [n_uses] uses of the sorted list (all of them when there are
    fewer), its count is [min(n_uses, len(uses))] and agrees with its
    buckets, and no use left out is later than a use kept. *)
Theorem get_last_n_uses_returns_latest n_uses self next :
  1 <= n_uses ->
  tokens_nonempty (uses self) ->
  exists c' next',
    get_last_n_uses n_uses self next = (_sort_uses self, Ok c', next')
    /\ map use_entry (uses c')
       = map use_entry
           (drop (length (uses self) - Z.to_nat n_uses)
              (sort_by_time (uses self)))
    /\ count c' = Z.min n_uses (Z.of_nat (length (uses self)))
    /\ usage_invariant c'
    /\ forall u v,
         In u (take (length (uses self) - Z.to_nat n_uses)
                 (sort_by_time (uses self))) ->
         In v (drop (length (uses self) - Z.to_nat n_uses)
                 (sort_by_time (uses self))) ->
         time_le u v.
Proof.
  intros Hn Hne. unfold get_last_n_uses. simpl.
  rewrite slice_from_last by exact Hn. rewrite sort_by_time_length.
  set (kept := drop (length (uses self) - Z.to_nat n_uses)
                 (sort_by_time (uses self))).
  set (new_cmd := (Command_init (name self) next).1).
  destruct (replay_uses_total (fun _ => true) kept new_cmd (next + 5 + 1)%N)
    as (c1 & n1 & Hrun).
  { intros u Hu _. apply Hne.
    apply (Permutation_in _ (sort_by_time_perm (uses self))).
    unfold kept in Hu. rewrite <- (take_drop
      (length (uses self) - Z.to_nat n_uses) (sort_by_time (uses self))).
    apply in_or_app. by right. }
  unfold new_cmd in Hrun. simpl in Hrun. rewrite Hrun.
  exists (set_most_recent_use (most_recent_use self) c1), n1.
  split; [reflexivity|].
  pose proof (replay_uses_entries _ _ _ _ _ _ Hrun) as He.
  rewrite filter_true_id in He. simpl in He.
  destruct (replay_uses_spec _ _ _ _ _ _ Hrun) as (_ & _ & _ & Hc & _ & _).
  rewrite filter_true_id in Hc. simpl in Hc.
  split; [exact He|]. split.
  { simpl. rewrite Hc. unfold kept. rewrite length_drop, sort_by_time_length.
    lia. }
  split.
  { apply (replay_uses_invariant _ _ _ _ _ _
             (usage_invariant_init (name self) next) Hrun). }
  intros u v Hu Hv.
  apply (strongly_sorted_app_le
           (take (length (uses self) - Z.to_nat n_uses)
              (sort_by_time (uses self))) kept); [|exact Hu|exact Hv].
  unfold kept. rewrite take_drop. apply sort_by_time_sorted.
Qed.

Lemma get_last_n_uses_returns_latest_witness :
  exists c' next',
    get_last_n_uses 1 two_uses 11%N = (_sort_uses two_uses, Ok c', next')
    /\ map use_entry (uses c')
       = map use_entry
           (drop (length (uses two_uses) - Z.to_nat 1)
              (sort_by_time (uses two_uses)))
    /\ count c' = Z.min 1 (Z.of_nat (length (uses two_uses)))
    /\ usage_invariant c'
    /\ forall u v,
         In u (take (length (uses two_uses) - Z.to_nat 1)
                 (sort_by_time (uses two_uses))) ->
         In v (drop (length (uses two_uses) - Z.to_nat 1)
                 (sort_by_time (uses two_uses))) ->
         time_le u v.
Proof.
  apply (get_last_n_uses_returns_latest 1 two_uses 11%N); [lia|].
  apply built_normally_tokens_nonempty, two_uses_built_normally.
Defined.

(** ** The mapping of the parser *)

Lemma dict_get_set_same d k v : dict_get (dict_set d k v) k = Some v.
Proof.
  induction d as [|[k' v'] d IH]; simpl; [by rewrite String.eqb_refl|].
  destruct (String.eqb k' k) eqn:Hk; simpl.
  - by rewrite String.eqb_refl.
  - by rewrite Hk.
Qed.

Lemma dict_get_set_other d k k' v :
  k <> k' -> dict_get (dict_set d k v) k' = dict_get d k'.
Proof.
  intros Hne. induction d as [|[k0 v0] d IH]; simpl.
  - by rewrite (proj2 (String.eqb_neq k k') Hne).
  - destruct (String.eqb k0 k) eqn:Hk; simpl.
    + apply String.eqb_eq in Hk as ->.
      by rewrite (proj2 (String.eqb_neq k k') Hne).
    + by rewrite IH.
Qed.

Lemma dict_get_None d k : dict_get d k = None -> ~ In k (map fst d).
Proof.
  induction d as [|[k' v'] d IH]; simpl; [tauto|].
  destruct (String.eqb k' k) eqn:Hk; [discriminate|].
  apply String.eqb_neq in Hk. intros Hd [Heq|Hin]; [done|by apply IH].
Qed.

Lemma dict_set_keys d k v :
  map fst (dict_set d k v)
  = match dict_get d k with
    | Some _ => map fst d
    | None => (map fst d ++ [k])%list
    end.
Proof.
  induction d as [|[k' v'] d IH]; simpl; [reflexivity|].
  destruct (String.eqb k' k) eqn:Hk; simpl.
  - apply String.eqb_eq in Hk as ->. reflexivity.
  - rewrite IH. by destruct (dict_get d k).
Qed.

Lemma total_count_set d k v :
  total_count (dict_set d k v)
  = total_count d
    - match dict_get d k with Some c => count c | None => 0 end
    + count v.
Proof.
  induction d as [|[k' v'] d IH]; simpl; [lia|].
  destruct (String.eqb k' k); simpl; [lia|]. rewrite IH. lia.
Qed.

Lemma dict_get_of_in d k c :
  List.NoDup (map fst d) -> In (k, c) d -> dict_get d k = Some c.
Proof.
  induction d as [|[k' v'] d IH]; simpl; intros Hnd Hin; [destruct Hin|].
  apply List.NoDup_cons_iff in Hnd as [Hk Hnd].
  destruct Hin as [[= -> ->]|Hin]; [by rewrite String.eqb_refl|].
  destruct (String.eqb k' k) eqn:Heq; [|by apply IH].
  apply String.eqb_eq in Heq as ->.
  exfalso. apply Hk. apply (in_map fst) in Hin. exact Hin.
Qed.

Lemma dict_set_in d k v k' v' :
  In (k', v') (dict_set d k v) -> (k' = k /\ v' = v) \/ In (k', v') d.
Proof.
  induction d as [|[k0 v0] d IH]; simpl.
  - intros [[= <- <-]|[]]. by left.
  - destruct (String.eqb k0 k).
    + intros [[= <- <-]|Hin]; [by left|]. right. by right.
    + intros [Heq|Hin]; [right; by left|].
      destruct (IH Hin) as [?|?]; [by left|]. right. by right.
Qed.

Lemma split_loop_no_empty s :
  forall cur, ~ In "" (split_loop s cur).
Proof.
  assert (Hflush : forall cur : list ascii,
             cur <> [] -> string_of_list_ascii (rev cur) <> "").
  { intros cur Hcur Hs. apply Hcur.
    destruct cur as [|c cur]; [reflexivity|]. simpl in Hs.
    destruct (rev cur); discriminate. }
  induction s as [|c s IH]; intros cur; simpl.
  - destruct cur as [|a cur]; [tauto|].
    intros [Heq|[]]. by apply (Hflush (a :: cur)); [|symmetry].
  - destruct (is_space c); [|apply IH].
    destruct cur as [|a cur]; [apply IH|].
    intros [Heq|Hin]; [|by apply (IH [])].
    by apply (Hflush (a :: cur)); [|symmetry].
Qed.

Lemma split_no_empty s : ~ In "" (split s).
Proof. apply split_loop_no_empty. Qed.

Lemma built_normally_invariant c : built_normally c -> usage_invariant c.
Proof.
  induction 1 as [nm next|time arguments c next _ IH Hok].
  - apply usage_invariant_init.
  - by apply usage_invariant_add_use.
Qed.

(** What a successful pass through the body of the loop does to the
    mapping. *)
Lemma parse_entry_ok tz lines line_num line commands next d' next' :
  parse_entry tz lines line_num line commands next = (Ok d', next') ->
  exists following t when cmd rest c',
    lines !! (line_num + 1)%nat = Some following
    /\ py_int (str_drop 6 following) = Ok t
    /\ fromtimestamp tz t = Ok when
    /\ split (str_drop 7 line) = cmd :: rest
    /\ c' = (add_use when (PyList (next + 1)%N rest)
               (default (Command_init cmd (next + 2)%N).1
                  (dict_get commands cmd)) (next + 2 + 5)%N).1.1
    /\ (add_use when (PyList (next + 1)%N rest)
          (default (Command_init cmd (next + 2)%N).1
             (dict_get commands cmd)) (next + 2 + 5)%N).1.2 = Ok tt
    /\ dict_get d' cmd = Some c'
    /\ (forall k, k <> cmd -> dict_get d' k = dict_get commands k)
    /\ map fst d'
       = match dict_get commands cmd with
         | Some _ => map fst commands
         | None => (map fst commands ++ [cmd])%list
         end
    /\ total_count d' = total_count commands + 1.
Proof.
  unfold parse_entry. intros Hrun.
  destruct (lines !! (line_num + 1)%nat) as [following|]; [|discriminate].
  destruct (py_int _) as [t|] eqn:Ht; [|discriminate].
  destruct (fromtimestamp tz t) as [when|] eqn:Hw; [|discriminate].
  cbn [list_items] in Hrun.
  destruct (split (str_drop 7 line)) as [|cmd rest] eqn:Hsplit;
    [discriminate|].
  exists following, t, when, cmd, rest.
  unfold dict_setdefault in Hrun. cbn [Command_init] in Hrun.
  change (Command_init cmd (next + 2)%N).1
    with {| name := cmd; count := 0; uses_id := (next + 2)%N;
            uses := []; most_recent_use := None;
            calendar_usage := MkCounter (next + 2 + 1)%N ∅;
            weekly_usage := MkCounter (next + 2 + 2)%N ∅;
            hourly_usage := MkCounter (next + 2 + 3)%N ∅;
            flags := MkCounter (next + 2 + 4)%N ∅ |}.
  set (fresh := {| name := cmd; count := 0; uses_id := (next + 2)%N;
                   uses := []; most_recent_use := None;
                   calendar_usage := MkCounter (next + 2 + 1)%N ∅;
                   weekly_usage := MkCounter (next + 2 + 2)%N ∅;
                   hourly_usage := MkCounter (next + 2 + 3)%N ∅;
                   flags := MkCounter (next + 2 + 4)%N ∅ |}) in *.
  destruct (dict_get commands cmd) as [c0|] eqn:Hget;
    cbn [default from_option id].
  - rewrite Hget in Hrun.
    pose proof (add_use_count when (PyList (next + 1)%N rest) c0
                  (next + 2 + 5)%N) as Hcnt.
    destruct (add_use _ _ c0 _) as [[c1 [[]|e]] n1]; [|discriminate].
    injection Hrun as <- <-. cbn [fst snd] in Hcnt |- *.
    exists c1. repeat split; try reflexivity; try assumption.
    + apply dict_get_set_same.
    + intros k Hk. apply dict_get_set_other. congruence.
    + by rewrite dict_set_keys, Hget.
    + rewrite total_count_set, Hget. lia.
  - rewrite dict_get_set_same in Hrun.
    pose proof (add_use_count when (PyList (next + 1)%N rest) fresh
                  (next + 2 + 5)%N) as Hcnt.
    destruct (add_use _ _ fresh _) as [[c1 [[]|e]] n1]; [|discriminate].
    injection Hrun as <- <-. cbn [fst snd] in Hcnt |- *.
    exists c1. repeat split; try reflexivity; try assumption.
    + apply dict_get_set_same.
    + intros k Hk.
      rewrite !dict_get_set_other by congruence. reflexivity.
    + rewrite !dict_set_keys, Hget, dict_get_set_same. reflexivity.
    + rewrite !total_count_set, Hget, dict_get_set_same.
      change (count fresh) with 0 in *. lia.
Qed.

Lemma parse_entry_keeps_mapping tz lines line_num line commands next d' next' :
  parsed_mapping commands ->
  parse_entry tz lines line_num line commands next = (Ok d', next') ->
  parsed_mapping d' /\ total_count d' = total_count commands + 1.
Proof.
  intros [Hnd Hrec] Hrun.
  destruct (parse_entry_ok _ _ _ _ _ _ _ _ Hrun)
    as (following & t & when & cmd & rest & c' & _ & _ & _ & _ & Hc' & Hok
        & Hget & Hother & Hkeys & Htotal).
  split; [|exact Htotal]. split.
  - rewrite Hkeys. destruct (dict_get commands cmd) eqn:Hg; [exact Hnd|].
    apply List.NoDup_app; [exact Hnd|repeat constructor; tauto|].
    intros k Hk [<-|[]]. by apply (dict_get_None _ _ Hg).
  - intros k c Hk. destruct (string_dec k cmd) as [->|Hne].
    + rewrite Hget in Hk. injection Hk as <-. rewrite Hc'.
      rewrite add_use_name, add_use_count.
      destruct (dict_get commands cmd) as [c0|] eqn:Hg; simpl.
      * destruct (Hrec cmd c0 Hg) as (Hn & Hb & Hcount).
        split; [exact Hn|]. split; [|lia].
        by apply normally_add.
      * split; [reflexivity|]. split; [|lia].
        apply normally_add; [apply normally_new|exact Hok].
    + rewrite (Hother k Hne) in Hk. by apply Hrec.
Qed.

Lemma parse_loop_keeps_mapping tz lines rest :
  forall line_num commands next m n,
    parsed_mapping commands ->
    parse_loop tz lines line_num rest commands next = (Ok m, n) ->
    parsed_mapping m
    /\ total_count m
       = total_count commands + Z.of_nat (length (marker_lines rest)).
Proof.
  induction rest as [|line rest IH]; intros line_num commands next m n Hinv Hrun;
    simpl in Hrun.
  - injection Hrun as <- <-. simpl. split; [exact Hinv|lia].
  - unfold marker_lines in *. simpl.
    destruct (startswith line "- cmd: ").
    + destruct (parse_entry _ _ _ _ _ _) as [[d1|e] n1] eqn:Hentry;
        [|discriminate].
      destruct (parse_entry_keeps_mapping _ _ _ _ _ _ _ _ Hinv Hentry)
        as [Hinv1 Ht1].
      destruct (IH _ _ _ _ _ Hinv1 Hrun) as [Hinv2 Ht2].
      split; [exact Hinv2|]. rewrite Ht2, Ht1. simpl. lia.
    + by apply (IH _ _ _ _ _ Hinv Hrun).
Qed.

(** X7: when [parse_commands] returns, the keys of the mapping are
    distinct, every record is stored under its own name, has been built by
    [add_use] calls that returned normally, so that its count agrees with
    its uses and buckets, and has at least one use; the counts of all
    records add up to the number of lines that start with [- cmd: ]. *)
Theorem parse_commands_counts_marker_lines tz lines next m n :
  parse_commands tz lines next = (Ok m, n) ->
  List.NoDup (map fst m)
  /\ (forall k c,
        In (k, c) m ->
        name c = k /\ built_normally c /\ usage_invariant c /\ 1 <= count c)
  /\ total_count m = Z.of_nat (length (marker_lines lines)).
Proof.
  intros Hrun.
  assert (Hempty : parsed_mapping []).
  { split; [constructor|]. intros k c Hk. discriminate. }
  destruct (parse_loop_keeps_mapping _ _ _ _ _ _ _ _ Hempty Hrun)
    as [[Hnd Hrec] Htotal].
  split; [exact Hnd|]. split; [|exact Htotal].
  intros k c Hin.
  destruct (Hrec k c (dict_get_of_in _ _ _ Hnd Hin)) as (Hn & Hb & Hc).
  split; [exact Hn|]. split; [exact Hb|].
  split; [by apply built_normally_invariant|exact Hc].
Qed.

Lemma parse_commands_counts_marker_lines_witness :
  exists m n,
    parse_commands (fun _ => 0)
      ["- cmd: git status -v"; "when: 1700000000"; "- cmd: ls";
       "when: 1700000100"; "- cmd: git log"; "when: 1700000200"] 0%N
    = (Ok m, n)
    /\ List.NoDup (map fst m)
    /\ (forall k c,
          In (k, c) m ->
          name c = k /\ built_normally c /\ usage_invariant c /\ 1 <= count c)
    /\ total_count m
       = Z.of_nat
           (length
              (marker_lines
                 ["- cmd: git status -v"; "when: 1700000000"; "- cmd: ls";
                  "when: 1700000100"; "- cmd: git log"; "when: 1700000200"])).
Proof.
  eexists. eexists. split; [vm_compute; reflexivity|].
  eapply (parse_commands_counts_marker_lines (fun _ => 0) _ 0%N).
  vm_compute. reflexivity.
Defined.

Lemma parse_entry_accepts tz lines line_num line commands next following t
    when :
  lines !! (line_num + 1)%nat = Some following ->
  py_int (str_drop 6 following) = Ok t ->
  fromtimestamp tz t = Ok when ->
  split (str_drop 7 line) <> [] ->
  exists d' next',
    parse_entry tz lines line_num line commands next = (Ok d', next').
Proof.
  intros Hf Ht Hw Hsplit. unfold parse_entry. rewrite Hf, Ht, Hw.
  cbn [list_items].
  pose proof (split_no_empty (str_drop 7 line)) as Hne.
  destruct (split (str_drop 7 line)) as [|cmd rest]; [done|].
  assert (Hrest : ~ In "" (list_items (PyList (next + 1)%N rest)))
    by (simpl; intros Hin; apply Hne; by right).
  cbn [Command_init]. unfold dict_setdefault.
  destruct (dict_get commands cmd) as [c0|] eqn:Hget.
  - rewrite Hget.
    pose proof (add_use_outcome_ok when _ c0 (next + 2 + 5)%N Hrest) as Hok.
    destruct (add_use _ _ c0 _) as [[c1 r] n1]. simpl in Hok. subst r.
    by eexists; eexists.
  - rewrite dict_get_set_same.
    match goal with
    | |- context [add_use when ?a ?c ?n] =>
        pose proof (add_use_outcome_ok when a c n Hrest) as Hok;
        destruct (add_use when a c n) as [[c1 r] n1]
    end.
    simpl in Hok. subst r. by eexists; eexists.
Qed.

Lemma parse_loop_accepts_pairs tz entries :
  forall done commands next,
    (forall l f,
        In (l, f) entries ->
        startswith l "- cmd: " = true
        /\ split (str_drop 7 l) <> []
        /\ startswith f "- cmd: " = false
        /\ exists t when,
             py_int (str_drop 6 f) = Ok t /\ fromtimestamp tz t = Ok when) ->
    exists m n,
      parse_loop tz (done ++ flat_map (fun e => [e.1; e.2]) entries)
        (length done) (flat_map (fun e => [e.1; e.2]) entries) commands next
      = (Ok m, n).
Proof.
  induction entries as [|[l f] entries IH]; intros done commands next Hwf.
  - simpl. by eexists; eexists.
  - destruct (Hwf l f (or_introl eq_refl))
      as (Hl & Hsplit & Hf & t & when & Ht & Hw).
    cbn [flat_map fst snd app parse_loop]. rewrite Hl.
    destruct (parse_entry_accepts tz
                (done ++ l :: f :: flat_map (fun e => [e.1; e.2]) entries)
                (length done) l commands next f t when) as (d1 & n1 & Hentry);
      try assumption.
    { rewrite lookup_app_r by lia.
      by replace (length done + 1 - length done)%nat with 1%nat by lia. }
    rewrite Hentry, Hf.
    replace (done ++ l :: f :: flat_map (fun e => [e.1; e.2]) entries)%list
      with ((done ++ [l; f])
            ++ flat_map (fun e => [e.1; e.2]) entries)%list
      by (by rewrite <- app_assoc).
    replace (S (S (length done))) with (length (done ++ [l; f])%list)
      by (rewrite length_app; simpl; lia).
    apply IH. intros l' f' Hin. apply Hwf. by right.
Qed.

(** X8: a history made of well-formed entries is always parsed: when every
    entry is a line [- cmd: ] with at least one token after it, followed by
    a line that is not itself a marker and carries, from its seventh
    character on, an integer timestamp that [fromtimestamp] accepts, the
    parser returns a mapping; neither the missing-key branch nor an
    exception of [add_use] can be met. *)
Theorem parse_commands_accepts_pairs tz entries next :
  (forall l f,
      In (l, f) entries ->
      startswith l "- cmd: " = true
      /\ split (str_drop 7 l) <> []
      /\ startswith f "- cmd: " = false
      /\ exists t when,
           py_int (str_drop 6 f) = Ok t /\ fromtimestamp tz t = Ok when) ->
  exists m n,
    parse_commands tz (flat_map (fun e => [e.1; e.2]) entries) next
    = (Ok m, n)
    /\ total_count m = Z.of_nat (length entries).
Proof.
  intros Hwf.
  destruct (parse_loop_accepts_pairs tz entries [] [] next Hwf)
    as (m & n & Hrun).
  exists m, n. split; [exact Hrun|].
  assert (Hempty : parsed_mapping []).
  { split; [constructor|]. intros k c Hk. discriminate. }
  destruct (parse_loop_keeps_mapping _ _ _ _ _ _ _ _ Hempty Hrun) as [_ ->].
  change (total_count []) with 0. rewrite Z.add_0_l. f_equal.
  clear Hrun Hempty. induction entries as [|[l f] entries IH];
    [reflexivity|].
  destruct (Hwf l f (or_introl eq_refl)) as (Hl & _ & Hf & _).
  unfold marker_lines in *. cbn [flat_map fst snd app List.filter].
  rewrite Hl, Hf. simpl. f_equal. apply IH.
  intros l' f' Hin. apply Hwf. by right.
Qed.

Lemma parse_commands_accepts_pairs_witness :
  exists m n,
    parse_commands (fun _ => 0)
      (flat_map (fun e => [e.1; e.2])
         [("- cmd: git status -v", "when: 1700000000");
          ("- cmd: ls", "when: 1700000100")]) 0%N
    = (Ok m, n)
    /\ total_count m
       = Z.of_nat
           (length
              [("- cmd: git status -v", "when: 1700000000");
               ("- cmd: ls", "when: 1700000100")]).
Proof.
  apply (parse_commands_accepts_pairs (fun _ => 0)
           [("- cmd: git status -v", "when: 1700000000");
            ("- cmd: ls", "when: 1700000100")] 0%N).
  intros l f [[= <- <-]|[[= <- <-]|[]]].
  - split; [reflexivity|]. split; [vm_compute; discriminate|].
    split; [reflexivity|].
    exists 1700000000, (MkDatetime 63835596800000000).
    split; vm_compute; reflexivity.
  - split; [reflexivity|]. split; [vm_compute; discriminate|].
    split; [reflexivity|].
    exists 1700000100, (MkDatetime 63835596900000000).
    split; vm_compute; reflexivity.
Defined.

(** ** The bucket reports *)

Lemma bar_rows_spec width labels :
  forall bucket usage most_frequent lines,
    bar_rows width labels bucket usage most_frequent = Ok lines ->
    length lines = length labels
    /\ forall i label,
         labels !! i = Some label ->
         exists line,
           lines !! i = Some line
           /\ bl_label line = label
           /\ bl_commands line = counter_get usage (bucket + Z.of_nat i)
           /\ 0 <= bl_bar line
           /\ 0 <= bl_cols line
           /\ bar_cols width = Ok (bl_cols line).
Proof.
  induction labels as [|label labels IH];
    intros bucket usage most_frequent lines Hrun; simpl in Hrun.
  - injection Hrun as <-. split; [reflexivity|]. intros i l Hl. discriminate.
  - destruct (bar_row _ _ _ _) as [line|] eqn:Hrow;
      cbn [res_bind] in Hrun; [|discriminate].
    destruct (bar_rows _ _ _ _ _) as [rest|] eqn:Hrest;
      cbn [res_bind] in Hrun; [|discriminate].
    injection Hrun as <-.
    destruct (IH _ _ _ _ Hrest) as [Hlen Hrows].
    split; [simpl; by rewrite Hlen|].
    intros [|i] l Hl.
    + injection Hl as <-. exists line. split; [reflexivity|].
      destruct (bar_row_inv _ _ _ _ _ Hrow)
        as (freq & cols & c & n & _ & Hcols & _ & _ & Hpos & ->).
      cbn [bl_label bl_commands bl_bar bl_cols].
      change (Z.of_nat 0) with 0. rewrite Z.add_0_r.
      repeat split; try done; lia.
    + destruct (Hrows i l Hl) as (line' & Hline & Hrest').
      exists line'. split; [exact Hline|].
      replace (bucket + Z.of_nat (S i)) with (bucket + 1 + Z.of_nat i) by lia.
      exact Hrest'.
Qed.

(** X9: a weekly chart that is printed has seven lines and an hourly chart
    twenty-four, one per bucket index in order, also for a bucket that is
    missing from the Counter (its count reads as 0); each line carries the
    label of its index and the count of its bucket, in a bar field whose
    width is the same for all lines; counts stored under other keys are not
    shown. *)
Theorem bucket_reports_one_line_per_bucket width usage :
  (forall lines,
      print_week_usage width usage = Ok lines ->
      length lines = 7%nat
      /\ forall day label,
           weekdays !! day = Some label ->
           exists line,
             lines !! day = Some line
             /\ bl_label line = label
             /\ bl_commands line = counter_get (counts usage) (Z.of_nat day)
             /\ 0 <= bl_bar line
             /\ 0 <= bl_cols line
             /\ bar_cols width = Ok (bl_cols line))
  /\ (forall lines,
        print_time_usage width usage = Ok lines ->
        length lines = 24%nat
        /\ forall hour label,
             hours !! hour = Some label ->
             exists line,
               lines !! hour = Some line
               /\ bl_label line = label
               /\ bl_commands line = counter_get (counts usage) (Z.of_nat hour)
               /\ 0 <= bl_bar line
               /\ 0 <= bl_cols line
               /\ bar_cols width = Ok (bl_cols line)).
Proof.
  split; intros lines Hrun.
  - unfold print_week_usage in Hrun.
    destruct (counter_peak _) as [p|]; cbn [res_bind] in Hrun; [|discriminate].
    destruct (bar_rows_spec _ _ _ _ _ _ Hrun) as [Hlen Hrows].
    split; [exact Hlen|]. intros day label Hl.
    destruct (Hrows day label Hl) as (line & H1 & H2 & H3 & H4).
    exists line. rewrite Z.add_0_l in H3. tauto.
  - unfold print_time_usage in Hrun.
    destruct (counter_peak _) as [p|]; cbn [res_bind] in Hrun; [|discriminate].
    destruct (bar_rows_spec _ _ _ _ _ _ Hrun) as [Hlen Hrows].
    split; [exact Hlen|]. intros hour label Hl.
    destruct (Hrows hour label Hl) as (line & H1 & H2 & H3 & H4).
    exists line. rewrite Z.add_0_l in H3. tauto.
Qed.

(** The peak is the largest value of the Counter. *)
Lemma counter_peak_spec {K} `{Countable K} (m : gmap K Z) :
  match counter_peak m with
  | Ok p => (exists k, m !! k = Some p) /\ forall k v, m !! k = Some v -> v <= p
  | Raise e => e = IndexError /\ m = ∅
  end.
Proof.
  unfold counter_peak.
  apply (map_fold_weak_ind
           (fun acc m =>
              match match acc with Some p => Ok p | None => Raise IndexError end
              with
              | Ok p => (exists k, m !! k = Some p)
                        /\ forall k v, m !! k = Some v -> v <= p
              | Raise e => e = IndexError /\ m = ∅
              end)).
  - by split.
  - intros i x m' r Hi IH. destruct r as [a|].
    + destruct IH as [[k Hk] Hmax]. split.
      * destruct (Z.max_spec x a) as [[Hlt ->]|[Hle ->]].
        -- exists k. rewrite lookup_insert_ne; [exact Hk|].
           intros ->. congruence.
        -- exists i. apply lookup_insert_eq.
      * intros k' v Hv. destruct (decide (i = k')) as [->|Hne].
        -- rewrite lookup_insert_eq in Hv. injection Hv as ->. lia.
        -- rewrite lookup_insert_ne in Hv by exact Hne.
           specialize (Hmax k' v Hv). lia.
    + destruct IH as [_ ->]. split.
      * exists i. apply lookup_insert_eq.
      * intros k' v Hv. destruct (decide (i = k')) as [->|Hne].
        -- rewrite lookup_insert_eq in Hv. injection Hv as ->. lia.
        -- rewrite lookup_insert_ne, lookup_empty in Hv by exact Hne.
           discriminate.
Qed.

(** X10: a Counter that is not empty but holds no positive count, such as
    [Counter({0: 0})], makes both bucket reporters raise
    [ZeroDivisionError] at the first line when its largest count is 0. *)
Theorem zero_peak_divides_by_zero width (usage : Counter Z) k :
  counts usage !! k = Some 0 ->
  (forall k' v, counts usage !! k' = Some v -> v <= 0) ->
  print_week_usage width usage = Raise ZeroDivisionError
  /\ print_time_usage width usage = Raise ZeroDivisionError.
Proof.
  intros Hk Hmax.
  pose proof (counter_peak_spec (counts usage)) as Hpeak.
  unfold print_week_usage, print_time_usage.
  destruct (counter_peak (counts usage)) as [p|e].
  - destruct Hpeak as [[k0 Hk0] Hle].
    assert (p = 0) as -> by (specialize (Hmax k0 p Hk0);
                             specialize (Hle k 0 Hk); lia).
    by split.
  - destruct Hpeak as [_ Hempty]. rewrite Hempty, lookup_empty in Hk.
    discriminate.
Qed.

Lemma zero_peak_divides_by_zero_witness :
  print_week_usage 80 (MkCounter 0%N {[ 0 := 0 ]})
  = Raise ZeroDivisionError
  /\ print_time_usage 80 (MkCounter 0%N {[ 0 := 0 ]})
     = Raise ZeroDivisionError.
Proof.
  apply (zero_peak_divides_by_zero 80 (MkCounter 0%N {[ 0 := 0 ]}) 0).
  - reflexivity.
  - intros k' v Hv. simpl in Hv.
    apply lookup_singleton_Some in Hv as [_ <-]. lia.
Defined.

Lemma bucket_reports_one_line_per_bucket_witness :
  exists lines,
    print_week_usage 80 (MkCounter 0%N {[ 1 := 3 ]}) = Ok lines
    /\ length lines = 7%nat
    /\ forall day label,
         weekdays !! day = Some label ->
         exists line,
           lines !! day = Some line
           /\ bl_label line = label
           /\ bl_commands line
              = counter_get (counts (MkCounter 0%N {[ 1 := 3 ]}))
                  (Z.of_nat day)
           /\ 0 <= bl_bar line
           /\ 0 <= bl_cols line
           /\ bar_cols 80 = Ok (bl_cols line).
Proof.
  eexists. split; [vm_compute; reflexivity|].
  apply (proj1 (bucket_reports_one_line_per_bucket 80
                  (MkCounter 0%N {[ 1 := 3 ]}))).
  vm_compute. reflexivity.
Defined.

(** ** The simplified leap-year test *)

Lemma century_year_start_weekday year :
  1 <= year -> year mod 100 = 0 -> year mod 400 <> 0 ->
  date_weekday (days_before_year year + 1) <> 6.
Proof.
  intros Hy H100 H400. unfold date_weekday, days_before_year.
  Z.div_mod_to_equations. lia.
Qed.

Lemma is_leap_false_cases year :
  is_leap year = false ->
  year mod 4 <> 0 \/ (year mod 100 = 0 /\ year mod 400 <> 0).
Proof.
  unfold is_leap. intros H.
  destruct (Z.eqb_spec (year mod 4) 0); [|by left]. right.
  simpl in H. apply orb_false_elim in H as [H1 H2].
  apply negb_false_iff in H1.
  apply Z.eqb_eq in H1. apply Z.eqb_neq in H2. by split.
Qed.

(** X11: the test [year % 4 == 0] counts 366 days for the century years
    that are not leap years, and is right for every other year; since
    January 1 of such a century year is never a Sunday, the number of week
    columns is the one the true length of the year gives, for every year
    from 1 to 9998. *)
Theorem simplified_leap_rule_keeps_columns (year : Z) :
  1 <= year <= 9998 ->
  exists year_start,
    datetime_ymd year 1 1 = Ok year_start
    /\ year_days year
       = 365 + (if is_leap year then 1 else 0)
         + (if (year mod 100 =? 0) && negb (year mod 400 =? 0) then 1 else 0)
    /\ week_columns (year_days year) (dt_weekday year_start)
       = week_columns (365 + (if is_leap year then 1 else 0))
           (dt_weekday year_start).
Proof.
  intros Hy. eexists. split; [apply datetime_ymd_jan1; lia|].
  unfold dt_weekday. rewrite dt_date_midnight.
  pose proof (date_weekday_range (days_before_year year + 1)) as Ho.
  destruct (is_leap year) eqn:Hleap.
  - pose proof (is_leap_year_days _ Hleap) as Hd. rewrite Hd.
    unfold is_leap in Hleap. apply andb_prop in Hleap as [_ Hleap].
    destruct (year mod 100 =? 0) eqn:H100; simpl in *; [|by split].
    rewrite Hleap. simpl. by split.
  - destruct (is_leap_false_cases _ Hleap) as [H4|[H100 H400]].
    + unfold year_days.
      destruct (Z.eqb_spec (year mod 4) 0); [done|].
      destruct (Z.eqb_spec (year mod 100) 0) as [H100|H100].
      { exfalso. revert H4 H100. clear. intros H4 H100.
        Z.div_mod_to_equations. lia. }
      simpl. by split.
    + pose proof (century_year_start_weekday year ltac:(lia) H100 H400) as Hw.
      assert (H4 : year mod 4 = 0).
      { revert H100. clear. intros H100. Z.div_mod_to_equations. lia. }
      unfold year_days. rewrite H4, H100. simpl.
      destruct (Z.eqb_spec (year mod 400) 0); [done|]. simpl.
      split; [reflexivity|].
      rewrite !week_columns_exact by (auto; lia).
      f_equal. Z.div_mod_to_equations. lia.
Qed.

Lemma simplified_leap_rule_keeps_columns_witness :
  exists year_start,
    datetime_ymd 2100 1 1 = Ok year_start
    /\ year_days 2100
       = 365 + (if is_leap 2100 then 1 else 0)
         + (if (2100 mod 100 =? 0) && negb (2100 mod 400 =? 0) then 1 else 0)
    /\ week_columns (year_days 2100) (dt_weekday year_start)
       = week_columns (365 + (if is_leap 2100 then 1 else 0))
           (dt_weekday year_start).
Proof. apply (simplified_leap_rule_keeps_columns 2100). lia. Defined.

(** ** The flags of a record *)

Lemma counter_iadd_lookup (m other : gmap string Z) k :
  counter_iadd m other !! k
  = match m !! k, other !! k with
    | Some a, Some b => if 0 <? a + b then Some (a + b) else None
    | Some a, None => if 0 <? a then Some a else None
    | None, Some b => if 0 <? b then Some b else None
    | None, None => None
    end.
Proof.
  unfold counter_iadd. rewrite map_lookup_filter, lookup_union_with.
  destruct (m !! k) as [a|], (other !! k) as [b|]; simpl; try reflexivity.
  - destruct (Z.ltb_spec 0 (a + b)); case_guard; simpl in *;
      try reflexivity; lia.
  - destruct (Z.ltb_spec 0 a); case_guard; simpl in *; try reflexivity; lia.
  - destruct (Z.ltb_spec 0 b); case_guard; simpl in *; try reflexivity; lia.
Qed.

Lemma flag_uses_app us u k :
  flag_uses (us ++ [u]) k
  = flag_uses us k + occurrences (list_items (use_args u)) k.
Proof.
  induction us as [|v us IH]; simpl; [lia|]. rewrite IH. lia.
Qed.

Lemma flag_uses_nonneg us k : 0 <= flag_uses us k.
Proof.
  induction us as [|v us IH]; simpl; [lia|].
  pose proof (occurrences_nonneg (list_items (use_args v)) k). lia.
Qed.

Lemma add_use_flags_ok time arguments self next :
  ~ In "" (list_items arguments) ->
  forall k,
    counts (flags (add_use time arguments self next).1.1) !! k
    = counter_iadd (counts (flags self))
        (match get_flags_loop (list_items arguments) ∅ with
         | Ok found => found
         | Raise _ => ∅
         end) !! k.
Proof.
  intros Hne k. unfold add_use, _get_flags.
  destruct (get_flags_loop_total _ ∅ Hne) as [m' ->]. reflexivity.
Qed.

(** X12: in a record built by [add_use] calls that returned normally, the
    keys of [flags] are exactly the tokens that start with a dash, are
    longer than one character and occur among the arguments of its uses, and
    the count of each is the number of times it occurs in all argument
    lists together. *)
Theorem flags_count_all_uses (c : Command) :
  built_normally c ->
  forall k,
    counts (flags c) !! k
    = if is_flag k && (0 <? flag_uses (uses c) k)
      then Some (flag_uses (uses c) k)
      else None.
Proof.
  induction 1 as [nm next|time arguments c next Hb IH Hok]; intros k.
  - simpl. rewrite lookup_empty. by rewrite andb_false_r.
  - assert (Hne : ~ In "" (list_items arguments)).
    { intros Hin. rewrite (add_use_outcome_raise _ _ _ _ Hin) in Hok.
      discriminate. }
    rewrite (add_use_flags_ok _ _ _ _ Hne), add_use_uses, flag_uses_app.
    cbn [use_args].
    destruct (get_flags_loop_spec _ ∅ Hne) as (found & -> & Hfound).
    rewrite counter_iadd_lookup, (IH k).
    specialize (Hfound k). unfold counter_get in Hfound.
    rewrite lookup_empty in Hfound. simpl in Hfound.
    pose proof (flag_uses_nonneg (uses c) k) as Hn1.
    pose proof (occurrences_nonneg (list_items arguments) k) as Hn2.
    destruct (is_flag k); simpl in Hfound |- *.
    + destruct (Z.ltb_spec 0 (occurrences (list_items arguments) k));
        rewrite Hfound;
        repeat match goal with
               | |- context [?a <? ?b] => destruct (Z.ltb_spec a b)
               end;
        try lia; try reflexivity; f_equal; lia.
    + by rewrite Hfound.
Qed.

Lemma flags_count_all_uses_witness :
  counts (flags two_uses) !! "-v"
  = if is_flag "-v" && (0 <? flag_uses (uses two_uses) "-v")
    then Some (flag_uses (uses two_uses) "-v")
    else None.
Proof. apply (flags_count_all_uses two_uses two_uses_built_normally). Defined.

(** ** The calendar block *)

Lemma map_res_spec {A B} (f : A -> res B) (l : list A) :
  forall ys,
    map_res f l = Ok ys ->
    length ys = length l
    /\ forall i x, l !! i = Some x -> exists y, ys !! i = Some y /\ f x = Ok y.
Proof.
  induction l as [|a l IH]; intros ys Hrun; simpl in Hrun.
  - injection Hrun as <-. split; [reflexivity|]. intros i x Hx. discriminate.
  - destruct (f a) as [y|] eqn:Hy; cbn [res_bind] in Hrun; [|discriminate].
    destruct (map_res f l) as [ys'|]; cbn [res_bind] in Hrun; [|discriminate].
    injection Hrun as <-. destruct (IH ys' eq_refl) as [Hlen Hall].
    split; [simpl; by rewrite Hlen|].
    intros [|i] x Hx.
    + injection Hx as <-. by exists y.
    + by apply Hall.
Qed.

Lemma py_range_length n : length (py_range n) = Z.to_nat n.
Proof. unfold py_range. by rewrite length_map, length_seq. Qed.

Lemma py_range_lookup n i :
  (i < Z.to_nat n)%nat -> py_range n !! i = Some (Z.of_nat i).
Proof.
  intros Hi. unfold py_range.
  rewrite list_lookup_fmap. change (list_fmap nat Z Z.of_nat) with (map Z.of_nat).
  rewrite lookup_seq_lt by exact Hi. reflexivity.
Qed.

Lemma string_length_app (a b : string) :
  String.length (a ++ b) = (String.length a + String.length b)%nat.
Proof. induction a as [|c a IH]; simpl; [reflexivity|]. by rewrite IH. Qed.

Lemma months_letter_length i letter :
  py_index months i = Ok letter -> String.length letter = 1%nat.
Proof.
  unfold py_index. destruct (_ && _); [|discriminate].
  destruct (months !! Z.to_nat _) as [x|] eqn:Hx; [|discriminate].
  intros [= <-]. apply list_elem_of_lookup_2 in Hx.
  rewrite list_elem_of_In in Hx. simpl in Hx.
  repeat (destruct Hx as [<-|Hx]; [reflexivity|]). destruct Hx.
Qed.

Lemma header_loop_length year_start offset weeks :
  forall first_row month_index row,
    header_loop year_start offset weeks first_row month_index = Ok row ->
    String.length row = (String.length first_row + length weeks)%nat.
Proof.
  induction weeks as [|week weeks IH]; intros first_row month_index row Hrun;
    simpl in Hrun.
  - injection Hrun as <-. simpl. lia.
  - destruct (add_days _ _) as [last_row|]; cbn [res_bind] in Hrun;
      [|discriminate].
    destruct (month_index <? dt_month last_row).
    + destruct (py_index months month_index) as [letter|] eqn:Hl;
        cbn [res_bind] in Hrun; [|discriminate].
      rewrite (IH _ _ _ Hrun), string_length_app,
        (months_letter_length _ _ Hl). simpl. lia.
    + rewrite (IH _ _ _ Hrun), string_length_app. simpl. lia.
Qed.

Lemma grid_cell_agrees calendar_usage most_busy year_start year_end offset
    weekday week c :
  grid_cell calendar_usage most_busy year_start year_end offset weekday week
  = Ok c ->
  match cell_date year_start year_end offset weekday week with
  | Ok None => c = Blank
  | Ok (Some day) => exists style, c = Shaded (dt_date day) style
  | Raise _ => False
  end.
Proof.
  unfold grid_cell.
  destruct (cell_date _ _ _ _ _) as [[day|]|]; cbn [res_bind];
    [|by intros [= <-]|discriminate].
  destruct (int_truediv _ _) as [strength|]; cbn [res_bind]; [|discriminate].
  destruct (color_strength strength) as [style|]; cbn [res_bind];
    [|discriminate].
  intros [= <-]. by exists style.
Qed.

(** X13: a calendar block that is printed is a rectangle aligned with its
    month strip: with [columns] the number of week columns, the strip has
    [2 + columns] characters, there are seven rows, labelled [S M T W T F S]
    followed by a blank, each of [columns] cells, and the cell in row
    [weekday] and column [week] is blank when
    [January 1 + (weekday + 7 * week - offset)] days lies outside the year
    and a square for that date otherwise; the footer is the number of
    distinct days of the whole mapping. *)
Theorem calendar_year_block calendar_usage most_busy year block :
  calendar_year calendar_usage most_busy year = Ok block ->
  exists year_start year_end columns,
    datetime_ymd year 1 1 = Ok year_start
    /\ datetime_ymd year 12 31 = Ok year_end
    /\ week_columns (year_days year) (dt_weekday year_start) = Ok columns
    /\ yb_year block = year
    /\ Z.of_nat (String.length (yb_first_row block)) = 2 + Z.max 0 columns
    /\ length (yb_rows block) = 7%nat
    /\ yb_footer block = Z.of_nat (size calendar_usage)
    /\ forall weekday label,
         weekdays !! weekday = Some label ->
         exists cells,
           yb_rows block !! weekday = Some (label ++ " ", cells)
           /\ Z.of_nat (length cells) = Z.max 0 columns
           /\ forall week,
                0 <= week < columns ->
                exists c,
                  cells !! Z.to_nat week = Some c
                  /\ match cell_date year_start year_end
                             (dt_weekday year_start) (Z.of_nat weekday) week
                     with
                     | Ok None => c = Blank
                     | Ok (Some day) =>
                         exists style, c = Shaded (dt_date day) style
                     | Raise _ => False
                     end.
Proof.
  unfold calendar_year. intros Hrun.
  destruct (datetime_ymd year 1 1) as [year_start|]; cbn [res_bind] in Hrun;
    [|discriminate].
  destruct (datetime_ymd year 12 31) as [year_end|]; cbn [res_bind] in Hrun;
    [|discriminate].
  destruct (week_columns _ _) as [columns|] eqn:Hcols; cbn [res_bind] in Hrun;
    [|discriminate].
  destruct (header_loop _ _ _ _ _) as [first_row|] eqn:Hhead;
    cbn [res_bind] in Hrun; [|discriminate].
  destruct (map_res _ (py_range 7)) as [rows|] eqn:Hrows;
    cbn [res_bind] in Hrun; [|discriminate].
  injection Hrun as <-.
  exists year_start, year_end, columns. cbn [yb_year yb_first_row yb_rows
                                            yb_footer].
  destruct (map_res_spec _ _ _ Hrows) as [Hlen Hrow].
  do 2 (split; [reflexivity|]). split; [exact Hcols|].
  split; [reflexivity|]. split.
  { rewrite (header_loop_length _ _ _ _ _ _ Hhead), py_range_length. simpl.
    lia. }
  split; [exact Hlen|]. split; [reflexivity|].
  - intros weekday label Hlabel.
    assert (Hwd : (weekday < 7)%nat)
      by (apply lookup_lt_Some in Hlabel; exact Hlabel).
    destruct (Hrow weekday (Z.of_nat weekday)
                (py_range_lookup 7 weekday Hwd)) as ([label' cells] & Hr & Hf).
    unfold py_index in Hf. simpl length in Hf.
    destruct (Z.ltb_spec (Z.of_nat weekday) 0); [lia|].
    replace ((0 <=? Z.of_nat weekday) && (Z.of_nat weekday <? Z.of_nat 7))
      with true in Hf
      by (symmetry; apply andb_true_intro; split;
          [apply Z.leb_le|apply Z.ltb_lt]; lia).
    rewrite Nat2Z.id, Hlabel in Hf. cbn [res_bind] in Hf.
    destruct (map_res _ (py_range columns)) as [cells'|] eqn:Hcells;
      cbn [res_bind] in Hf; [|discriminate].
    injection Hf as <- <-.
    destruct (map_res_spec _ _ _ Hcells) as [Hclen Hcell].
    exists cells'. split; [exact Hr|]. split.
    + rewrite Hclen, py_range_length. lia.
    + intros week Hweek.
      destruct (Hcell (Z.to_nat week) week) as (c & Hc & Hg).
      { rewrite py_range_lookup by lia. f_equal. lia. }
      exists c. split; [exact Hc|]. by apply (grid_cell_agrees _ _ _ _ _ _ _ _ Hg).
Qed.

Lemma calendar_year_block_witness :
  exists block year_start year_end columns,
    calendar_year {[ 738886 := 2 ]} 2 2024 = Ok block
    /\ datetime_ymd 2024 1 1 = Ok year_start
    /\ datetime_ymd 2024 12 31 = Ok year_end
    /\ week_columns (year_days 2024) (dt_weekday year_start) = Ok columns
    /\ yb_year block = 2024
    /\ Z.of_nat (String.length (yb_first_row block)) = 2 + Z.max 0 columns
    /\ length (yb_rows block) = 7%nat.
Proof.
  destruct (calendar_year {[ 738886 := 2 ]} 2 2024) as [block|] eqn:Hrun;
    [|vm_compute in Hrun; discriminate].
  destruct (calendar_year_block _ _ _ _ Hrun)
    as (ys & ye & columns & H1 & H2 & H3 & H4 & H5 & H6 & _).
  exists block, ys, ye, columns. by repeat split.
Defined.

(** ** The most used commands of [main] *)

Lemma sort_insert_desc_perm c sorted :
  Permutation (sort_insert_desc c sorted) (c :: sorted).
Proof.
  induction sorted as [|d rest IH]; [reflexivity|]. simpl.
  destruct (count c <? count d); [|reflexivity].
  rewrite IH. apply perm_swap.
Qed.

Lemma sort_insert_desc_sorted c sorted :
  StronglySorted (fun a b => count b <= count a) sorted ->
  StronglySorted (fun a b => count b <= count a) (sort_insert_desc c sorted).
Proof.
  induction 1 as [|d rest Hs IH Hall]; simpl.
  - repeat constructor.
  - destruct (Z.ltb_spec (count c) (count d)).
    + constructor; [exact IH|].
      rewrite List.Forall_forall. intros x Hx.
      apply (Permutation_in _ (sort_insert_desc_perm c rest)) in Hx.
      destruct Hx as [<-|Hx]; [cbv beta; lia|].
      by apply (proj1 (List.Forall_forall _ _) Hall).
    + constructor; [by constructor|].
      constructor; [exact H|].
      rewrite List.Forall_forall. intros x Hx.
      pose proof (proj1 (List.Forall_forall _ _) Hall x Hx) as Hdx.
      cbv beta in Hdx |- *. lia.
Qed.

Lemma sort_by_count_desc_sorted cs :
  StronglySorted (fun a b => count b <= count a) (sort_by_count_desc cs).
Proof.
  induction cs as [|c cs IH]; [constructor|].
  simpl. by apply sort_insert_desc_sorted.
Qed.

Lemma strongly_sorted_lookup {A} (R : A -> A -> Prop) (l : list A) :
  StronglySorted R l ->
  forall i j x y, (i < j)%nat -> l !! i = Some x -> l !! j = Some y -> R x y.
Proof.
  induction 1 as [|a l Hs IH Hall]; intros i j x y Hij Hx Hy;
    [discriminate|].
  destruct j as [|j]; [lia|]. simpl in Hy.
  destruct i as [|i].
  - injection Hx as <-. apply (proj1 (List.Forall_forall _ _) Hall).
    apply list_elem_of_lookup_2 in Hy. by rewrite list_elem_of_In in Hy.
  - simpl in Hx. apply (IH i j); [lia|exact Hx|exact Hy].
Qed.

Lemma sort_by_count_desc_perm cs : Permutation (sort_by_count_desc cs) cs.
Proof.
  induction cs as [|c cs IH]; [reflexivity|]. simpl.
  rewrite sort_insert_desc_perm. by constructor.
Qed.

Lemma dict_set_nodup d k v :
  List.NoDup (map fst d) -> List.NoDup (map fst (dict_set d k v)).
Proof.
  intros Hnd. rewrite dict_set_keys.
  destruct (dict_get d k) eqn:Hg; [exact Hnd|].
  apply List.NoDup_app; [exact Hnd|repeat constructor; tauto|].
  intros k' Hk [<-|[]]. by apply (dict_get_None _ _ Hg).
Qed.

Lemma keep_in_range_named now start_datetime end_datetime commands :
  forall kept next kept' next',
    keep_in_range now start_datetime end_datetime commands kept next
    = (Ok kept', next') ->
    List.NoDup (map fst kept) ->
    (forall k c, In (k, c) kept -> name c = k) ->
    List.NoDup (map fst kept')
    /\ forall k c, In (k, c) kept' -> name c = k.
Proof.
  induction commands as [|[k0 src] commands IH];
    intros kept next kept' next' Hrun Hnd Hnames; simpl in Hrun.
  - injection Hrun as <- <-. by split.
  - destruct (get_uses_from_date now start_datetime (Some end_datetime) src
                next) as [[self' [cmd_in_range|]] n1]; [|discriminate].
    apply (IH _ _ _ _ Hrun).
    + destruct (0 <? _); [by apply dict_set_nodup|exact Hnd].
    + intros k c Hin. destruct (0 <? _); [|by apply Hnames].
      apply dict_set_in in Hin as [[-> ->]|Hin]; [reflexivity|].
      by apply Hnames.
Qed.

Lemma analyze_commands_named now width commands start_datetime end_datetime
    next kept rep next' :
  analyze_commands now width commands start_datetime end_datetime next
  = (Ok (kept, rep), next') ->
  List.NoDup (map fst kept) /\ forall k c, In (k, c) kept -> name c = k.
Proof.
  unfold analyze_commands. intros Hrun.
  destruct (keep_in_range _ _ _ _ _ _) as [[kept0|] n1] eqn:Hkeep;
    [|discriminate].
  destruct (sum_buckets _ _ _ _) as [[calendar weekly] hourly].
  destruct (print_calendar _ _ _) as [cal|]; cbn [res_bind] in Hrun;
    [|discriminate].
  destruct (print_week_usage _ _) as [week|]; cbn [res_bind] in Hrun;
    [|discriminate].
  destruct (print_time_usage _ _) as [time|]; cbn [res_bind] in Hrun;
    [|discriminate].
  injection Hrun as <- _ _.
  apply (keep_in_range_named _ _ _ _ _ _ _ _ Hkeep); [constructor|].
  intros k c [].
Qed.

Lemma named_values_keys (d : dict) :
  (forall k c, In (k, c) d -> name c = k) -> map name (map snd d) = map fst d.
Proof.
  induction d as [|[k c] d IH]; intros Hnames; [reflexivity|]. simpl.
  rewrite (Hnames k c) by (by left). f_equal. apply IH.
  intros k' c' Hin. apply Hnames. by right.
Qed.

Lemma count_sorted_app_le (l1 l2 : list Command) a b :
  StronglySorted (fun a b => count b <= count a) (l1 ++ l2) ->
  In a l1 -> In b l2 -> count b <= count a.
Proof.
  induction l1 as [|x l1 IH]; intros Hs Ha Hb; [destruct Ha|].
  simpl in Hs. apply StronglySorted_inv in Hs as [Hs Hall].
  destruct Ha as [<-|Ha]; [|by apply IH].
  apply (proj1 (List.Forall_forall _ _) Hall). apply in_or_app. by right.
Qed.

(** X14: when [main] returns, the commands whose hourly chart it has printed
    are the five most used commands of the window, or all of them when there
    are fewer: each is a different record of the mapping that
    [analyze_commands] returned, printed with its name, its count and its own
    chart of twenty-four lines, in order of count from the largest down, and
    no command that is left out has a larger count than one that is
    printed. *)
Theorem main_reports_top_five tz now width lines next rep tops :
  main tz now width lines next = Ok (rep, tops) ->
  exists commands next1 start recent next2,
    parse_commands tz lines next = (Ok commands, next1)
    /\ datetime_ymd 2024 7 15 = Ok start
    /\ analyze_commands now width commands start None next1
       = (Ok (recent, rep), next2)
    /\ length tops = Nat.min 5 (length recent)
    /\ List.NoDup (map (fun a => a.1.1) tops)
    /\ (forall a,
          In a tops ->
          exists cmd,
            In (a.1.1, cmd) recent
            /\ name cmd = a.1.1
            /\ count cmd = a.1.2
            /\ print_time_usage width (hourly_usage cmd) = Ok a.2
            /\ length a.2 = 24%nat)
    /\ (forall i j a b,
          (i < j)%nat -> tops !! i = Some a -> tops !! j = Some b ->
          b.1.2 <= a.1.2)
    /\ forall k cmd a,
         In (k, cmd) recent -> ~ In k (map (fun a => a.1.1) tops) ->
         In a tops -> count cmd <= a.1.2.
Proof.
  unfold main. intros Hrun.
  destruct (parse_commands tz lines next) as [[commands|] next1] eqn:Hparse;
    [|discriminate].
  destruct (datetime_ymd 2024 7 15) as [start|] eqn:Hstart;
    cbn [res_bind] in Hrun; [|discriminate].
  destruct (analyze_commands _ _ _ _ _ _) as [[[recent rep']|] next2] eqn:Han;
    [|discriminate].
  destruct (map_res _ _) as [tops'|] eqn:Htops; cbn [res_bind] in Hrun;
    [|discriminate].
  injection Hrun as <- <-.
  exists commands, next1, start, recent, next2.
  split; [reflexivity|]. split; [reflexivity|]. split; [exact Han|].
  destruct (analyze_commands_named _ _ _ _ _ _ _ _ _ Han) as [Hnd Hnames].
  destruct (map_res_spec _ _ _ Htops) as [Hlen Hall].
  set (sorted := sort_by_count_desc (map snd recent)) in *.
  pose proof (sort_by_count_desc_perm (map snd recent)) as Hperm.
  fold sorted in Hperm.
  pose proof (sort_by_count_desc_sorted (map snd recent)) as Hsorted.
  fold sorted in Hsorted.
  assert (Hsrc : forall i a,
             tops' !! i = Some a ->
             exists cmd chart,
               take 5 sorted !! i = Some cmd
               /\ print_time_usage width (hourly_usage cmd) = Ok chart
               /\ a = (name cmd, count cmd, chart)).
  { intros i a Ha.
    assert (Hi : (i < length (take 5 sorted))%nat)
      by (rewrite <- Hlen; by apply lookup_lt_Some in Ha).
    destruct (lookup_lt_is_Some_2 _ _ Hi) as [cmd Hcmd].
    destruct (Hall i cmd Hcmd) as (y & Hy & Hf).
    rewrite Ha in Hy. injection Hy as <-.
    destruct (print_time_usage width (hourly_usage cmd)) as [chart|]
      eqn:Hchart; cbn [res_bind] in Hf; [|discriminate].
    injection Hf as <-. by exists cmd, chart. }
  assert (Hnamesof : map (fun a : string * Z * list bar_line => a.1.1) tops'
                     = map name (take 5 sorted)).
  { apply list_eq. intros i. rewrite !list_lookup_fmap.
    destruct (tops' !! i) as [a|] eqn:Ha.
    - destruct (Hsrc i a Ha) as (cmd & chart & Hcmd & _ & ->).
      by rewrite Hcmd.
    - apply lookup_ge_None_1 in Ha. rewrite Hlen in Ha.
      by rewrite (lookup_ge_None_2 _ _ Ha). }
  assert (Hin_recent : forall cmd,
             In cmd sorted -> In (name cmd, cmd) recent).
  { intros cmd Hin. apply (Permutation_in _ Hperm) in Hin.
    apply in_map_iff in Hin as ([k c] & Heq & Hin). simpl in Heq. subst c.
    by rewrite (Hnames k cmd Hin). }
  assert (Hin_take : forall cmd, In cmd (take 5 sorted) -> In cmd sorted).
  { intros cmd Hin. rewrite <- (take_drop 5 sorted).
    apply in_or_app. by left. }
  split.
  { rewrite Hlen, length_take. f_equal.
    by rewrite (Permutation_length Hperm), length_map. }
  split.
  { rewrite Hnamesof.
    assert (Hsn : List.NoDup (map name sorted)).
    { apply (Permutation_NoDup (l := map name (map snd recent))).
      - apply Permutation_map. by symmetry.
      - by rewrite named_values_keys. }
    rewrite <- (take_drop 5 sorted), map_app in Hsn.
    by apply List.NoDup_app_remove_r in Hsn. }
  split.
  { intros a Ha. apply list_elem_of_In, list_elem_of_lookup_1 in Ha as [i Ha].
    destruct (Hsrc i a Ha) as (cmd & chart & Hcmd & Hchart & ->).
    exists cmd. cbn [fst snd].
    split.
    { apply Hin_recent, Hin_take. apply list_elem_of_In.
      by apply list_elem_of_lookup_2 in Hcmd. }
    do 3 (split; [done|]).
    unfold print_time_usage in Hchart.
    destruct (counter_peak _) as [p|]; cbn [res_bind] in Hchart;
      [|discriminate].
    apply (bar_rows_spec _ _ _ _ _ _ Hchart). }
  split.
  { intros i j a b Hij Ha Hb.
    destruct (Hsrc i a Ha) as (ca & cha & Hca & _ & ->).
    destruct (Hsrc j b Hb) as (cb & chb & Hcb & _ & ->).
    cbn [fst snd].
    apply lookup_take_Some in Hca as [Hca _].
    apply lookup_take_Some in Hcb as [Hcb _].
    apply (strongly_sorted_lookup _ _ Hsorted i j ca cb Hij Hca Hcb). }
  intros k cmd a Hin Hout Ha.
  apply list_elem_of_In, list_elem_of_lookup_1 in Ha as [i Ha].
  destruct (Hsrc i a Ha) as (ca & cha & Hca & _ & ->). cbn [fst snd].
  assert (Hcs : In cmd sorted).
  { apply (Permutation_in _ (Permutation_sym Hperm)).
    apply in_map_iff. by exists (k, cmd). }
  rewrite <- (take_drop 5 sorted) in Hcs, Hsorted.
  apply in_app_or in Hcs as [Hfirst|Hlast].
  - exfalso. apply Hout. rewrite Hnamesof.
    rewrite <- (Hnames k cmd Hin). by apply in_map.
  - apply (count_sorted_app_le _ _ ca cmd Hsorted); [|exact Hlast].
    apply list_elem_of_In. by apply list_elem_of_lookup_2 in Hca.
Qed.

Lemma main_reports_top_five_witness :
  exists rep tops,
    main (fun _ => 0) (MkDatetime 63900000000000000) 80
      ["- cmd: git status -v"; "when: 1730000000"; "- cmd: ls";
       "when: 1730000100"; "- cmd: git log"; "when: 1730000200"] 0%N
    = Ok (rep, tops)
    /\ exists commands next1 start recent next2,
         parse_commands (fun _ => 0)
           ["- cmd: git status -v"; "when: 1730000000"; "- cmd: ls";
            "when: 1730000100"; "- cmd: git log"; "when: 1730000200"] 0%N
         = (Ok commands, next1)
         /\ datetime_ymd 2024 7 15 = Ok start
         /\ analyze_commands (MkDatetime 63900000000000000) 80 commands start
              None next1
            = (Ok (recent, rep), next2)
         /\ length tops = Nat.min 5 (length recent)
         /\ List.NoDup (map (fun a => a.1.1) tops)
         /\ (forall a,
               In a tops ->
               exists cmd,
                 In (a.1.1, cmd) recent
                 /\ name cmd = a.1.1
                 /\ count cmd = a.1.2
                 /\ print_time_usage 80 (hourly_usage cmd) = Ok a.2
                 /\ length a.2 = 24%nat)
         /\ (forall i j a b,
               (i < j)%nat -> tops !! i = Some a -> tops !! j = Some b ->
               b.1.2 <= a.1.2)
         /\ forall k cmd a,
              In (k, cmd) recent -> ~ In k (map (fun a => a.1.1) tops) ->
              In a tops -> count cmd <= a.1.2.
Proof.
  destruct (main (fun _ => 0) (MkDatetime 63900000000000000) 80
              ["- cmd: git status -v"; "when: 1730000000"; "- cmd: ls";
               "when: 1730000100"; "- cmd: git log"; "when: 1730000200"] 0%N)
    as [[rep tops]|] eqn:Hrun; [|vm_compute in Hrun; discriminate].
  exists rep, tops. split; [reflexivity|].
  apply (main_reports_top_five _ _ _ _ _ _ _ Hrun).
Defined.

(** ** The years of the calendar *)

Lemma calendar_year_block_shape calendar_usage most_busy year block :
  calendar_year calendar_usage most_busy year = Ok block ->
  yb_year block = year /\ length (yb_rows block) = 7%nat.
Proof.
  unfold calendar_year. intros Hrun.
  destruct (datetime_ymd year 1 1) as [year_start|]; cbn [res_bind] in Hrun;
    [|discriminate].
  destruct (datetime_ymd year 12 31) as [year_end|]; cbn [res_bind] in Hrun;
    [|discriminate].
  destruct (week_columns _ _) as [columns|]; cbn [res_bind] in Hrun;
    [|discriminate].
  destruct (header_loop _ _ _ _ _) as [first_row|];
    cbn [res_bind] in Hrun; [|discriminate].
  destruct (map_res _ (py_range 7)) as [rows|] eqn:Hrows;
    cbn [res_bind] in Hrun; [|discriminate].
  injection Hrun as <-. split; [reflexivity|].
  apply (map_res_spec _ _ _ Hrows).
Qed.

(** X15: when [print_calendar] returns, it has printed one block per year
    from the year of [start_datetime] to the year of [end_datetime], in
    order, and none when the end lies in an earlier year than the start. *)
Theorem print_calendar_one_block_per_year calendar_usage start_datetime
    end_datetime blocks :
  print_calendar calendar_usage start_datetime end_datetime = Ok blocks ->
  Z.of_nat (length blocks)
  = Z.max 0 (dt_year end_datetime - dt_year start_datetime + 1)
  /\ forall i block,
       blocks !! i = Some block ->
       yb_year block = dt_year start_datetime + Z.of_nat i
       /\ yb_year block <= dt_year end_datetime
       /\ length (yb_rows block) = 7%nat.
Proof.
  unfold print_calendar. intros Hrun.
  destruct (counter_peak _) as [most_busy|]; cbn [res_bind] in Hrun;
    [|discriminate].
  destruct (map_res_spec _ _ _ Hrun) as [Hlen Hall].
  rewrite py_range_length in Hlen.
  split; [lia|]. intros i block Hblock.
  assert (Hi : (i < Z.to_nat (dt_year end_datetime - dt_year start_datetime
                              + 1))%nat)
    by (rewrite <- Hlen; by apply lookup_lt_Some in Hblock).
  destruct (Hall i (Z.of_nat i) (py_range_lookup _ i Hi)) as (y & Hy & Hf).
  rewrite Hblock in Hy. injection Hy as <-.
  destruct (calendar_year_block_shape _ _ _ _ Hf) as [Hyear Hrows].
  split; [exact Hyear|]. split; [lia|exact Hrows].
Qed.

Lemma print_calendar_one_block_per_year_witness :
  exists blocks,
    print_calendar (MkCounter 0%N {[ 738886 := 2 ]})
      (MkDatetime 63800000000000000) (MkDatetime 63900000000000000)
    = Ok blocks
    /\ Z.of_nat (length blocks)
       = Z.max 0 (dt_year (MkDatetime 63900000000000000)
                  - dt_year (MkDatetime 63800000000000000) + 1)
    /\ forall i block,
         blocks !! i = Some block ->
         yb_year block
         = dt_year (MkDatetime 63800000000000000) + Z.of_nat i
         /\ yb_year block <= dt_year (MkDatetime 63900000000000000)
         /\ length (yb_rows block) = 7%nat.
Proof.
  destruct (print_calendar (MkCounter 0%N {[ 738886 := 2 ]})
              (MkDatetime 63800000000000000) (MkDatetime 63900000000000000))
    as [blocks|] eqn:Hrun; [|vm_compute in Hrun; discriminate].
  exists blocks. split; [reflexivity|].
  apply (print_calendar_one_block_per_year _ _ _ _ Hrun).
Defined.

(** ** The grid of a printed year *)

Lemma datetime_ymd_year year month day t :
  datetime_ymd year month day = Ok t -> 1 <= year <= 9999.
Proof.
  unfold datetime_ymd.
  destruct (Z.leb_spec 1 year); [|discriminate].
  destruct (Z.leb_spec year 9999); [|discriminate]. lia.
Qed.

(** The header loop of the year 9999 asks for a date after 9999-12-31. *)
Lemma calendar_year_range calendar_usage most_busy year block :
  calendar_year calendar_usage most_busy year = Ok block ->
  1 <= year <= 9998.
Proof.
  intros Hrun.
  assert (Hy : 1 <= year <= 9999).
  { unfold calendar_year in Hrun.
    destruct (datetime_ymd year 1 1) as [year_start|] eqn:Hs;
      [|discriminate].
    apply (datetime_ymd_year _ _ _ _ Hs). }
  destruct (Z.eq_dec year 9999) as [->|Hne]; [|lia].
  vm_compute in Hrun. discriminate.
Qed.

Lemma calendar_year_cells calendar_usage most_busy year block :
  calendar_year calendar_usage most_busy year = Ok block ->
  exists year_start year_end columns,
    datetime_ymd year 1 1 = Ok year_start
    /\ datetime_ymd year 12 31 = Ok year_end
    /\ week_columns (year_days year) (dt_weekday year_start) = Ok columns
    /\ yb_year block = year
    /\ length (yb_rows block) = 7%nat
    /\ forall weekday,
         (weekday < 7)%nat ->
         exists label cells,
           yb_rows block !! weekday = Some (label, cells)
           /\ length cells = Z.to_nat columns
           /\ forall week,
                (week < Z.to_nat columns)%nat ->
                exists c,
                  cells !! week = Some c
                  /\ grid_cell calendar_usage most_busy year_start year_end
                       (dt_weekday year_start) (Z.of_nat weekday)
                       (Z.of_nat week)
                     = Ok c.
Proof.
  unfold calendar_year. intros Hrun.
  destruct (datetime_ymd year 1 1) as [year_start|]; cbn [res_bind] in Hrun;
    [|discriminate].
  destruct (datetime_ymd year 12 31) as [year_end|]; cbn [res_bind] in Hrun;
    [|discriminate].
  destruct (week_columns _ _) as [columns|] eqn:Hcols; cbn [res_bind] in Hrun;
    [|discriminate].
  destruct (header_loop _ _ _ _ _) as [first_row|] eqn:Hhead;
    cbn [res_bind] in Hrun; [|discriminate].
  destruct (map_res _ (py_range 7)) as [rows|] eqn:Hrows;
    cbn [res_bind] in Hrun; [|discriminate].
  injection Hrun as <-.
  exists year_start, year_end, columns. cbn [yb_year yb_rows].
  destruct (map_res_spec _ _ _ Hrows) as [Hlen Hrow].
  do 2 (split; [reflexivity|]). split; [exact Hcols|].
  split; [reflexivity|]. split; [exact Hlen|].
  intros weekday Hwd.
  destruct (Hrow weekday (Z.of_nat weekday) (py_range_lookup 7 weekday Hwd))
    as ([label cells] & Hr & Hf).
  destruct (py_index weekdays (Z.of_nat weekday)) as [label'|];
    cbn [res_bind] in Hf; [|discriminate].
  destruct (map_res _ (py_range columns)) as [cells'|] eqn:Hcells;
    cbn [res_bind] in Hf; [|discriminate].
  injection Hf as <- <-.
  destruct (map_res_spec _ _ _ Hcells) as [Hclen Hcell].
  exists (label' ++ " "), cells'. split; [exact Hr|]. split.
  - by rewrite Hclen, py_range_length.
  - intros week Hweek.
    apply (Hcell week (Z.of_nat week)). by apply py_range_lookup.
Qed.

(** C3: in every year block that [print_calendar] prints, with [O] the
    weekday of January 1 and [D] the computed length of the year, the seven
    rows have [ceil((D + O) / 7)] cells each, and every date from January 1
    to December 31 of the year has its square in exactly one cell of the
    block: the square, coloured by the count of that date against the peak,
    is in the row [weekday] and the column [week] with
    [date = January 1 + (weekday + 7 * week - O)] days, a row 0..6 and a
    column below the number of columns, and no other cell of the block is a
    square of that date. *)
Theorem calendar_grid_covers_year calendar_usage start_datetime end_datetime
    blocks i block :
  print_calendar calendar_usage start_datetime end_datetime = Ok blocks ->
  blocks !! i = Some block ->
  exists most_busy year_start year_end columns,
    counter_peak (counts calendar_usage) = Ok most_busy
    /\ yb_year block = dt_year start_datetime + Z.of_nat i
    /\ datetime_ymd (yb_year block) 1 1 = Ok year_start
    /\ datetime_ymd (yb_year block) 12 31 = Ok year_end
    /\ week_columns (year_days (yb_year block)) (dt_weekday year_start)
       = Ok columns
    /\ 7 * (columns - 1)
       < year_days (yb_year block) + dt_weekday year_start
       <= 7 * columns
    /\ length (yb_rows block) = 7%nat
    /\ (forall row,
          In row (yb_rows block) -> Z.of_nat (length row.2) = columns)
    /\ forall date,
         dt_date year_start <= date <= dt_date year_end ->
         exists weekday week strength style,
           (weekday < 7)%nat
           /\ Z.of_nat week < columns
           /\ date = dt_date year_start
                     + (Z.of_nat weekday + 7 * Z.of_nat week
                        - dt_weekday year_start)
           /\ int_truediv (counter_get (counts calendar_usage) date) most_busy
              = Ok strength
           /\ color_strength strength = Ok style
           /\ square_at block weekday week date style
           /\ forall weekday' week' style',
                square_at block weekday' week' date style' ->
                weekday' = weekday /\ week' = week.
Proof.
  unfold print_calendar. intros Hrun Hblock.
  destruct (counter_peak _) as [most_busy|] eqn:Hpeak;
    cbn [res_bind] in Hrun; [|discriminate].
  destruct (map_res_spec _ _ _ Hrun) as [Hlen Hall].
  rewrite py_range_length in Hlen.
  assert (Hi : (i < Z.to_nat (dt_year end_datetime - dt_year start_datetime
                              + 1))%nat)
    by (rewrite <- Hlen; by apply lookup_lt_Some in Hblock).
  destruct (Hall i (Z.of_nat i) (py_range_lookup _ i Hi)) as (y & Hy & Hyear).
  rewrite Hblock in Hy. injection Hy as <-.
  set (year := dt_year start_datetime + Z.of_nat i) in *.
  pose proof (calendar_year_range _ _ _ _ Hyear) as Hrange.
  destruct (calendar_year_cells _ _ _ _ Hyear)
    as (year_start & year_end & columns & Hs & He & Hcols & Hby & Hrows
        & Hcells).
  destruct (cell_date_covers_year year Hrange)
    as (ys & ye & cols & Hs' & He' & Hcols' & Hbound & _ & Hdates).
  rewrite Hs in Hs'. injection Hs' as <-.
  rewrite He in He'. injection He' as <-.
  rewrite Hcols in Hcols'. injection Hcols' as <-.
  assert (Hcpos : 0 < columns).
  { pose proof (year_days_cases year) as Hd.
    pose proof (date_weekday_range (dt_date year_start)) as Ho.
    fold (dt_weekday year_start) in Ho. lia. }
  exists most_busy, year_start, year_end, columns. rewrite Hby.
  split; [reflexivity|]. split; [reflexivity|].
  do 3 (split; [assumption|]). split; [exact Hbound|].
  split; [exact Hrows|]. split.
  { intros row Hin.
    apply list_elem_of_In, list_elem_of_lookup_1 in Hin as [weekday Hrow].
    assert (Hwd : (weekday < 7)%nat)
      by (rewrite <- Hrows; by apply lookup_lt_Some in Hrow).
    destruct (Hcells weekday Hwd) as (label & cells & Hr & Hclen & _).
    rewrite Hrow in Hr. injection Hr as ->. simpl. rewrite Hclen. lia. }
  intros date Hdate.
  destruct (Hdates date Hdate)
    as (weekday & week & Hwd & Hwk & Hpos & (day & Hcell & Hday) & Huniq).
  assert (Hwdn : (Z.to_nat weekday < 7)%nat) by lia.
  assert (Hwkn : (Z.to_nat week < Z.to_nat columns)%nat) by lia.
  destruct (Hcells _ Hwdn) as (label & cells & Hr & Hclen & Hcs).
  destruct (Hcs _ Hwkn) as (c & Hc & Hg).
  rewrite !Z2Nat.id in Hg by lia.
  unfold grid_cell in Hg. rewrite Hcell in Hg. cbn [res_bind] in Hg.
  rewrite Hday in Hg.
  destruct (int_truediv _ _) as [strength|] eqn:Hstrength;
    cbn [res_bind] in Hg; [|discriminate].
  destruct (color_strength strength) as [style|] eqn:Hstyle;
    cbn [res_bind] in Hg; [|discriminate].
  injection Hg as <-.
  exists (Z.to_nat weekday), (Z.to_nat week), strength, style.
  split; [exact Hwdn|]. split; [lia|].
  split; [rewrite !Z2Nat.id by lia; exact Hpos|].
  split; [reflexivity|]. split; [exact Hstyle|]. split.
  { exists label, cells. by split. }
  intros weekday' week' style' (label' & cells' & Hr' & Hc').
  assert (Hwd' : (weekday' < 7)%nat)
    by (rewrite <- Hrows; by apply lookup_lt_Some in Hr').
  destruct (Hcells _ Hwd') as (label'' & cells'' & Hr'' & Hclen' & Hcs').
  rewrite Hr' in Hr''. injection Hr'' as <- <-.
  assert (Hwk' : (week' < Z.to_nat columns)%nat)
    by (rewrite <- Hclen'; by apply lookup_lt_Some in Hc').
  destruct (Hcs' _ Hwk') as (c' & Hc'' & Hg').
  rewrite Hc' in Hc''. injection Hc'' as <-.
  pose proof (grid_cell_agrees _ _ _ _ _ _ _ _ Hg') as Hagree.
  destruct (cell_date year_start year_end (dt_weekday year_start)
              (Z.of_nat weekday') (Z.of_nat week')) as [[day'|]|] eqn:Hcell';
    [|discriminate|destruct Hagree].
  destruct Hagree as [style'' Heq]. injection Heq as Hday' _.
  destruct (Huniq (Z.of_nat weekday') (Z.of_nat week') day') as [H1 H2];
    [lia|lia|exact Hcell'|by symmetry|].
  split; lia.
Qed.

Lemma calendar_grid_covers_year_witness :
  exists blocks block,
    print_calendar (calendar_usage two_uses) t_first t_second = Ok blocks
    /\ blocks !! 0%nat = Some block
    /\ exists most_busy year_start year_end columns,
         counter_peak (counts (calendar_usage two_uses)) = Ok most_busy
         /\ yb_year block = dt_year t_first + Z.of_nat 0
         /\ datetime_ymd (yb_year block) 1 1 = Ok year_start
         /\ datetime_ymd (yb_year block) 12 31 = Ok year_end
         /\ week_columns (year_days (yb_year block)) (dt_weekday year_start)
            = Ok columns
         /\ 7 * (columns - 1)
            < year_days (yb_year block) + dt_weekday year_start
            <= 7 * columns
         /\ length (yb_rows block) = 7%nat
         /\ (forall row,
               In row (yb_rows block) -> Z.of_nat (length row.2) = columns)
         /\ forall date,
              dt_date year_start <= date <= dt_date year_end ->
              exists weekday week strength style,
                (weekday < 7)%nat
                /\ Z.of_nat week < columns
                /\ date = dt_date year_start
                          + (Z.of_nat weekday + 7 * Z.of_nat week
                             - dt_weekday year_start)
                /\ int_truediv
                     (counter_get (counts (calendar_usage two_uses)) date)
                     most_busy
                   = Ok strength
                /\ color_strength strength = Ok style
                /\ square_at block weekday week date style
                /\ forall weekday' week' style',
                     square_at block weekday' week' date style' ->
                     weekday' = weekday /\ week' = week.
Proof.
  destruct (print_calendar (calendar_usage two_uses) t_first t_second)
    as [blocks|] eqn:Hrun; [|vm_compute in Hrun; discriminate].
  destruct blocks as [|block blocks]; [vm_compute in Hrun; discriminate|].
  exists (block :: blocks), block.
  split; [reflexivity|]. split; [reflexivity|].
  apply (calendar_grid_covers_year _ _ _ _ 0%nat block Hrun). reflexivity.
Defined.

(** ** The records kept by [analyze_commands] *)

Lemma keep_in_range_spec now start_datetime end_datetime commands :
  forall kept next kept' next',
    keep_in_range now start_datetime end_datetime commands kept next
    = (Ok kept', next') ->
    forall k c,
      In (k, c) kept' ->
      In (k, c) kept
      \/ exists k0 src,
           In (k0, src) commands
           /\ name src = k
           /\ name c = k
           /\ 1 <= count c
           /\ map use_entry (uses c)
              = map use_entry
                  (List.filter (in_range start_datetime end_datetime)
                     (uses src)).
Proof.
  induction commands as [|[k0 src] commands IH];
    intros kept next kept' next' Hrun k c Hin; simpl in Hrun.
  - injection Hrun as <- <-. by left.
  - destruct (get_uses_from_date now start_datetime (Some end_datetime) src
                next) as [[self' [cmd_in_range|]] n1] eqn:Hcall;
      [|discriminate].
    assert (Hres : (get_uses_from_date now start_datetime (Some end_datetime)
                      src next).1.2 = Ok cmd_in_range) by (by rewrite Hcall).
    destruct (get_uses_from_date_result _ _ _ _ _ _ Hres)
      as (_ & _ & Hcount & Hname & _).
    assert (Hentries : map use_entry (uses cmd_in_range)
                       = map use_entry
                           (List.filter (in_range start_datetime end_datetime)
                              (uses src))).
    { unfold get_uses_from_date in Hcall. simpl in Hcall.
      destruct (replay_uses _ _ _ _) as [[c1|] n2] eqn:Hr; [|discriminate].
      injection Hcall as _ <- _.
      apply (replay_uses_entries _ _ _ _ _ _ Hr). }
    destruct (IH _ _ _ _ Hrun k c Hin) as [Hold|Hnew].
    + destruct (Z.ltb_spec 0 (Z.of_nat (length (uses cmd_in_range))));
        [|by left].
      apply dict_set_in in Hold as [[-> ->]|Hold]; [|by left].
      right. exists k0, src. split; [by left|].
      split; [by rewrite Hname|]. split; [reflexivity|].
      split; [|exact Hentries].
      simpl in Hcount. rewrite Hcount, <- (length_map use_entry), <- Hentries,
        length_map. lia.
    + right. destruct Hnew as (k1 & src1 & H1 & Hrest).
      exists k1, src1. split; [by right|exact Hrest].
Qed.

(** X16: every record that [analyze_commands] returns comes from a record
    of the input with the same name, is stored under that name, holds
    exactly that record's uses between [start_datetime] and the end of the
    window ([now] when no end is given) and has at least one use. *)
Theorem analyze_commands_keeps_used now width commands start_datetime
    end_datetime next kept rep next' :
  analyze_commands now width commands start_datetime end_datetime next
  = (Ok (kept, rep), next') ->
  forall k c,
    In (k, c) kept ->
    exists k0 src,
      In (k0, src) commands
      /\ name src = k
      /\ name c = k
      /\ 1 <= count c
      /\ map use_entry (uses c)
         = map use_entry
             (List.filter
                (in_range start_datetime (default now end_datetime))
                (uses src)).
Proof.
  unfold analyze_commands. intros Hrun k c Hin.
  replace (match end_datetime with Some d => d | None => now end)
    with (default now end_datetime) in Hrun by (by destruct end_datetime).
  destruct (keep_in_range _ _ _ _ _ _) as [[kept0|] n1] eqn:Hkeep;
    [|discriminate].
  destruct (sum_buckets _ _ _ _) as [[calendar weekly] hourly].
  destruct (print_calendar _ _ _) as [cal|]; cbn [res_bind] in Hrun;
    [|discriminate].
  destruct (print_week_usage _ _) as [week|]; cbn [res_bind] in Hrun;
    [|discriminate].
  destruct (print_time_usage _ _) as [time|]; cbn [res_bind] in Hrun;
    [|discriminate].
  injection Hrun as <- _ _.
  destruct (keep_in_range_spec _ _ _ _ _ _ _ _ Hkeep k c Hin) as [[]|Hnew].
  exact Hnew.
Qed.

Lemma analyze_commands_keeps_used_witness :
  exists kept rep next',
    analyze_commands t_second 80 [("git", two_uses)] t_first (Some t_first)
      11%N
    = (Ok (kept, rep), next')
    /\ forall k c,
         In (k, c) kept ->
         exists k0 src,
           In (k0, src) [("git", two_uses)]
           /\ name src = k
           /\ name c = k
           /\ 1 <= count c
           /\ map use_entry (uses c)
              = map use_entry
                  (List.filter
                     (in_range t_first (default t_second (Some t_first)))
                     (uses src)).
Proof.
  destruct (analyze_commands t_second 80 [("git", two_uses)] t_first
              (Some t_first) 11%N)
    as [[[kept rep]|] next'] eqn:Hrun; [|vm_compute in Hrun; discriminate].
  exists kept, rep, next'. split; [reflexivity|].
  apply (analyze_commands_keeps_used _ _ _ _ _ _ _ _ _ Hrun).
Defined.

(** ** The colour mapper *)

Lemma float_below_zero_below_one (strength : float) :
  float_ltb strength (float_lit 0) = true ->
  float_ltb strength (float_lit 1) = true.
Proof.
  destruct strength as [s|s| |s m e]; try discriminate;
    destruct s; try discriminate; reflexivity.
Qed.

(** X17: [color_strength] clamps and never leaves the palette at its ends: a
    strength that is not below 1 gets the last colour, a strength below 0
    gets the first, and a day without uses, whose strength is [0 / most_busy]
    for any non-zero [most_busy], gets the first colour too. *)
Theorem color_strength_ends :
  (forall strength,
      float_ltb strength (float_lit 1) = false ->
      color_index strength = Ok 9
      /\ color_strength strength = py_index colors 9)
  /\ (forall strength,
        float_ltb strength (float_lit 0) = true ->
        color_index strength = Ok 0
        /\ color_strength strength = py_index colors 0)
  /\ (forall most_busy,
        most_busy <> 0 ->
        exists strength,
          int_truediv 0 most_busy = Ok strength
          /\ color_index strength = Ok 0
          /\ color_strength strength = py_index colors 0).
Proof.
  split; [|split].
  - intros strength Hge. unfold color_strength, color_index, clamp_strength.
    rewrite Hge. by split.
  - intros strength Hlt. unfold color_strength, color_index, clamp_strength.
    rewrite (float_below_zero_below_one _ Hlt), Hlt. by split.
  - intros most_busy Hne. unfold int_truediv.
    destruct (Z.eqb_spec most_busy 0); [done|].
    destruct most_busy as [|p|p]; [done| |];
      (eexists; split; [reflexivity|]; by split).
Qed.

Lemma color_strength_ends_witness :
  (color_index (float_lit 2) = Ok 9
   /\ color_strength (float_lit 2) = py_index colors 9)
  /\ (color_index (float_lit (-1)) = Ok 0
      /\ color_strength (float_lit (-1)) = py_index colors 0)
  /\ exists strength,
       int_truediv 0 7 = Ok strength
       /\ color_index strength = Ok 0
       /\ color_strength strength = py_index colors 0.
Proof.
  destruct color_strength_ends as (H1 & H2 & H3).
  split; [apply H1; reflexivity|]. split; [apply H2; reflexivity|].
  apply H3. lia.
Defined.
(** ** The bars of the bucket reporters *)

Lemma bar_cols_ok_from_spec fuel :
  forall first width,
    bar_cols_ok_from fuel first = true ->
    first <= width < first + Z.of_nat fuel ->
    bar_cols_ok width = true.
Proof.
  induction fuel as [|fuel IH]; intros first width Hall Hw; [lia|].
  simpl in Hall. apply andb_prop in Hall as [Hfirst Hrest].
  destruct (Z.eq_dec width first) as [->|Hne]; [exact Hfirst|].
  apply (IH (first + 1)); [exact Hrest|lia].
Qed.

Lemma bar_cols_ok_checked :
  bar_cols_ok_from (Z.to_nat 65536) 0 = true.
Proof. vm_cast_no_check (eq_refl true). Qed.

Lemma bar_cols_spec (width : Z) :
  0 <= width <= 65535 ->
  exists cols c,
    bar_cols width = Ok cols
    /\ -5 <= 10 * cols - (7 * width - 30) <= 5
    /\ (width < 175 -> cols = div_half_even (7 * width - 30) 10)
    /\ float_of_int cols = Ok c
    /\ py_floor (float_mul c (float_lit 1)) = Ok cols.
Proof.
  intros Hw.
  pose proof (bar_cols_ok_from_spec _ 0 width bar_cols_ok_checked
                ltac:(lia)) as Hok.
  unfold bar_cols_ok in Hok.
  destruct (bar_cols width) as [cols|e]; [|discriminate].
  destruct (float_of_int cols) as [c|e] eqn:Hc;
    [|by rewrite andb_false_r in Hok].
  destruct (py_floor (float_mul c (float_lit 1))) as [n|e] eqn:Hfull;
    [|by rewrite andb_false_r in Hok].
  apply andb_prop in Hok as [Hok Hn].
  apply andb_prop in Hok as [Hok Htie].
  apply andb_prop in Hok as [Hlo Hhi].
  apply Z.leb_le in Hlo, Hhi. apply Z.eqb_eq in Hn. subst n.
  exists cols, c. split; [reflexivity|]. split; [lia|].
  split; [|by split].
  intros Hsmall. apply orb_prop in Htie as [Hbig|Heq].
  - apply Z.leb_le in Hbig. lia.
  - by apply Z.eqb_eq in Heq.
Qed.

(** A quotient of an integer by itself is the double [1.0]. *)
Lemma SFdiv_self (s : bool) (p : positive) :
  SFdiv prec emax (S754_finite s p 0) (S754_finite s p 0) = float_lit 1.
Proof.
  unfold SFdiv, SFdiv_core_binary.
  replace (Zdigits2 (Z.pos p) + 0 - (Zdigits2 (Z.pos p) + 0)) with 0 by lia.
  change (Z.min (fexp prec emax 0) (0 - 0)) with (-53).
  change (0 - 0 - -53) with 53. cbv iota beta.
  rewrite Z.shiftl_mul_pow2 by lia.
  destruct (Z.div_eucl (Z.pos p * 2 ^ 53) (Z.pos p)) as [q r] eqn:Hdiv.
  assert (Hq : q = 2 ^ 53).
  { change q with (q, r).1. rewrite <- Hdiv.
    change (Z.div_eucl (Z.pos p * 2 ^ 53) (Z.pos p)).1
      with (Z.pos p * 2 ^ 53 / Z.pos p).
    rewrite Z.mul_comm. apply Z.div_mul. lia. }
  assert (Hr : r = 0).
  { change r with (q, r).2. rewrite <- Hdiv.
    change (Z.div_eucl (Z.pos p * 2 ^ 53) (Z.pos p)).2
      with ((Z.pos p * 2 ^ 53) mod Z.pos p).
    rewrite Z.mul_comm. apply Z.mod_mul. lia. }
  subst q r.
  assert (Hloc : new_location (Z.pos p) 0 = loc_Exact).
  { unfold new_location. destruct (Z.even _); reflexivity. }
  rewrite Hloc. rewrite xorb_nilpotent. vm_compute. reflexivity.
Qed.

Lemma int_truediv_self (p : Z) : p <> 0 -> int_truediv p p = Ok (float_lit 1).
Proof.
  intros Hp. unfold int_truediv.
  destruct (Z.eqb_spec p 0); [done|].
  destruct p as [|q|q]; [done| |]; cbn [exact_of_Z]; rewrite SFdiv_self;
    reflexivity.
Qed.

Lemma int_truediv_zero (p : Z) :
  p <> 0 -> exists s, int_truediv 0 p = Ok (S754_zero s).
Proof.
  intros Hp. unfold int_truediv.
  destruct (Z.eqb_spec p 0); [done|].
  destruct p as [|q|q]; [done| |]; eexists; reflexivity.
Qed.

Lemma int_truediv_ok_nonzero a b f : int_truediv a b = Ok f -> b <> 0.
Proof.
  unfold int_truediv. destruct (Z.eqb_spec b 0); [discriminate|done].
Qed.

Lemma py_floor_mul_zero (c : float) s n :
  py_floor (float_mul c (S754_zero s)) = Ok n -> n = 0.
Proof.
  destruct c as [sc|sc| |sc m e]; simpl; intros H; try discriminate;
    by injection H.
Qed.

Lemma bar_row_scaled width cols c1 label commands p line :
  bar_cols width = Ok cols ->
  float_of_int cols = Ok c1 ->
  py_floor (float_mul c1 (float_lit 1)) = Ok cols ->
  bar_row width label commands p = Ok line ->
  0 <= cols /\ p <> 0
  /\ exists freq n,
       bl_label line = label
       /\ bl_commands line = commands
       /\ bl_cols line = cols
       /\ int_truediv commands p = Ok freq
       /\ py_floor (float_mul c1 freq) = Ok n
       /\ bl_bar line = Z.max 0 n
       /\ (commands = 0 -> bl_bar line = 0)
       /\ (commands = p -> bl_bar line = cols).
Proof.
  intros Hcols Hc1 Hfull Hrow.
  destruct (bar_row_inv _ _ _ _ _ Hrow)
    as (freq & cols' & c & n & Hf & Hcols' & Hc & Hn & Hpos & ->).
  rewrite Hcols in Hcols'. injection Hcols' as <-.
  rewrite Hc1 in Hc. injection Hc as <-.
  pose proof (int_truediv_ok_nonzero _ _ _ Hf) as Hp.
  split; [exact Hpos|]. split; [exact Hp|].
  exists freq, n. cbn [bl_label bl_commands bl_cols bl_bar].
  do 6 (split; [done|]). split.
  - intros ->. destruct (int_truediv_zero p Hp) as [s Hz].
    assert (freq = S754_zero s) as -> by congruence.
    rewrite (py_floor_mul_zero _ _ _ Hn). reflexivity.
  - intros ->. rewrite (int_truediv_self p Hp) in Hf.
    assert (freq = float_lit 1) as -> by congruence.
    assert (n = cols) as -> by congruence. lia.
Qed.

Lemma bar_rows_scaled width cols c1 labels :
  bar_cols width = Ok cols ->
  float_of_int cols = Ok c1 ->
  py_floor (float_mul c1 (float_lit 1)) = Ok cols ->
  forall first usage p lines,
    bar_rows width labels first usage p = Ok lines ->
    length lines = length labels
    /\ (labels <> [] -> 0 <= cols /\ p <> 0)
    /\ forall bucket label,
         labels !! bucket = Some label ->
         exists line freq n,
           lines !! bucket = Some line
           /\ bl_label line = label
           /\ bl_commands line = counter_get usage (first + Z.of_nat bucket)
           /\ bl_cols line = cols
           /\ int_truediv (bl_commands line) p = Ok freq
           /\ py_floor (float_mul c1 freq) = Ok n
           /\ bl_bar line = Z.max 0 n
           /\ (bl_commands line = 0 -> bl_bar line = 0)
           /\ (bl_commands line = p -> bl_bar line = cols).
Proof.
  intros Hcols Hc1 Hfull.
  induction labels as [|label labels IH]; intros first usage p lines Hrun;
    simpl in Hrun.
  - injection Hrun as <-. split; [reflexivity|]. split; [done|].
    intros bucket label Hl. discriminate.
  - destruct (bar_row _ _ _ _) as [line|] eqn:Hrow;
      cbn [res_bind] in Hrun; [|discriminate].
    destruct (bar_rows _ _ _ _ _) as [rest|] eqn:Hrest;
      cbn [res_bind] in Hrun; [|discriminate].
    injection Hrun as <-.
    destruct (IH _ _ _ _ Hrest) as (Hlen & _ & Hrows).
    destruct (bar_row_scaled _ _ _ _ _ _ _ Hcols Hc1 Hfull Hrow)
      as (Hpos & Hp & freq & n & H1 & H2 & H3 & H4 & H5 & H6 & H7 & H8).
    split; [simpl; by rewrite Hlen|]. split; [done|].
    intros [|bucket] l Hl.
    + injection Hl as <-. exists line, freq, n.
      change (Z.of_nat 0) with 0. rewrite Z.add_0_r, H2.
      split; [reflexivity|]. by repeat split.
    + destruct (Hrows bucket l Hl) as (line' & freq' & n' & Hline & Hrest').
      exists line', freq', n'. split; [exact Hline|].
      replace (first + Z.of_nat (S bucket))
        with (first + 1 + Z.of_nat bucket) by lia.
      exact Hrest'.
Qed.

Lemma chart_scaled width cols c1 labels usage lines :
  bar_cols width = Ok cols ->
  float_of_int cols = Ok c1 ->
  py_floor (float_mul c1 (float_lit 1)) = Ok cols ->
  labels <> [] ->
  (try most_frequent <- counter_peak (counts usage) in
   bar_rows width labels 0 (counts usage) most_frequent)%res = Ok lines ->
  0 <= cols /\ bars_scaled_to_peak cols usage labels lines.
Proof.
  intros Hcols Hc1 Hfull Hlabels Hrun.
  pose proof (counter_peak_spec (counts usage)) as Hpeak.
  destruct (counter_peak (counts usage)) as [p|] eqn:Hpk;
    cbn [res_bind] in Hrun; [|discriminate].
  destruct Hpeak as [Hattained Hmax].
  destruct (bar_rows_scaled _ _ _ _ Hcols Hc1 Hfull _ _ _ _ Hrun)
    as (Hlen & Hne & Hrows).
  destruct (Hne Hlabels) as [Hpos Hp].
  split; [exact Hpos|]. exists p.
  split; [exact Hpk|]. split; [exact Hattained|]. split; [exact Hmax|].
  split; [exact Hp|]. split; [exact Hlen|].
  intros bucket label Hl.
  destruct (Hrows bucket label Hl)
    as (line & freq & n & H1 & H2 & H3 & H4 & H5 & H6 & H7 & H8 & H9).
  rewrite Z.add_0_l in H3.
  exists line, freq, c1, n. by repeat split.
Qed.

(** C9, as the code has it: for a terminal of 0 to 65535 columns the width
    of the bar field is [round(width * 0.7 - 3)], an integer nearest to
    [(7 * width - 30) / 10] (the even one at a tie when the terminal has
    fewer than 175 columns) and not clamped: it is negative exactly when the
    terminal has fewer than 4 columns, and then neither reporter prints a
    chart.  In a chart that [print_week_usage] or [print_time_usage] prints,
    the line of a bucket with count [c] has [floor(cols * (c / p))] squares,
    computed in doubles, where [p] is the largest count of the Counter; a
    bucket with count 0 has none and a bucket with count [p] has [cols]. *)
Theorem bar_field_width_and_length (width : Z) :
  0 <= width <= 65535 ->
  exists cols,
    bar_cols width = Ok cols
    /\ -5 <= 10 * cols - (7 * width - 30) <= 5
    /\ (width < 175 -> cols = div_half_even (7 * width - 30) 10)
    /\ (cols < 0 <-> width < 4)
    /\ forall usage lines,
         (print_week_usage width usage = Ok lines ->
          4 <= width /\ bars_scaled_to_peak cols usage weekdays lines)
         /\ (print_time_usage width usage = Ok lines ->
             4 <= width /\ bars_scaled_to_peak cols usage hours lines).
Proof.
  intros Hw.
  destruct (bar_cols_spec width Hw)
    as (cols & c1 & Hcols & Hnear & Htie & Hc1 & Hfull).
  assert (Hsign : cols < 0 <-> width < 4) by lia.
  exists cols. do 4 (split; [done|]).
  intros usage lines. split; intros Hrun.
  - destruct (chart_scaled width cols c1 weekdays usage lines)
      as [Hpos Hchart]; try done.
    split; [lia|exact Hchart].
  - destruct (chart_scaled width cols c1 hours usage lines)
      as [Hpos Hchart]; try done.
    split; [lia|exact Hchart].
Qed.

Lemma bar_field_width_and_length_witness :
  (exists lines, print_week_usage 80 (MkCounter 0%N {[ 1 := 3 ]}) = Ok lines)
  /\ exists cols,
       bar_cols 80 = Ok cols
       /\ -5 <= 10 * cols - (7 * 80 - 30) <= 5
       /\ (80 < 175 -> cols = div_half_even (7 * 80 - 30) 10)
       /\ (cols < 0 <-> 80 < 4)
       /\ forall usage lines,
            (print_week_usage 80 usage = Ok lines ->
             4 <= 80 /\ bars_scaled_to_peak cols usage weekdays lines)
            /\ (print_time_usage 80 usage = Ok lines ->
                4 <= 80 /\ bars_scaled_to_peak cols usage hours lines).
Proof.
  split; [eexists; vm_compute; reflexivity|].
  apply (bar_field_width_and_length 80). lia.
Defined.

(** C9 as stated fails.  On a terminal of one column the width of the bar
    field is -2, where the clamped width of the specification is 0, and the
    chart is not printed because the format refuses the negative width.  On
    a terminal of 25 columns the width is [round(17.5 - 3)], 14, where the
    [round(17.5) - 3] of the specification is 15.  And the length of a bar
    is computed in doubles: with a field of 49 cells, on a terminal of 74
    columns, a count of 1 against a peak of 49 gives no square, since
    [49 * (1 / 49)] is below 1 as a double. *)
Lemma bar_field_width_negative :
  bar_cols 1 = Ok (-2)
  /\ spec_available_width 1 = Ok 0
  /\ print_week_usage 1 (MkCounter 0%N {[ 0 := 1 ]}) = Raise ValueError
  /\ bar_cols 25 = Ok 14
  /\ spec_available_width 25 = Ok 15
  /\ bar_cols 74 = Ok 49
  /\ (exists lines line,
        print_time_usage 74 (MkCounter 0%N {[ 0 := 49; 1 := 1 ]}) = Ok lines
        /\ lines !! 1%nat = Some line
        /\ bl_commands line = 1
        /\ bl_bar line = 0).
Proof.
  do 6 (split; [by vm_compute|]).
  eexists. eexists. split; [vm_compute; reflexivity|]. by vm_compute.
Qed.
